(** * aws-node-lambda-helper: the deploy and test helper of [src/main.ts]

    A shallow embedding of the class [GdwAwsLambda] and of the free
    functions it relies on, followed by the properties its
    specification states.

    - A JavaScript value that comes out of [JSON.parse] or of the AWS
      SDK is a member of the inductive type [value]; an object is the
      list of its own properties, in the order [Object.keys] lists
      them.
    - The outside world (files, remote replies, loaded modules) is a
      record of functions, [World]; the calls that leave the process
      are logged in the state.
    - A promise-returning method is a [Task]: a function from the state
      (the private fields of the instance and the log) to an [outcome]
      and a state.  A promise may be fulfilled, rejected, or never
      settled.

    The first part holds the definitions, the second the lemmas and
    theorems. *)

From Stdlib Require Import String Ascii ZArith Bool Arith Lia List.
From Stdlib Require Import Permutation DecimalString.
Import ListNotations.
Open Scope string_scope.

Set Warnings "-register-all".

(* ################################################################## *)
(** * Part I: the program *)

(* ================================================================== *)
(** ** Values *)

(** What [JSON.parse] can return, plus [undefined].  Numbers of the
    documents handled here (MemorySize, Timeout) are integers.  An
    object is the list of its own enumerable properties, in the order
    [Object.keys] lists them; a JavaScript object never has two
    properties of one name. *)
Inductive value : Type :=
| VUndefined
| VNull
| VBool (b : bool)
| VNum (n : Z)
| VStr (s : string)
| VArr (items : list value)
| VObj (props : list (string * value)).

Definition index_name (i : nat) : string :=
  NilEmpty.string_of_uint (Nat.to_uint i).

Fixpoint assoc {A : Type} (k : string) (ps : list (string * A)) : option A :=
  match ps with
  | [] => None
  | (k', v) :: rest => if String.eqb k k' then Some v else assoc k rest
  end.

Definition indexed (items : list value) : list (string * value) :=
  combine (map index_name (seq 0 (length items))) items.

(** [Object.keys(v)] for an object or an array. *)
Definition Object_keys (v : value) : list string :=
  match v with
  | VObj ps => map fst ps
  | VArr items => map fst (indexed items)
  | _ => []
  end.

(** [v[k]] and [v.k], for a [v] that is neither [undefined] nor [null]
    (every read of the program is guarded that way).  The properties a
    plain object inherits are functions, or the prototype object itself:
    none of them is strictly equal to a value of a parsed document, so
    reading them as [undefined] leaves every comparison of the program
    unchanged. *)
Definition get (v : value) (k : string) : value :=
  match v with
  | VObj ps => match assoc k ps with Some x => x | None => VUndefined end
  | VArr items =>
      if String.eqb k "length" then VNum (Z.of_nat (length items))
      else match assoc k (indexed items) with
           | Some x => x
           | None => VUndefined
           end
  | VStr s => if String.eqb k "length"
              then VNum (Z.of_nat (String.length s)) else VUndefined
  | _ => VUndefined
  end.

(** [a === b].  Primitives are compared by value, objects and arrays by
    identity; the operands of every [===] of the program that can be
    objects come from two different documents (the remote reply and a
    local file), hence are never the same allocation. *)
Definition strict_eq (a b : value) : bool :=
  match a, b with
  | VUndefined, VUndefined => true
  | VNull, VNull => true
  | VBool x, VBool y => Bool.eqb x y
  | VNum x, VNum y => Z.eqb x y
  | VStr x, VStr y => String.eqb x y
  | _, _ => false
  end.

(** The condition of [if (v)]. *)
Definition truthy (v : value) : bool :=
  match v with
  | VUndefined | VNull => false
  | VBool b => b
  | VNum n => negb (Z.eqb n 0)
  | VStr s => negb (String.eqb s "")
  | VArr _ | VObj _ => true
  end.

Definition Array_isArray (v : value) : bool :=
  match v with VArr _ => true | _ => false end.

(* ================================================================== *)
(** ** The free helper functions *)

(** [isObject]: [typeof obj === 'object' && obj !== null]. *)
Definition isObject (obj : value) : bool :=
  match obj with
  | VArr _ | VObj _ => true
  | _ => false
  end.

(** [isEmpty]: null, undefined, an object without keys or an empty
    array. *)
Definition isEmpty (obj : value) : bool :=
  match obj with
  | VUndefined => true
  | VNull => true
  | _ =>
      (isObject obj && (length (Object_keys obj) =? 0)%nat)
      || (Array_isArray obj && strict_eq (get obj "length") (VNum 0))
  end.

(** [isNEString]: a non-empty string. *)
Definition isNEString (v : value) : bool :=
  match v with
  | VStr s => (0 <? String.length s)%nat
  | _ => false
  end.

(* ================================================================== *)
(** ** [GdwAwsLambda.compareEnvironment] *)

(** The loop [for (i = 0; i < l1; i++)] over the keys of the first
    side. *)
Fixpoint same_values (vars1 vars2 : value) (k1 : list string) : bool :=
  match k1 with
  | [] => true
  | k :: rest =>
      if negb (strict_eq (get vars1 k) (get vars2 k)) then false
      else same_values vars1 vars2 rest
  end.

(** The recurring test
    [isEmpty(env) || isObject(env) && env && isEmpty(env.Variables)]. *)
Definition no_variables (env : value) : bool :=
  isEmpty env
  || (isObject env && truthy env && isEmpty (get env "Variables")).

(** The recurring test [isObject(env) && env &&
    isObject(env.Variables) && Object.keys(env.Variables).length > 0]. *)
Definition some_variables (env : value) : bool :=
  isObject env && truthy env && isObject (get env "Variables")
  && (0 <? length (Object_keys (get env "Variables")))%nat.

Definition compareEnvironment (env1 env2 : value) : bool :=
  if no_variables env1 && no_variables env2 then true
  else if some_variables env2 && no_variables env1 then false
  else if some_variables env1 && no_variables env2 then false
  else if isObject env1 && truthy env1
          && isObject (get env1 "Variables") && truthy (get env1 "Variables")
          && isObject env2 && truthy env2
          && isObject (get env2 "Variables") && truthy (get env2 "Variables")
  then
    let k1 := Object_keys (get env1 "Variables") in
    let k2 := Object_keys (get env2 "Variables") in
    let l1 := length k1 in
    let l2 := length k2 in
    if (l1 =? l2)%nat
    then same_values (get env1 "Variables") (get env2 "Variables") k1
    else false
  else false.

(* ------------------------------------------------------------------ *)
(** *** The values the signature admits

    [compareEnvironment] takes [EnvironmentResponse | null | undefined];
    the [Variables] of an [EnvironmentResponse], when present, map
    property names to strings. *)

Fixpoint distinct (ks : list string) : bool :=
  match ks with
  | [] => true
  | k :: rest => negb (existsb (String.eqb k) rest) && distinct rest
  end.

Definition is_string (v : value) : bool :=
  match v with VStr _ => true | _ => false end.

Definition is_variables (v : value) : bool :=
  match v with
  | VObj ps => distinct (map fst ps) && forallb (fun p => is_string (snd p)) ps
  | _ => false
  end.

Definition is_environment (v : value) : bool :=
  match v with
  | VUndefined | VNull => true
  | VObj ps =>
      match assoc "Variables" ps with
      | None | Some VUndefined | Some VNull => true
      | Some vars => is_variables vars
      end
  | _ => false
  end.

(** The variables of an environment, as the specification reads them:
    absent counts as none. *)
Definition variables_of (env : value) : list (string * value) :=
  match get env "Variables" with
  | VObj ps => ps
  | _ => []
  end.

(** An environment built from a list of variables. *)
Definition string_variables (vars : list (string * string))
  : list (string * value) :=
  map (fun p => (fst p, VStr (snd p))) vars.

Definition env_of (vars : list (string * string)) : value :=
  VObj [("Variables", VObj (string_variables vars))].

(** Two lists of variables hold the same variables: the same names, and
    under each name the same value. *)
Definition same_variables (ps1 ps2 : list (string * value)) : Prop :=
  (forall k, In k (map fst ps1) <-> In k (map fst ps2))
  /\ (forall k, assoc k ps1 = assoc k ps2).


(* ================================================================== *)
(** ** The validators of the three documents *)

(** An expression either yields a value or throws. *)
Inductive completion (A : Type) : Type :=
| Normal (a : A)
| Throw (exn : value).
Arguments Normal {A} a.
Arguments Throw {A} exn.

Definition TypeError (message : string) : value :=
  VObj [("name", VStr "TypeError"); ("message", VStr message)].

(** [obj.hasOwnProperty(name)].  The method itself is read from [obj]:
    an own property called [hasOwnProperty] hides the inherited method,
    and no value of a parsed document can be called. *)
Definition hasOwnProperty (obj : value) (name : string) : completion bool :=
  match obj with
  | VUndefined | VNull =>
      Throw (TypeError "Cannot read property 'hasOwnProperty'")
  | VBool _ | VNum _ => Normal false
  | VStr s =>
      Normal (String.eqb name "length"
              || existsb (String.eqb name)
                   (map index_name (seq 0 (String.length s))))
  | VArr items =>
      Normal (String.eqb name "length"
              || existsb (String.eqb name) (map fst (indexed items)))
  | VObj ps =>
      match assoc "hasOwnProperty" ps with
      | Some _ => Throw (TypeError "obj.hasOwnProperty is not a function")
      | None => Normal (existsb (String.eqb name) (map fst ps))
      end
  end.

(** A chain [obj.hasOwnProperty(n1) && obj.hasOwnProperty(n2) && ...]. *)
Fixpoint hasOwnProperties (obj : value) (names : list string)
  : completion bool :=
  match names with
  | [] => Normal true
  | name :: rest =>
      match hasOwnProperty obj name with
      | Throw exn => Throw exn
      | Normal false => Normal false
      | Normal true => hasOwnProperties obj rest
      end
  end.

Definition LambdaConfig_keys : list string :=
  ["archiveName"; "FunctionName"; "Description"; "Handler"; "Publish";
   "Runtime"; "MemorySize"; "Timeout"].

Definition LambdaSecrets_keys : list string :=
  ["region"; "profile"; "accessKeyId"; "secretAccessKey"; "Role";
   "Environment"].

Definition LambdaTest_keys : list string := ["context"; "events"].

Definition isLambdaConfig (obj : value) : completion bool :=
  if isObject obj then hasOwnProperties obj LambdaConfig_keys
  else Normal false.

Definition isLambdaSecrets (obj : value) : completion bool :=
  if isObject obj then hasOwnProperties obj LambdaSecrets_keys
  else Normal false.

Definition isLambdaTest (obj : value) : completion bool :=
  if isObject obj then hasOwnProperties obj LambdaTest_keys
  else Normal false.

(** The loop [for (i = 0; i < length; i++) if (!isLambdaTest(obj[i]))
    return false]. *)
Fixpoint allLambdaTest (items : list value) : completion bool :=
  match items with
  | [] => Normal true
  | item :: rest =>
      match isLambdaTest item with
      | Throw exn => Throw exn
      | Normal false => Normal false
      | Normal true => allLambdaTest rest
      end
  end.

Definition isLambdaTests (obj : value) : completion bool :=
  match obj with
  | VArr items => allLambdaTest items
  | _ => Normal false
  end.

Definition FILE_LAMBDA_CONFIG : string := "lambda-config.json".
Definition FILE_LAMBDA_SECRETS : string := "lambda-secrets.json".
Definition FILE_LAMBDA_TESTS : string := "lambda-tests.json".

Definition INFO_FUNCTION_CODE_UO_TO_DATE : string := "Function code up-to-date".
Definition INFO_DEPLOY_COMPLETE : string := "Lambda function deploy finished".

Definition ERR_LAMBDA_NOT_FOUND : string := "Lambda not found".
Definition ERR_LAMBDA_CONFIG : string := "Lambda config different".

Definition AWS_LAMBDA_VERSION : string := "2015-03-31".

(** [GdwAwsLambda.checkObject]: the empty string for a document of the
    required shape, a message otherwise. *)
Definition checkObject (object : value) (checkType : string)
  : completion string :=
  if String.eqb checkType FILE_LAMBDA_CONFIG then
    match isLambdaConfig object with
    | Throw exn => Throw exn
    | Normal true => Normal ""
    | Normal false => Normal "Invalid lambda config"
    end
  else if String.eqb checkType FILE_LAMBDA_SECRETS then
    match isLambdaSecrets object with
    | Throw exn => Throw exn
    | Normal true => Normal ""
    | Normal false => Normal "Invalid lambda secrets"
    end
  else if String.eqb checkType FILE_LAMBDA_TESTS then
    match object with
    | VArr items =>
        match allLambdaTest items with
        | Throw exn => Throw exn
        | Normal true => Normal ""
        | Normal false => Normal "Invalid lambda tests"
        end
    | _ => Normal "Invalid lambda tests"
    end
  else Normal ("Invalid check type " ++ checkType).

(* ================================================================== *)
(** ** The outside world *)

(** What the Lambda client is asked. *)
Module CreateFunctionRequest.
Record t : Type := make {
  FunctionName : value;
  Description : value;
  Handler : value;
  Runtime : value;
  MemorySize : value;
  Timeout : value;
  Publish : value;
  Role : value;
  Code_ZipFile : list Byte.byte
}.
End CreateFunctionRequest.

Module UpdateFunctionConfigurationRequest.
Record t : Type := make {
  FunctionName : value;
  Description : value;
  Handler : value;
  Runtime : value;
  MemorySize : value;
  Timeout : value;
  Role : value;
  Environment : value
}.
End UpdateFunctionConfigurationRequest.

(** The [ZipFile] of a code update is whatever the caller puts there:
    the bytes of the archive, or some other value. *)
Inductive blob : Type :=
| Buffer (bytes : list Byte.byte)
| NotBuffer (v : value).

Module UpdateFunctionCodeRequest.
Record t : Type := make {
  FunctionName : value;
  Publish : value;
  ZipFile : blob;
  DryRun : bool
}.
End UpdateFunctionCodeRequest.

(** The calls that leave the process, in the order they are issued. *)
Inductive call : Type :=
| GetFunction (FunctionName : value)
| CreateFunction (params : CreateFunctionRequest.t)
| UpdateFunctionConfiguration (params : UpdateFunctionConfigurationRequest.t)
| UpdateFunctionCode (params : UpdateFunctionCodeRequest.t)
| Require (file : string)
| Invoke (event context : value).

(** [fs.readFile(file, 'utf8', ...)] followed by [JSON.parse]: the file
    cannot be read, its text is not JSON, or it parses to a value. *)
Inductive document : Type :=
| Unreadable
| Malformed
| Parses (v : value).

(** The [(err, data)] of a callback of the SDK; both are objects. *)
Inductive reply : Type :=
| Failed (err : list (string * value))
| Succeeded (data : list (string * value)).

(** What a handler does with its completion callback: calls it with
    [(err, data)], never calls it, or throws before returning. *)
Inductive completion_callback : Type :=
| Callback (err data : value)
| NoCallback
| Throws (exn : value).

(** A property of a loaded module. *)
Inductive export : Type :=
| Data (v : value)
| Function (run : value -> value -> completion_callback).

Record World : Type := {
  fs_readFile_utf8 : string -> document;
  fs_readFile : string -> option (list Byte.byte);
  lambda_getFunction : value -> reply;
  lambda_createFunction : CreateFunctionRequest.t -> reply;
  lambda_updateFunctionConfiguration :
    UpdateFunctionConfigurationRequest.t -> reply;
  lambda_updateFunctionCode : UpdateFunctionCodeRequest.t -> reply;
  (** [require(cwd/file)[name]], or the exception of the load *)
  node_require : string -> completion (string -> export);
  (** which of several rejections of one [Promise.all] comes first *)
  first_rejection : nat
}.

(* ================================================================== *)
(** ** Promises *)

(** How a promise ends: fulfilled, rejected, never settled, or the
    process dies of an exception thrown out of a callback.
    [Unmodelled] marks the runs that leave the fragment of JavaScript
    described here (see [array_like]). *)
Inductive outcome (A : Type) : Type :=
| Resolved (a : A)
| Rejected (reason : value)
| Pending
| Uncaught (exn : value)
| Unmodelled.
Arguments Resolved {A} a.
Arguments Rejected {A} reason.
Arguments Pending {A}.
Arguments Uncaught {A} exn.
Arguments Unmodelled {A}.

Record ClientConfiguration : Type := {
  apiVersion : string;
  region : value;
  credentials_profile : option value;
  accessKeyId : option value;
  secretAccessKey : option value
}.

(** The private fields of a [GdwAwsLambda], and the calls issued so
    far. *)
Record State : Type := {
  lambda : option ClientConfiguration;
  lambdaCfg : value;
  lambdaSecrets : value;
  lambdaTests : value;
  lambdaGetInfo : value;
  issued : list call
}.

Definition fresh : State :=
  {| lambda := None; lambdaCfg := VUndefined; lambdaSecrets := VUndefined;
     lambdaTests := VUndefined; lambdaGetInfo := VUndefined; issued := [] |}.

Definition set_lambda (c : ClientConfiguration) (st : State) : State :=
  {| lambda := Some c; lambdaCfg := lambdaCfg st;
     lambdaSecrets := lambdaSecrets st; lambdaTests := lambdaTests st;
     lambdaGetInfo := lambdaGetInfo st; issued := issued st |}.

Definition set_lambdaCfg (v : value) (st : State) : State :=
  {| lambda := lambda st; lambdaCfg := v;
     lambdaSecrets := lambdaSecrets st; lambdaTests := lambdaTests st;
     lambdaGetInfo := lambdaGetInfo st; issued := issued st |}.

Definition set_lambdaSecrets (v : value) (st : State) : State :=
  {| lambda := lambda st; lambdaCfg := lambdaCfg st;
     lambdaSecrets := v; lambdaTests := lambdaTests st;
     lambdaGetInfo := lambdaGetInfo st; issued := issued st |}.

Definition set_lambdaTests (v : value) (st : State) : State :=
  {| lambda := lambda st; lambdaCfg := lambdaCfg st;
     lambdaSecrets := lambdaSecrets st; lambdaTests := v;
     lambdaGetInfo := lambdaGetInfo st; issued := issued st |}.

Definition set_lambdaGetInfo (v : value) (st : State) : State :=
  {| lambda := lambda st; lambdaCfg := lambdaCfg st;
     lambdaSecrets := lambdaSecrets st; lambdaTests := lambdaTests st;
     lambdaGetInfo := v; issued := issued st |}.

Definition issue (c : call) (st : State) : State :=
  {| lambda := lambda st; lambdaCfg := lambdaCfg st;
     lambdaSecrets := lambdaSecrets st; lambdaTests := lambdaTests st;
     lambdaGetInfo := lambdaGetInfo st; issued := (issued st ++ [c])%list |}.

(** A promise-returning method: it runs from a state and ends in an
    outcome and a state. *)
Definition Task (A : Type) : Type := State -> outcome A * State.

Definition resolve {A : Type} (a : A) : Task A :=
  fun st => (Resolved a, st).

Definition reject {A : Type} (reason : value) : Task A :=
  fun st => (Rejected reason, st).

(** [p.then(f)] *)
Definition and_then {A B : Type} (p : Task A) (f : A -> Task B) : Task B :=
  fun st =>
    match p st with
    | (Resolved a, st') => f a st'
    | (Rejected reason, st') => (Rejected reason, st')
    | (Pending, st') => (Pending, st')
    | (Uncaught exn, st') => (Uncaught exn, st')
    | (Unmodelled, st') => (Unmodelled, st')
    end.

Notation "p >>= f" := (and_then p f) (at level 50, left associativity).

(** The tasks of a [Promise.all] are started in the order of the array;
    each runs from the state its predecessor left. *)
Fixpoint start_all (tasks : list (Task value)) (st : State)
  : list (outcome value) * State :=
  match tasks with
  | [] => ([], st)
  | t :: rest =>
      let (o, st1) := t st in
      let (os, st2) := start_all rest st1 in
      (o :: os, st2)
  end.

Definition rejections (os : list (outcome value)) : list value :=
  flat_map (fun o => match o with Rejected r => [r] | _ => [] end) os.

Definition fulfilments (os : list (outcome value)) : list value :=
  flat_map (fun o => match o with Resolved a => [a] | _ => [] end) os.

Definition is_pending (o : outcome value) : bool :=
  match o with Pending => true | _ => false end.

Fixpoint first_abnormal (os : list (outcome value)) : option (outcome value) :=
  match os with
  | [] => None
  | Uncaught exn :: _ => Some (Uncaught exn)
  | Unmodelled :: _ => Some Unmodelled
  | _ :: rest => first_abnormal rest
  end.

(** [Promise.all]: rejected with the rejection that comes first, if
    there is one; pending while one member is; otherwise fulfilled with
    the array of the results. *)
Definition settle_all (first : nat) (os : list (outcome value))
  : outcome value :=
  match first_abnormal os with
  | Some o => o
  | None =>
      match rejections os with
      | r :: rs => Rejected (nth (first mod length (r :: rs)) (r :: rs) r)
      | [] => if existsb is_pending os then Pending
              else Resolved (VArr (fulfilments os))
      end
  end.

(* ================================================================== *)
(** ** The class [GdwAwsLambda] *)

Module DeployOptions.
Record t : Type := make {
  create : option bool;
  updateConfig : option bool
}.
End DeployOptions.

(** [options && options.create], [options && options.updateConfig]. *)
Definition option_set (field : DeployOptions.t -> option bool)
    (options : option DeployOptions.t) : bool :=
  match options with
  | Some o => match field o with Some b => b | None => false end
  | None => false
  end.

(** The characters of a string checked by [isNEString]. *)
Definition text (v : value) : string :=
  match v with VStr s => s | _ => "" end.

(** [s.split('.')] *)
Fixpoint split_dot (s : string) : list string :=
  match s with
  | EmptyString => [""]
  | String c rest =>
      if Ascii.eqb c "."%char then "" :: split_dot rest
      else match split_dot rest with
           | token :: tokens => String c token :: tokens
           | [] => [String c ""]
           end
  end.

(** The elements [v[0] .. v[v.length - 1]] visited by a loop
    [for (i = 0; i < v.length; i++)], or the exception of reading
    [v.length].  [None] when [length] is a property whose comparison
    with [i] goes through a conversion to a number that this
    development does not describe. *)
Definition array_like (v : value) : option (completion (list value)) :=
  match v with
  | VUndefined | VNull =>
      Some (Throw (TypeError "Cannot read property 'length'"))
  | VBool _ | VNum _ => Some (Normal [])
  | VStr s =>
      Some (Normal (map (fun c => VStr (String c "")) (list_ascii_of_string s)))
  | VArr items => Some (Normal items)
  | VObj ps =>
      match assoc "length" ps with
      | None => Some (Normal [])
      | Some (VNum n) =>
          Some (Normal (map (fun i => get v (index_name i))
                          (seq 0 (Z.to_nat n))))
      | Some _ => None
      end
  end.

Section GdwAwsLambda.

Variable w : World.

Definition Promise_all (tasks : list (Task value)) : Task value :=
  fun st =>
    let (os, st') := start_all tasks st in
    (settle_all (first_rejection w) os, st').

(* ---------------------------------------------------------------- *)
(** *** Reading documents *)

(** [readObject].  The promise is settled inside the callback of
    [fs.readFile]: an exception of [checkObject] escapes there. *)
Definition readObject (file : string) (checkType : option string)
  : Task value :=
  fun st =>
    match fs_readFile_utf8 w file with
    | Unreadable => (Rejected (VStr ("Failed to read file " ++ file)), st)
    | Malformed => (Rejected (VStr "Invalid JSON"), st)
    | Parses object =>
        if truthy object then
          match checkType with
          | Some type =>
              if truthy (VStr type) then
                match checkObject object type with
                | Throw exn => (Uncaught exn, st)
                | Normal result =>
                    if truthy (VStr result)
                    then (Rejected (VStr result), st)
                    else (Resolved object, st)
                end
              else (Resolved object, st)
          | None => (Resolved object, st)
          end
        else (Pending, st)
    end.

(** The callback that [readConfig] and [test] attach to the read of
    the configuration. *)
Definition onLambdaConfig (cfg : value) : Task value :=
  fun st =>
    match isLambdaConfig cfg with
    | Throw exn => (Rejected exn, st)
    | Normal ok =>
        if ok && isNEString (get cfg "FunctionName")
           && isNEString (get cfg "Handler")
        then (Resolved cfg, set_lambdaCfg cfg st)
        else (Rejected (VStr "Invalid Lambda config"), st)
    end.

(** The callback that [readConfig] attaches to the read of the
    secrets. *)
Definition onLambdaSecrets (cfg : value) : Task value :=
  fun st =>
    match isLambdaSecrets cfg with
    | Throw exn => (Rejected exn, st)
    | Normal ok =>
        if ok && isNEString (get cfg "region")
           && isNEString (get cfg "Role")
        then (Resolved cfg, set_lambdaSecrets cfg st)
        else (Rejected (VStr "Invalid Lambda secrets"), st)
    end.

(** The callback that [test] attaches to the read of the tests. *)
Definition onLambdaTests (obj : value) : Task value :=
  fun st =>
    match isLambdaTests obj with
    | Throw exn => (Rejected exn, st)
    | Normal true => (Resolved obj, set_lambdaTests obj st)
    | Normal false => (Rejected (VStr "Invalid Lambda tests"), st)
    end.

Definition readConfig : Task value :=
  Promise_all
    [ readObject FILE_LAMBDA_CONFIG (Some FILE_LAMBDA_CONFIG)
        >>= onLambdaConfig;
      readObject FILE_LAMBDA_SECRETS (Some FILE_LAMBDA_SECRETS)
        >>= onLambdaSecrets ].

Definition readArchive : Task (list Byte.byte) :=
  fun st =>
    let archiveName := get (lambdaCfg st) "archiveName" in
    if isNEString archiveName then
      match fs_readFile w (text archiveName) with
      | None =>
          (Rejected (VStr ("Archive " ++ text archiveName ++ "not found")),
           st)
      | Some data => (Resolved data, st)
      end
    else (Rejected (VStr "Invalid archive name"), st).

(* ---------------------------------------------------------------- *)
(** *** The remote function *)

Definition createLambdaService : Task ClientConfiguration :=
  readConfig >>= fun _ => fun st =>
    let secrets := lambdaSecrets st in
    let lambdaOptions :=
      if isNEString (get secrets "profile") then
        {| apiVersion := AWS_LAMBDA_VERSION;
           region := get secrets "region";
           credentials_profile := Some (get secrets "profile");
           accessKeyId := None; secretAccessKey := None |}
      else if isNEString (get secrets "accessKeyId")
              && isNEString (get secrets "secretAccessKey") then
        {| apiVersion := AWS_LAMBDA_VERSION;
           region := get secrets "region";
           credentials_profile := None;
           accessKeyId := Some (get secrets "accessKeyId");
           secretAccessKey := Some (get secrets "secretAccessKey") |}
      else
        {| apiVersion := AWS_LAMBDA_VERSION;
           region := get secrets "region";
           credentials_profile := None;
           accessKeyId := None; secretAccessKey := None |} in
    (Resolved lambdaOptions, set_lambda lambdaOptions st).

Definition checkLambda (options : option DeployOptions.t) : Task value :=
  fun st =>
    let name := get (lambdaCfg st) "FunctionName" in
    let st1 := issue (GetFunction name) st in
    match lambda_getFunction w name with
    | Failed err =>
        if strict_eq (get (VObj err) "code")
             (VStr "ResourceNotFoundException")
        then
          if option_set DeployOptions.create options
          then (Resolved (VStr ERR_LAMBDA_NOT_FOUND), st1)
          else (Rejected (VStr ERR_LAMBDA_NOT_FOUND), st1)
        else (Rejected (VStr "Lambda getFunction Error"), st1)
    | Succeeded data =>
        (Resolved (VObj data), set_lambdaGetInfo (VObj data) st1)
    end.

Definition checkLambdaConfig (st : State) (config : value) : bool :=
  let isEqual :=
    truthy config
    && strict_eq (get config "FunctionName")
         (get (lambdaCfg st) "FunctionName")
    && strict_eq (get config "Description")
         (get (lambdaCfg st) "Description")
    && strict_eq (get config "Handler") (get (lambdaCfg st) "Handler")
    && strict_eq (get config "Runtime") (get (lambdaCfg st) "Runtime")
    && strict_eq (get config "MemorySize")
         (get (lambdaCfg st) "MemorySize")
    && strict_eq (get config "Timeout") (get (lambdaCfg st) "Timeout")
    && strict_eq (get config "Role") (get (lambdaSecrets st) "Role") in
  if isEqual
  then compareEnvironment (get config "Environment")
         (get (lambdaSecrets st) "Environment")
  else isEqual.

(** What the callback handed to [lambda.createFunction] returns. *)
Definition createFunction_callback (st : State)
    (params : CreateFunctionRequest.t) : outcome value :=
  match lambda_createFunction w params with
  | Failed _ => Rejected (VStr "Error creating Lambda function")
  | Succeeded _ =>
      Resolved (VStr ("Lambda function ("
                      ++ text (get (lambdaCfg st) "FunctionName")
                      ++ ") created"))
  end.

(** The [params] that [createFunction] builds. *)
Definition createFunction_params (st : State) (result : list Byte.byte)
  : CreateFunctionRequest.t :=
  {| CreateFunctionRequest.FunctionName :=
       get (lambdaCfg st) "FunctionName";
     CreateFunctionRequest.Description := get (lambdaCfg st) "Description";
     CreateFunctionRequest.Handler := get (lambdaCfg st) "Handler";
     CreateFunctionRequest.Runtime := get (lambdaCfg st) "Runtime";
     CreateFunctionRequest.MemorySize := get (lambdaCfg st) "MemorySize";
     CreateFunctionRequest.Timeout := get (lambdaCfg st) "Timeout";
     CreateFunctionRequest.Publish := get (lambdaCfg st) "Publish";
     CreateFunctionRequest.Role := get (lambdaSecrets st) "Role";
     CreateFunctionRequest.Code_ZipFile := result |}.

(** [createFunction].  The callback of [readArchive().then] issues
    the call and returns nothing; what the callback of the call
    returns goes to the SDK, which drops it. *)
Definition createFunction : Task value :=
  readArchive >>= fun result => fun st =>
    let params := createFunction_params st result in
    let st1 := issue (CreateFunction params) st in
    let dropped := createFunction_callback st1 params in
    (Resolved VUndefined, st1).

Definition updateCode (config : UpdateFunctionCodeRequest.t)
  : Task value :=
  fun st =>
    let st1 := issue (UpdateFunctionCode config) st in
    match lambda_updateFunctionCode w config with
    | Failed err => (Rejected (VObj err), st1)
    | Succeeded data => (Resolved (VObj data), st1)
    end.

(** The two requests of [updateFunctionCode]: they differ in
    [ZipFile] and [DryRun]. *)
Definition updateCode_params (st : State) (ZipFile : blob) (DryRun : bool)
  : UpdateFunctionCodeRequest.t :=
  {| UpdateFunctionCodeRequest.FunctionName :=
       get (lambdaCfg st) "FunctionName";
     UpdateFunctionCodeRequest.Publish := get (lambdaCfg st) "Publish";
     UpdateFunctionCodeRequest.ZipFile := ZipFile;
     UpdateFunctionCodeRequest.DryRun := DryRun |}.

(** [updateFunctionCode].  Both callbacks name their argument
    [result]: in the first it is the archive, in the second the reply
    of the dry run. *)
Definition updateFunctionCode : Task value :=
  (readArchive >>= fun result => fun st =>
     updateCode (updateCode_params st (Buffer result) true) st)
  >>= fun result => fun st =>
    if truthy (lambdaGetInfo st)
       && truthy (get (lambdaGetInfo st) "Configuration") then
      if negb (strict_eq (get result "CodeSha256")
                 (get (get (lambdaGetInfo st) "Configuration")
                    "CodeSha256"))
      then updateCode (updateCode_params st (NotBuffer result) false) st
      else (Resolved (VStr INFO_FUNCTION_CODE_UO_TO_DATE), st)
    else (Rejected (VStr "Invalid Lambda function information"), st).

Definition updateConfig : Task value :=
  fun st =>
    let params :=
      {| UpdateFunctionConfigurationRequest.FunctionName :=
           get (lambdaCfg st) "FunctionName";
         UpdateFunctionConfigurationRequest.Description :=
           get (lambdaCfg st) "Description";
         UpdateFunctionConfigurationRequest.Handler :=
           get (lambdaCfg st) "Handler";
         UpdateFunctionConfigurationRequest.Runtime :=
           get (lambdaCfg st) "Runtime";
         UpdateFunctionConfigurationRequest.MemorySize :=
           get (lambdaCfg st) "MemorySize";
         UpdateFunctionConfigurationRequest.Timeout :=
           get (lambdaCfg st) "Timeout";
         UpdateFunctionConfigurationRequest.Role :=
           get (lambdaSecrets st) "Role";
         UpdateFunctionConfigurationRequest.Environment :=
           get (lambdaSecrets st) "Environment" |} in
    let st1 := issue (UpdateFunctionConfiguration params) st in
    match lambda_updateFunctionConfiguration w params with
    | Failed _ =>
        (Rejected (VStr "Error updating function configuration"), st1)
    | Succeeded data => (Resolved (VObj data), st1)
    end.

(* ---------------------------------------------------------------- *)
(** *** [deploy] *)

Definition deploy (options : option DeployOptions.t) : Task value :=
  createLambdaService >>= (fun _ => checkLambda options)
  >>= fun result =>
    if strict_eq result (VStr ERR_LAMBDA_NOT_FOUND) then createFunction
    else fun st =>
      let promises :=
        if option_set DeployOptions.updateConfig options then [updateConfig] else [] in
      if negb (option_set DeployOptions.updateConfig options)
         && negb (checkLambdaConfig st (lambdaGetInfo st))
      then (Rejected (VStr ERR_LAMBDA_CONFIG), st)
      else
        (Promise_all (promises ++ [updateFunctionCode])%list
         >>= fun _ => resolve (VStr INFO_DEPLOY_COMPLETE)) st.

(* ---------------------------------------------------------------- *)
(** *** [test] *)

Definition export_truthy (e : export) : bool :=
  match e with
  | Data v => truthy v
  | Function _ => true
  end.

(** [executeEventTest]: the handler is called from the executor of a
    new promise, which turns an exception into a rejection. *)
Definition executeEventTest (handler : export) (context event : value)
  : Task value :=
  match handler with
  | Data _ => reject (TypeError "handler is not a function")
  | Function run =>
      fun st =>
        let st1 := issue (Invoke event context) st in
        match run event context with
        | Callback err data =>
            if truthy err then (Rejected err, st1) else (Resolved data, st1)
        | NoCallback => (Pending, st1)
        | Throws exn => (Rejected exn, st1)
        end
  end.

(** [executeContextTest] returns the promise of its invocations, or
    throws; it runs inside a [then], where a throw is a rejection. *)
Definition executeContextTest (handler : export) (test : value)
  : Task (outcome value) :=
  fun st =>
    match array_like (get test "events") with
    | None => (Unmodelled, st)
    | Some (Throw exn) => (Rejected exn, st)
    | Some (Normal events) =>
        let (os, st1) :=
          start_all
            (map (executeEventTest handler (get test "context")) events)
            st in
        (Resolved (settle_all (first_rejection w) os), st1)
    end.

(** The loop of [runTests] that fills [promises]. *)
Fixpoint pushContextTests (handler : export) (tests : list value)
  : Task (list (outcome value)) :=
  match tests with
  | [] => resolve []
  | t :: rest =>
      executeContextTest handler t >>= fun promise =>
      pushContextTests handler rest >>= fun promises =>
      resolve (promise :: promises)
  end.

Definition runTests : Task value :=
  fun st =>
    match get (lambdaCfg st) "Handler" with
    | VStr handlerName =>
        let splits := split_dot handlerName in
        if negb (length splits =? 2)%nat
        then (Rejected (VStr "Invalid handler"), st)
        else
          let module := nth 0 splits "" in
          let eventHandler := nth 1 splits "" in
          let st1 := issue (Require (module ++ ".js")) st in
          match node_require w (module ++ ".js") with
          | Throw exn => (Rejected exn, st1)
          | Normal exports =>
              let handler := exports eventHandler in
              if negb (export_truthy handler)
              then (Rejected (VStr "invalid handler object"), st1)
              else
                match array_like (lambdaTests st1) with
                | None => (Unmodelled, st1)
                | Some (Throw exn) => (Rejected exn, st1)
                | Some (Normal tests) =>
                    (pushContextTests handler tests >>= fun promises =>
                     fun st2 =>
                       (settle_all (first_rejection w) promises, st2)) st1
                end
          end
    | _ => (Rejected (TypeError "Handler.split is not a function"), st)
    end.

(** The file [test] reads the tests from. *)
Definition testFile (testFileName : option string) : string :=
  match testFileName with
  | Some name =>
      if truthy (VStr name) && isNEString (VStr name) then name
      else FILE_LAMBDA_TESTS
  | None => FILE_LAMBDA_TESTS
  end.

Definition test (testFileName : option string) : Task value :=
  Promise_all
    [ readObject FILE_LAMBDA_CONFIG (Some FILE_LAMBDA_CONFIG)
        >>= onLambdaConfig;
      readObject (testFile testFileName) (Some FILE_LAMBDA_TESTS)
        >>= onLambdaTests ]
  >>= fun _ => runTests.

End GdwAwsLambda.

(* ================================================================== *)
(** ** Reading the log of calls *)

Definition is_create (c : call) : bool :=
  match c with CreateFunction _ => true | _ => false end.

Definition is_config_update (c : call) : bool :=
  match c with UpdateFunctionConfiguration _ => true | _ => false end.

Definition is_code_update (c : call) : bool :=
  match c with UpdateFunctionCode _ => true | _ => false end.

Definition is_dry_run (c : call) : bool :=
  match c with
  | UpdateFunctionCode p => UpdateFunctionCodeRequest.DryRun p
  | _ => false
  end.

Definition is_require (c : call) : bool :=
  match c with Require _ => true | _ => false end.

Definition is_invoke (c : call) : bool :=
  match c with Invoke _ _ => true | _ => false end.

Definition count (p : call -> bool) (cs : list call) : nat :=
  length (filter p cs).

(** The calls a task issues when it runs from [st]. *)
Definition calls_during {A : Type} (run : Task A) (st : State) : list call :=
  skipn (length (issued st)) (issued (snd (run st))).

(** A task keeps the log and the stored reply of [getFunction]. *)
Definition quiet {A : Type} (t : Task A) : Prop :=
  forall st, issued (snd (t st)) = issued st
             /\ lambdaGetInfo (snd (t st)) = lambdaGetInfo st.

(* ================================================================== *)
(** ** The situations the specification speaks about *)

(** The deploy gets as far as [getFunction]: the service is created,
    leaving the state [st1]. *)
Definition reaches_getFunction (w : World) (st st1 : State) : Prop :=
  exists c, createLambdaService w st = (Resolved c, st1).

Definition function_not_found (w : World) (st1 : State) : Prop :=
  exists err,
    lambda_getFunction w (get (lambdaCfg st1) "FunctionName") = Failed err
    /\ get (VObj err) "code" = VStr "ResourceNotFoundException".

Definition function_found (w : World) (st1 : State)
    (data : list (string * value)) : Prop :=
  lambda_getFunction w (get (lambdaCfg st1) "FunctionName") = Succeeded data.

(** The archive named by the configuration can be read, and holds
    [bytes]. *)
Definition archive_readable (w : World) (st1 : State)
    (bytes : list Byte.byte) : Prop :=
  isNEString (get (lambdaCfg st1) "archiveName") = true
  /\ fs_readFile w (text (get (lambdaCfg st1) "archiveName")) = Some bytes.

(** The fields of the configuration that are compared one by one; [Role]
    is compared with the secrets. *)
Definition compared_fields : list string :=
  ["FunctionName"; "Description"; "Handler"; "Runtime"; "MemorySize";
   "Timeout"].

(** The local configuration and secrets differ from the remote snapshot
    in a compared field. *)
Definition snapshot_differs (cfg secrets snapshot : value) : Prop :=
  (exists f, In f compared_fields /\ get snapshot f <> get cfg f)
  \/ get snapshot "Role" <> get secrets "Role"
  \/ (is_environment (get snapshot "Environment") = true
      /\ is_environment (get secrets "Environment") = true
      /\ ~ same_variables (variables_of (get snapshot "Environment"))
             (variables_of (get secrets "Environment"))).

(** The sentence of the specification about a function that is not
    found, as it is written: without the [create] option the deploy is
    rejected and creates or updates nothing; with it, exactly one
    [createFunction] and no update. *)
Definition not_found_as_specified : Prop :=
  forall (w : World) (options : option DeployOptions.t) (st st1 : State),
    reaches_getFunction w st st1 -> function_not_found w st1 ->
    let calls := calls_during (deploy w options) st in
    (option_set DeployOptions.create options = false ->
     fst (deploy w options st) = Rejected (VStr ERR_LAMBDA_NOT_FOUND)
     /\ count is_create calls = 0 /\ count is_config_update calls = 0
     /\ count is_code_update calls = 0)
    /\ (option_set DeployOptions.create options = true ->
        count is_create calls = 1 /\ count is_config_update calls = 0
        /\ count is_code_update calls = 0).

(** The sentence of the specification about the path that creates the
    function, as it is written: after [createFunction], a dry-run
    [updateFunctionCode] is issued. *)
Definition create_then_code_update_as_specified : Prop :=
  forall (w : World) (options : option DeployOptions.t) (st st1 : State),
    reaches_getFunction w st st1 -> function_not_found w st1 ->
    option_set DeployOptions.create options = true ->
    exists before after c,
      calls_during (deploy w options) st = (before ++ c :: after)%list
      /\ is_dry_run c = true
      /\ count is_create before = 1.

(** The sentence about the validation of a document, as it is written:
    an object that has every required own property of a kind passes
    the check of that kind. *)
Definition has_own (obj : value) (name : string) : bool :=
  match obj with
  | VObj ps => existsb (String.eqb name) (map fst ps)
  | _ => false
  end.

Definition presence_suffices_as_specified : Prop :=
  forall ps : list (string * value),
    forallb (has_own (VObj ps)) LambdaConfig_keys = true ->
    checkObject (VObj ps) FILE_LAMBDA_CONFIG = Normal "".

(* ================================================================== *)
(** ** Sample documents and worlds *)

Definition sample_config : value :=
  VObj [("archiveName", VStr "lambda.zip");
        ("FunctionName", VStr "hello");
        ("Description", VStr "says hello");
        ("Handler", VStr "index.handler");
        ("Publish", VBool false);
        ("Runtime", VStr "nodejs6.10");
        ("MemorySize", VNum 128);
        ("Timeout", VNum 3)].

Definition sample_secrets : value :=
  VObj [("region", VStr "eu-west-1");
        ("profile", VStr "default");
        ("accessKeyId", VStr "");
        ("secretAccessKey", VStr "");
        ("Role", VStr "arn:aws:iam::1:role/lambda");
        ("Environment", VObj [("Variables", VObj [])])].

Definition sample_tests : value :=
  VArr [VObj [("context", VObj []); ("events", VArr [VObj []])]].

Definition sample_archive : list Byte.byte := [Byte.x50; Byte.x4b; Byte.x03].

Definition not_found_error : reply :=
  Failed [("code", VStr "ResourceNotFoundException")].

Definition service_error : reply :=
  Failed [("code", VStr "ServiceException")].

(** A world with the given configuration file, archive and replies of
    the remote side; the secrets and the tests are the samples, and the
    module [index.js] exports a [handler] that echoes its event. *)
Definition sample_world (config : document)
    (archive : option (list Byte.byte))
    (found created configured dry real : reply) : World :=
  {| fs_readFile_utf8 := fun file =>
       if String.eqb file FILE_LAMBDA_CONFIG then config
       else if String.eqb file FILE_LAMBDA_SECRETS then Parses sample_secrets
       else if String.eqb file FILE_LAMBDA_TESTS then Parses sample_tests
       else Unreadable;
     fs_readFile := fun file =>
       if String.eqb file "lambda.zip" then archive else None;
     lambda_getFunction := fun _ => found;
     lambda_createFunction := fun _ => created;
     lambda_updateFunctionConfiguration := fun _ => configured;
     lambda_updateFunctionCode := fun p =>
       if UpdateFunctionCodeRequest.DryRun p then dry else real;
     node_require := fun file =>
       if String.eqb file "index.js"
       then Normal (fun name =>
                      if String.eqb name "handler"
                      then Function (fun event _ => Callback VNull event)
                      else Data VUndefined)
       else Throw (VStr "Cannot find module");
     first_rejection := 0 |}.

(** What [getFunction] replies for the sample function. *)
Definition sample_snapshot (timeout : Z) (sha : string)
  : list (string * value) :=
  [("Configuration",
    VObj [("FunctionName", VStr "hello");
          ("Description", VStr "says hello");
          ("Handler", VStr "index.handler");
          ("Runtime", VStr "nodejs6.10");
          ("MemorySize", VNum 128);
          ("Timeout", VNum timeout);
          ("Role", VStr "arn:aws:iam::1:role/lambda");
          ("CodeSha256", VStr sha)]);
   ("Code", VObj [("RepositoryType", VStr "S3")])].

(** A reply that also carries the fields of the function at its top,
    where [checkLambdaConfig] reads them. *)
Definition flat_snapshot (timeout : Z) (sha : string)
  : list (string * value) :=
  [("FunctionName", VStr "hello");
   ("Description", VStr "says hello");
   ("Handler", VStr "index.handler");
   ("Runtime", VStr "nodejs6.10");
   ("MemorySize", VNum 128);
   ("Timeout", VNum timeout);
   ("Role", VStr "arn:aws:iam::1:role/lambda");
   ("Configuration", VObj [("CodeSha256", VStr sha)])].

Definition create_option : option DeployOptions.t :=
  Some (DeployOptions.make (Some true) None).

Definition updateConfig_option : option DeployOptions.t :=
  Some (DeployOptions.make None (Some true)).

(** The sample function does not exist on the remote side. *)
Definition missing_function_world (archive : option (list Byte.byte))
    (created : reply) : World :=
  sample_world (Parses sample_config) archive not_found_error created
    service_error service_error service_error.

(** The sample function exists on the remote side; the update of the
    configuration succeeds. *)
Definition existing_function_world (snapshot : list (string * value))
    (dry real : reply) : World :=
  sample_world (Parses sample_config) (Some sample_archive)
    (Succeeded snapshot) service_error (Succeeded []) dry real.

(** The state in which a deploy of the sample configuration reaches
    [getFunction]. *)
Definition sample_loaded : State :=
  set_lambda
    {| apiVersion := AWS_LAMBDA_VERSION;
       region := VStr "eu-west-1";
       credentials_profile := Some (VStr "default");
       accessKeyId := None; secretAccessKey := None |}
    (set_lambdaSecrets sample_secrets (set_lambdaCfg sample_config fresh)).

(* ================================================================== *)
(** ** Further readings of documents, handlers and logs *)

(** The first character of a property name is a decimal digit. *)
Definition starts_with_digit (name : string) : bool :=
  match name with
  | String c _ => (48 <=? nat_of_ascii c)%nat && (nat_of_ascii c <=? 57)%nat
  | EmptyString => false
  end.

(** The number of dots of a handler name, and the inverse of
    [split_dot]: [tokens.join('.')]. *)
Fixpoint count_dots (s : string) : nat :=
  match s with
  | EmptyString => 0
  | String c rest =>
      if Ascii.eqb c "."%char then S (count_dots rest) else count_dots rest
  end.

Fixpoint join_dot (tokens : list string) : string :=
  match tokens with
  | [] => ""
  | [token] => token
  | token :: rest => token ++ "." ++ join_dot rest
  end.

Definition is_get (c : call) : bool :=
  match c with GetFunction _ => true | _ => false end.

Definition is_real_update (c : call) : bool :=
  is_code_update c && negb (is_dry_run c).

(** The messages [readObject] can reject with. *)
Definition readObject_messages (file type : string) : list value :=
  [VStr ("Failed to read file " ++ file);
   VStr "Invalid JSON";
   VStr "Invalid lambda config";
   VStr "Invalid lambda secrets";
   VStr "Invalid lambda tests";
   VStr ("Invalid check type " ++ type)].

(** The client that a deploy of the sample secrets builds. *)
Definition sample_client : ClientConfiguration :=
  {| apiVersion := AWS_LAMBDA_VERSION;
     region := VStr "eu-west-1";
     credentials_profile := Some (VStr "default");
     accessKeyId := None; secretAccessKey := None |}.

(** The calls of one update of the code: none, the dry run alone, or
    the dry run followed by one real update. *)
Definition code_update_calls (cs : list call) : bool :=
  match cs with
  | [] => true
  | [c] => is_dry_run c
  | [c; d] => is_dry_run c && is_real_update d
  | _ => false
  end.

(** The calls of one deploy: none; or [getFunction], followed by
    nothing, by one [createFunction], or by the calls of an update of
    the code, themselves preceded or not by one update of the
    configuration. *)
Definition deploy_calls (cs : list call) : bool :=
  match cs with
  | [] => true
  | GetFunction _ :: rest =>
      match rest with
      | [CreateFunction _] => true
      | UpdateFunctionConfiguration _ :: code => code_update_calls code
      | code => code_update_calls code
      end
  | _ => false
  end.

(** The request of [updateConfig]. *)
Definition updateConfig_params (st : State)
  : UpdateFunctionConfigurationRequest.t :=
  UpdateFunctionConfigurationRequest.make
    (get (lambdaCfg st) "FunctionName") (get (lambdaCfg st) "Description")
    (get (lambdaCfg st) "Handler") (get (lambdaCfg st) "Runtime")
    (get (lambdaCfg st) "MemorySize") (get (lambdaCfg st) "Timeout")
    (get (lambdaSecrets st) "Role") (get (lambdaSecrets st) "Environment").

(** The world answered a call with success. *)
Definition succeeded (w : World) (c : call) : Prop :=
  match c with
  | UpdateFunctionConfiguration p =>
      exists data, lambda_updateFunctionConfiguration w p = Succeeded data
  | UpdateFunctionCode p =>
      exists data, lambda_updateFunctionCode w p = Succeeded data
  | _ => True
  end.

(** Both documents of a deploy are there and pass the checks of
    [readConfig]. *)
Definition documents_load (w : World) : Prop :=
  exists cfg secrets,
    fs_readFile_utf8 w FILE_LAMBDA_CONFIG = Parses cfg
    /\ isLambdaConfig cfg = Normal true
    /\ isNEString (get cfg "FunctionName") = true
    /\ isNEString (get cfg "Handler") = true
    /\ fs_readFile_utf8 w FILE_LAMBDA_SECRETS = Parses secrets
    /\ isLambdaSecrets secrets = Normal true
    /\ isNEString (get secrets "region") = true
    /\ isNEString (get secrets "Role") = true.

(** The calls of one test run: none; or one [require], followed by
    invocations of the handler only. *)
Definition test_calls (cs : list call) : bool :=
  match cs with
  | [] => true
  | Require _ :: rest => forallb is_invoke rest
  | _ => false
  end.

(** The invocations that [executeContextTest] starts for a list of
    events: one per event when the handler can be called, none when it
    cannot. *)
Definition invocations (handler : export) (context : value)
    (events : list value) : list call :=
  match handler with
  | Function _ => map (fun event => Invoke event context) events
  | Data _ => []
  end.

(** The events of a test case whose [events] is an array. *)
Definition events_of (test : value) : list value :=
  match get test "events" with
  | VArr events => events
  | _ => []
  end.

(** What a handler passes as [data] when it calls back. *)
Definition callback_data (c : completion_callback) : value :=
  match c with
  | Callback _ data => data
  | _ => VUndefined
  end.

(** The handler calls back without an error. *)
Definition calls_back (c : completion_callback) : bool :=
  match c with
  | Callback err _ => negb (truthy err)
  | _ => false
  end.

(** How the promise of one invocation ends, and how the promise of one
    test case ends. *)
Definition event_outcome (run : value -> value -> completion_callback)
    (context event : value) : outcome value :=
  match run event context with
  | Callback err data => if truthy err then Rejected err else Resolved data
  | NoCallback => Pending
  | Throws exn => Rejected exn
  end.

Definition test_outcome (first : nat)
    (run : value -> value -> completion_callback) (test : value)
  : outcome value :=
  settle_all first
    (map (event_outcome run (get test "context")) (events_of test)).

(** A world for test runs: the sample configuration, the given tests,
    and a module [index.js] that exports [run] as [handler]. *)
Definition test_world (tests : document)
    (run : value -> value -> completion_callback) : World :=
  {| fs_readFile_utf8 := fun file =>
       if String.eqb file FILE_LAMBDA_CONFIG then Parses sample_config
       else if String.eqb file FILE_LAMBDA_TESTS then tests
       else Unreadable;
     fs_readFile := fun _ => None;
     lambda_getFunction := fun _ => service_error;
     lambda_createFunction := fun _ => service_error;
     lambda_updateFunctionConfiguration := fun _ => service_error;
     lambda_updateFunctionCode := fun _ => service_error;
     node_require := fun file =>
       if String.eqb file "index.js"
       then Normal (fun name =>
                      if String.eqb name "handler" then Function run
                      else Data VUndefined)
       else Throw (VStr "Cannot find module");
     first_rejection := 0 |}.

Definition two_tests : list value :=
  [VObj [("context", VObj [("id", VNum 1)]); ("events", VArr [VNum 1; VNum 2])];
   VObj [("context", VNull); ("events", VArr [VNum 3])]].

(** A handler that calls back with its event. *)
Definition echo (event context : value) : completion_callback :=
  Callback VNull event.

(* ================================================================== *)
(** ** [init] and the files it writes *)

(** A file handed to [fs.writeFile], with the object whose JSON text is
    written. *)
Definition written : Type := (string * value)%type.

(** A task that also writes files: it threads the state of the
    instance and the writes attempted so far, oldest first. *)
Definition Job (A : Type) : Type :=
  State * list written -> outcome A * (State * list written).

Section Init.

Variable w : World.

(** Whether [fs.writeFile] succeeds in writing the text of an object to
    a file. *)
Variable fs_writeFile : string -> value -> bool.

Definition createObject (type : string) : value :=
  if String.eqb type FILE_LAMBDA_CONFIG then
    VObj [("archiveName", VStr "");
          ("FunctionName", VStr "");
          ("Description", VStr "");
          ("Handler", VStr "");
          ("Publish", VBool false);
          ("Runtime", VStr "nodejs6.10");
          ("MemorySize", VNum 128);
          ("Timeout", VNum 3)]
  else if String.eqb type FILE_LAMBDA_SECRETS then
    VObj [("region", VStr "");
          ("profile", VStr "");
          ("accessKeyId", VStr "");
          ("secretAccessKey", VStr "");
          ("Role", VStr "");
          ("Environment", VObj [("Variables", VObj [])])]
  else if String.eqb type FILE_LAMBDA_TESTS then
    VArr [VObj [("context", VObj []); ("events", VArr [])]]
  else VNull.

Definition writeObject (file : string) (object : value) : Job value :=
  fun s =>
    let s1 := (fst s, (snd s ++ [(file, object)])%list) in
    if fs_writeFile file object
    then (Resolved (VStr ("File " ++ file ++ " has been written")), s1)
    else (Rejected (VStr ("Failed to write file " ++ file)), s1).

Definition initFile (file : string) : Job value :=
  let obj := createObject file in
  if truthy obj then writeObject file obj
  else fun s => (Rejected (VStr ("Unable to create object for " ++ file)), s).

(** [checkAndInit]: the [catch] runs [initFile] when the read is
    rejected, and only then. *)
Definition checkAndInit (file type : string) : Job value :=
  fun s =>
    match readObject w file (Some type) (fst s) with
    | (Rejected _, st1) => initFile file (st1, snd s)
    | (o, st1) => (o, (st1, snd s))
    end.

(** The jobs of a [Promise.all] are started in the order of the array. *)
Fixpoint start_jobs (jobs : list (Job value)) (s : State * list written)
  : list (outcome value) * (State * list written) :=
  match jobs with
  | [] => ([], s)
  | j :: rest =>
      let (o, s1) := j s in
      let (os, s2) := start_jobs rest s1 in
      (o :: os, s2)
  end.

Definition init_files : list string :=
  [FILE_LAMBDA_CONFIG; FILE_LAMBDA_SECRETS; FILE_LAMBDA_TESTS].

Definition init : Job value :=
  fun s =>
    let (os, s1) :=
      start_jobs
        [ checkAndInit FILE_LAMBDA_CONFIG FILE_LAMBDA_CONFIG;
          checkAndInit FILE_LAMBDA_SECRETS FILE_LAMBDA_SECRETS;
          checkAndInit FILE_LAMBDA_TESTS FILE_LAMBDA_TESTS ] s in
    (settle_all (first_rejection w) os, s1).

End Init.


(** The reading of a file is rejected. *)
Definition read_rejected (w : World) (file : string) : bool :=
  match fst (readObject w file (Some file) fresh) with
  | Rejected _ => true
  | _ => false
  end.

(** What [init] answers for one file: the document read, or the message
    of the write. *)
Definition init_answer (w : World) (fs_writeFile : string -> value -> bool)
    (file : string) : outcome value :=
  fst (checkAndInit w fs_writeFile file file (fresh, [])).



(** What [init] resolves with for one file: the document when it is
    read, the message of [writeObject] otherwise. *)
Definition init_result (w : World) (file : string) : value :=
  match fst (readObject w file (Some file) fresh) with
  | Resolved object => object
  | _ => VStr ("File " ++ file ++ " has been written")
  end.

(** Every write is accepted, or refused. *)
Definition writable (file : string) (object : value) : bool := true.
Definition read_only (file : string) (object : value) : bool := false.
(* ################################################################## *)
(** * Part II: properties *)

(* ================================================================== *)
(** ** Facts about values *)

Lemma strict_eq_true (a b : value) : strict_eq a b = true -> a = b.
Proof.
  destruct a, b; simpl; try discriminate; intros H; try reflexivity.
  - apply Bool.eqb_prop in H. now subst.
  - apply Z.eqb_eq in H. now subst.
  - apply String.eqb_eq in H. now subst.
Qed.

Lemma strict_eq_sym (a b : value) : strict_eq a b = strict_eq b a.
Proof.
  destruct a, b; simpl; try reflexivity.
  - destruct b0, b; reflexivity.
  - apply Z.eqb_sym.
  - apply String.eqb_sym.
Qed.

Lemma strict_eq_string (s : string) : strict_eq (VStr s) (VStr s) = true.
Proof. simpl. apply String.eqb_refl. Qed.

Lemma assoc_In {A : Type} (k : string) (ps : list (string * A)) (v : A) :
  assoc k ps = Some v -> In k (map fst ps).
Proof.
  induction ps as [|[k' v'] ps IH]; simpl; [discriminate|].
  destruct (String.eqb_spec k k') as [->|_]; auto.
Qed.

Lemma assoc_None {A : Type} (k : string) (ps : list (string * A)) :
  assoc k ps = None <-> ~ In k (map fst ps).
Proof.
  induction ps as [|[k' v'] ps IH]; simpl.
  - tauto.
  - destruct (String.eqb_spec k k') as [->|Hne].
    + split; [discriminate|]. intros H. exfalso. apply H. now left.
    + rewrite IH. split.
      * intros H [E|I]; [now apply Hne|now apply H].
      * intros H I. apply H. now right.
Qed.

Lemma distinct_NoDup (ks : list string) : distinct ks = true <-> NoDup ks.
Proof.
  induction ks as [|k ks IH]; simpl.
  - split; [constructor|reflexivity].
  - rewrite andb_true_iff, negb_true_iff, IH. split.
    + intros [Hn Hd]. constructor; [|exact Hd].
      intros HIn. assert (existsb (String.eqb k) ks = true) as E.
      { apply existsb_exists. exists k. split; [exact HIn|apply String.eqb_refl]. }
      congruence.
    + intros H. inversion H as [|? ? Hn Hd]; subst. split; [|exact Hd].
      destruct (existsb (String.eqb k) ks) eqn:E; [|reflexivity].
      apply existsb_exists in E. destruct E as [x [HIn Hx]].
      apply String.eqb_eq in Hx. subst. contradiction.
Qed.

(** Reading a property of a list of string-valued variables. *)
Lemma assoc_string (k : string) (ps : list (string * value)) :
  forallb (fun p => is_string (snd p)) ps = true ->
  In k (map fst ps) -> exists s, assoc k ps = Some (VStr s).
Proof.
  induction ps as [|[k' v'] ps IH]; simpl; [tauto|].
  rewrite andb_true_iff. intros [Hv Hall] HIn.
  destruct (String.eqb_spec k k') as [->|Hne].
  - destruct v'; try discriminate. eauto.
  - destruct HIn as [E|HIn]; [congruence|]. auto.
Qed.

Lemma same_values_forall (vars1 vars2 : value) (k1 : list string) :
  same_values vars1 vars2 k1 = true <->
  forall k, In k k1 -> strict_eq (get vars1 k) (get vars2 k) = true.
Proof.
  induction k1 as [|k rest IH]; simpl.
  - split; [intros _ k []|reflexivity].
  - destruct (strict_eq (get vars1 k) (get vars2 k)) eqn:E; simpl.
    + rewrite IH. split.
      * intros H k' [<-|HIn]; auto.
      * intros H k' HIn. apply H. now right.
    + split; [discriminate|]. intros H.
      specialize (H k (or_introl eq_refl)). congruence.
Qed.

(* ================================================================== *)
(** ** The environment rule on well-typed environments *)

(** A well-typed environment either carries no variable, and then both
    recurring tests say so, or carries a non-empty list of them. *)
Lemma environment_cases (env : value) :
  is_environment env = true ->
  (variables_of env = [] /\ no_variables env = true
   /\ some_variables env = false)
  \/ (exists p ps,
        get env "Variables" = VObj (p :: ps)
        /\ is_variables (VObj (p :: ps)) = true
        /\ isObject env = true /\ truthy env = true
        /\ no_variables env = false /\ some_variables env = true).
Proof.
  unfold variables_of, no_variables, some_variables.
  destruct env as [| | | | | |ps]; simpl; try discriminate; auto.
  destruct (assoc "Variables" ps) as [vars|] eqn:E; simpl.
  - destruct vars as [| | | | | |[|p vs]]; simpl; try discriminate;
      try (intros _; left; repeat split; auto;
           destruct ps; reflexivity).
    intros H. right. exists p, vs. repeat split; auto.
    destruct ps; [discriminate E|reflexivity].
  - intros _. left. repeat split; auto. destruct ps; reflexivity.
Qed.

(** On well-typed environments the four branches of
    [compareEnvironment] collapse to the comparison of the lengths
    followed by the loop. *)
Lemma compareEnvironment_typed (env1 env2 : value) :
  is_environment env1 = true -> is_environment env2 = true ->
  compareEnvironment env1 env2 =
  (length (variables_of env1) =? length (variables_of env2))%nat
  && same_values (VObj (variables_of env1)) (VObj (variables_of env2))
       (map fst (variables_of env1)).
Proof.
  intros H1 H2.
  destruct (environment_cases env1 H1) as [(V1 & N1 & S1)|(p1 & ps1 & G1 & _ & O1 & T1 & N1 & S1)];
  destruct (environment_cases env2 H2) as [(V2 & N2 & S2)|(p2 & ps2 & G2 & _ & O2 & T2 & N2 & S2)];
  unfold compareEnvironment; rewrite N1, N2, ?S1, ?S2; simpl.
  - now rewrite V1, V2.
  - rewrite V1. unfold variables_of. now rewrite G2.
  - rewrite V2. unfold variables_of. now rewrite G1.
  - rewrite O1, T1, O2, T2. unfold variables_of. rewrite G1, G2. simpl.
    rewrite !length_map. reflexivity.
Qed.

Lemma variables_typed (env : value) :
  is_environment env = true ->
  NoDup (map fst (variables_of env))
  /\ forallb (fun p => is_string (snd p)) (variables_of env) = true.
Proof.
  intros H.
  destruct (environment_cases env H) as [(V & _)|(p & ps & G & W & _)].
  - rewrite V. split; [constructor|reflexivity].
  - unfold variables_of. rewrite G. simpl in W.
    apply andb_true_iff in W. destruct W as [D S].
    split; [now apply distinct_NoDup|exact S].
Qed.

Section Variables_compared.

Variables ps1 ps2 : list (string * value).
Hypothesis nodup1 : NoDup (map fst ps1).
Hypothesis nodup2 : NoDup (map fst ps2).
Hypothesis strings1 : forallb (fun p => is_string (snd p)) ps1 = true.

(** When the loop over the names of the first side finds equal values
    everywhere, every name of the first side is a name of the
    second. *)
Lemma loop_incl :
  same_values (VObj ps1) (VObj ps2) (map fst ps1) = true ->
  incl (map fst ps1) (map fst ps2).
Proof.
  rewrite same_values_forall. intros H k HIn.
  specialize (H k HIn). simpl in H.
  destruct (assoc_string k ps1 strings1 HIn) as [s Hs]. rewrite Hs in H.
  destruct (assoc k ps2) as [v|] eqn:E; [|discriminate].
  now apply assoc_In in E.
Qed.

(** The length test and the loop together decide [same_variables]. *)
Lemma loop_same_variables :
  (length ps1 =? length ps2)%nat
  && same_values (VObj ps1) (VObj ps2) (map fst ps1) = true
  <-> same_variables ps1 ps2.
Proof.
  rewrite andb_true_iff, Nat.eqb_eq. split.
  - intros [Hlen Hloop].
    pose proof (loop_incl Hloop) as I12.
    assert (incl (map fst ps2) (map fst ps1)) as I21.
    { apply NoDup_length_incl; auto. rewrite !length_map. lia. }
    rewrite same_values_forall in Hloop.
    split; [intros k; split; [apply I12|apply I21]|].
    intros k. destruct (in_dec string_dec k (map fst ps1)) as [HIn|HIn].
    + specialize (Hloop k HIn). apply strict_eq_true in Hloop. simpl in Hloop.
      destruct (assoc_string k ps1 strings1 HIn) as [s Hs].
      rewrite Hs in *. destruct (assoc k ps2); congruence.
    + assert (~ In k (map fst ps2)) as HIn2 by (intros X; apply HIn, I21, X).
      apply assoc_None in HIn, HIn2. congruence.
  - intros [Hkeys Hvals]. split.
    + apply Nat.le_antisymm; rewrite <- (length_map fst ps1), <- (length_map fst ps2);
        apply NoDup_incl_length; auto; intros k; apply Hkeys.
    + apply same_values_forall. intros k HIn. simpl. rewrite <- Hvals.
      destruct (assoc_string k ps1 strings1 HIn) as [s ->].
      apply strict_eq_string.
Qed.

End Variables_compared.

(** [compareEnvironment] decides [same_variables] on the well-typed
    environments. *)
Lemma compareEnvironment_same_variables (env1 env2 : value) :
  is_environment env1 = true -> is_environment env2 = true ->
  compareEnvironment env1 env2 = true
  <-> same_variables (variables_of env1) (variables_of env2).
Proof.
  intros H1 H2. rewrite compareEnvironment_typed by assumption.
  destruct (variables_typed env1 H1) as [N1 S1].
  destruct (variables_typed env2 H2) as [N2 _].
  now apply loop_same_variables.
Qed.

Lemma same_variables_sym (ps1 ps2 : list (string * value)) :
  same_variables ps1 ps2 -> same_variables ps2 ps1.
Proof.
  intros [K V]. split; intros k; [symmetry; apply K|symmetry; apply V].
Qed.

Lemma same_variables_refl (ps : list (string * value)) : same_variables ps ps.
Proof. split; intros k; reflexivity. Qed.

(* ================================================================== *)
(** ** The environment rule: order of the names *)

Lemma assoc_Some_In (k : string) (v : value) (ps : list (string * value)) :
  NoDup (map fst ps) -> (assoc k ps = Some v <-> In (k, v) ps).
Proof.
  induction ps as [|[k' v'] ps IH]; simpl; intros ND.
  - split; [discriminate|tauto].
  - inversion ND as [|? ? Hnotin ND']; subst.
    destruct (String.eqb_spec k k') as [->|Hne].
    + split.
      * intros E. injection E as ->. now left.
      * intros [E|HIn]; [congruence|].
        exfalso. apply Hnotin. apply (in_map fst) in HIn. exact HIn.
    + rewrite (IH ND'). split; [tauto|].
      intros [E|HIn]; [congruence|exact HIn].
Qed.

Lemma assoc_Permutation (k : string) (ps ps' : list (string * value)) :
  NoDup (map fst ps) -> Permutation ps ps' -> assoc k ps = assoc k ps'.
Proof.
  intros ND P.
  assert (NoDup (map fst ps')) as ND'
    by (eapply Permutation_NoDup; [apply Permutation_map, P|exact ND]).
  destruct (assoc k ps) as [v|] eqn:E.
  - symmetry. apply assoc_Some_In; [exact ND'|].
    eapply Permutation_in; [exact P|]. now apply assoc_Some_In.
  - destruct (assoc k ps') as [v'|] eqn:E'; [|reflexivity].
    apply assoc_Some_In in E'; [|exact ND'].
    apply (Permutation_in _ (Permutation_sym P)) in E'.
    apply assoc_Some_In in E'; [congruence|exact ND].
Qed.

Lemma same_variables_Permutation (ps ps' : list (string * value)) :
  NoDup (map fst ps) -> Permutation ps ps' -> same_variables ps ps'.
Proof.
  intros ND P. split; intros k.
  - split; apply Permutation_in;
      [apply Permutation_map, P|apply Permutation_map, Permutation_sym, P].
  - now apply assoc_Permutation.
Qed.

Lemma same_variables_trans (ps1 ps2 ps3 : list (string * value)) :
  same_variables ps1 ps2 -> same_variables ps2 ps3 -> same_variables ps1 ps3.
Proof.
  intros [K1 V1] [K2 V2]. split; intros k.
  - now rewrite K1.
  - now rewrite V1.
Qed.

Lemma env_of_typed (vars : list (string * string)) :
  NoDup (map fst vars) -> is_environment (env_of vars) = true.
Proof.
  intros ND. unfold env_of. fold (string_variables vars).
  assert (is_variables (VObj (string_variables vars)) = true) as W.
  { simpl. apply andb_true_iff. split.
    - apply distinct_NoDup. unfold string_variables.
      rewrite map_map. simpl. exact ND.
    - unfold string_variables. clear ND.
      induction vars as [|p vars IH]; [reflexivity|exact IH]. }
  simpl in *. destruct (string_variables vars); [reflexivity|exact W].
Qed.

Lemma variables_of_env_of (vars : list (string * string)) :
  variables_of (env_of vars) = string_variables vars.
Proof. reflexivity. Qed.

(** Two booleans that are [true] together are equal. *)
Lemma bool_eq_iff (a b : bool) : (a = true <-> b = true) -> a = b.
Proof. destruct a, b; intuition congruence. Qed.

(** Listing the variables of one side in another order does not change
    the answer. *)
Lemma compareEnvironment_Permutation (vars vars' : list (string * string))
    (env : value) :
  NoDup (map fst vars) -> Permutation vars vars' ->
  is_environment env = true ->
  compareEnvironment (env_of vars) env = compareEnvironment (env_of vars') env
  /\ compareEnvironment env (env_of vars) = compareEnvironment env (env_of vars').
Proof.
  intros ND P T.
  assert (NoDup (map fst vars')) as ND'
    by (eapply Permutation_NoDup; [apply Permutation_map, P|exact ND]).
  pose proof (env_of_typed vars ND) as T1.
  pose proof (env_of_typed vars' ND') as T2.
  assert (same_variables (variables_of (env_of vars))
            (variables_of (env_of vars'))) as S.
  { rewrite !variables_of_env_of. apply same_variables_Permutation.
    - unfold string_variables. rewrite map_map. exact ND.
    - apply Permutation_map, P. }
  split; apply bool_eq_iff;
    rewrite !compareEnvironment_same_variables by assumption; split; intros H.
  - eapply same_variables_trans; [apply same_variables_sym, S|exact H].
  - eapply same_variables_trans; [exact S|exact H].
  - eapply same_variables_trans; [exact H|exact S].
  - eapply same_variables_trans; [exact H|apply same_variables_sym, S].
Qed.

(** C3.  The check of [Environment.Variables], on the environments the
    signature admits: two sides without variables (empty or absent) are
    equal; a side without variables and a side with at least one are
    unequal; two sides with variables are equal exactly when they carry
    the same names and, under every name, the same value, in whatever
    order the names are listed; and the five examples of the
    specification come out as it says. *)
Theorem compareEnvironment_rule
    (env1 env2 : value) (vars vars' : list (string * string)) :
  is_environment env1 = true -> is_environment env2 = true ->
  NoDup (map fst vars) -> Permutation vars vars' ->
  (variables_of env1 = [] -> variables_of env2 = [] ->
   compareEnvironment env1 env2 = true)
  /\ (variables_of env1 = [] -> variables_of env2 <> [] ->
      compareEnvironment env1 env2 = false)
  /\ (variables_of env1 <> [] -> variables_of env2 = [] ->
      compareEnvironment env1 env2 = false)
  /\ (variables_of env1 <> [] -> variables_of env2 <> [] ->
      (compareEnvironment env1 env2 = true
       <-> same_variables (variables_of env1) (variables_of env2)))
  /\ (compareEnvironment (env_of vars) env2
      = compareEnvironment (env_of vars') env2
      /\ compareEnvironment env1 (env_of vars)
         = compareEnvironment env1 (env_of vars'))
  /\ compareEnvironment (VObj []) (env_of []) = true
  /\ compareEnvironment (env_of [("X", "1")]) (env_of []) = false
  /\ compareEnvironment (env_of [("X", "1")]) (env_of [("X", "1")]) = true
  /\ compareEnvironment (env_of [("X", "1")]) (env_of [("X", "2")]) = false
  /\ compareEnvironment (env_of [("X", "1"); ("Y", "2")])
       (env_of [("Y", "2")]) = false.
Proof.
  intros T1 T2 ND P.
  pose proof (compareEnvironment_same_variables env1 env2 T1 T2) as Iff.
  split; [|split; [|split; [|split; [|split; [|repeat split]]]]].
  - intros E1 E2. apply Iff. rewrite E1, E2. apply same_variables_refl.
  - intros E1 N2. destruct (compareEnvironment env1 env2) eqn:C; [|reflexivity].
    destruct Iff as [Iff _]. destruct (Iff eq_refl) as [K _].
    rewrite E1 in K. destruct (variables_of env2) as [|[k v] ps]; [congruence|].
    exfalso. apply (K k). now left.
  - intros N1 E2. destruct (compareEnvironment env1 env2) eqn:C; [|reflexivity].
    destruct Iff as [Iff _]. destruct (Iff eq_refl) as [K _].
    rewrite E2 in K. destruct (variables_of env1) as [|[k v] ps]; [congruence|].
    exfalso. apply (K k). now left.
  - intros _ _. exact Iff.
  - split; now apply compareEnvironment_Permutation.
Qed.

Lemma compareEnvironment_rule_witness :
  compareEnvironment (env_of [("X", "1"); ("Y", "2")])
    (env_of [("Y", "2"); ("X", "1")]) = true.
Proof.
  pose proof (compareEnvironment_rule
                (env_of [("X", "1"); ("Y", "2")]) (env_of [("X", "1"); ("Y", "2")])
                [("X", "1"); ("Y", "2")] [("Y", "2"); ("X", "1")]
                eq_refl eq_refl) as H.
  assert (NoDup (map fst [("X", "1"); ("Y", "2")])) as ND.
  { apply distinct_NoDup. reflexivity. }
  specialize (H ND (perm_swap _ _ _)).
  destruct H as (_ & _ & _ & _ & [_ H] & _).
  rewrite <- H. reflexivity.
Defined.

(** C4.  The check of [Environment.Variables] is symmetric and
    reflexive on the environments the signature admits. *)
Theorem compareEnvironment_symmetric_reflexive (env1 env2 : value) :
  is_environment env1 = true -> is_environment env2 = true ->
  compareEnvironment env1 env2 = compareEnvironment env2 env1
  /\ compareEnvironment env1 env1 = true.
Proof.
  intros T1 T2. split.
  - apply bool_eq_iff.
    rewrite !compareEnvironment_same_variables by assumption.
    split; apply same_variables_sym.
  - apply compareEnvironment_same_variables; [assumption..|].
    apply same_variables_refl.
Qed.

Lemma compareEnvironment_symmetric_reflexive_witness :
  compareEnvironment (env_of [("X", "1"); ("Y", "2")]) VNull
  = compareEnvironment VNull (env_of [("X", "1"); ("Y", "2")])
  /\ compareEnvironment (env_of [("X", "1"); ("Y", "2")])
       (env_of [("X", "1"); ("Y", "2")]) = true.
Proof.
  apply (compareEnvironment_symmetric_reflexive
           (env_of [("X", "1"); ("Y", "2")]) VNull); reflexivity.
Defined.

(* ================================================================== *)
(** ** Tasks that issue no call *)

Lemma readObject_state (w : World) (file : string) (checkType : option string)
    (st : State) :
  snd (readObject w file checkType st) = st.
Proof.
  unfold readObject.
  destruct (fs_readFile_utf8 w file) as [| |object]; try reflexivity.
  destruct (truthy object); [|reflexivity].
  destruct checkType as [type|]; [|reflexivity].
  destruct (truthy (VStr type)); [|reflexivity].
  destruct (checkObject object type) as [result|exn]; [|reflexivity].
  destruct (truthy (VStr result)); reflexivity.
Qed.

Lemma quiet_and_then {A B : Type} (p : Task A) (f : A -> Task B) :
  quiet p -> (forall a, quiet (f a)) -> quiet (p >>= f).
Proof.
  intros Hp Hf st. unfold and_then. specialize (Hp st).
  destruct (p st) as [[a|r| |e|] st']; simpl in *; try exact Hp.
  destruct (Hf a st') as [I G]. destruct Hp as [I' G']. split; congruence.
Qed.

Lemma quiet_start_all (tasks : list (Task value)) :
  Forall quiet tasks ->
  forall st, issued (snd (start_all tasks st)) = issued st
             /\ lambdaGetInfo (snd (start_all tasks st)) = lambdaGetInfo st.
Proof.
  induction 1 as [|t tasks Ht _ IH]; intros st; simpl; [auto|].
  specialize (Ht st). destruct (t st) as [o st1]. simpl in Ht.
  specialize (IH st1). destruct (start_all tasks st1) as [os st2].
  simpl in *. destruct Ht, IH. split; congruence.
Qed.

Lemma quiet_Promise_all (w : World) (tasks : list (Task value)) :
  Forall quiet tasks -> quiet (Promise_all w tasks).
Proof.
  intros H st. unfold Promise_all.
  pose proof (quiet_start_all tasks H st) as Q.
  destruct (start_all tasks st) as [os st']. exact Q.
Qed.

Lemma quiet_readObject (w : World) (file : string) (checkType : option string) :
  quiet (readObject w file checkType).
Proof. intros st. now rewrite readObject_state. Qed.

Lemma quiet_onLambdaConfig (cfg : value) : quiet (onLambdaConfig cfg).
Proof.
  intros st. unfold onLambdaConfig.
  destruct (isLambdaConfig cfg) as [ok|exn]; [|auto].
  destruct (ok && _ && _); auto.
Qed.

Lemma quiet_onLambdaSecrets (cfg : value) : quiet (onLambdaSecrets cfg).
Proof.
  intros st. unfold onLambdaSecrets.
  destruct (isLambdaSecrets cfg) as [ok|exn]; [|auto].
  destruct (ok && _ && _); auto.
Qed.

Create HintDb quiet.
#[local] Hint Resolve quiet_readObject quiet_onLambdaConfig
  quiet_onLambdaSecrets : quiet.

Lemma quiet_createLambdaService (w : World) : quiet (createLambdaService w).
Proof.
  unfold createLambdaService, readConfig. apply quiet_and_then.
  - apply quiet_Promise_all.
    repeat constructor; apply quiet_and_then; auto with quiet.
  - intros _ st. auto.
Qed.

(** The calls issued by a task that extends the log with [cs]. *)
Lemma calls_during_app {A : Type} (run : Task A) (st : State) (cs : list call) :
  issued (snd (run st)) = (issued st ++ cs)%list ->
  calls_during run st = cs.
Proof.
  unfold calls_during. intros ->.
  rewrite skipn_app, skipn_all, Nat.sub_diag. reflexivity.
Qed.

(* ================================================================== *)
(** ** The paths of [deploy] *)

Lemma readArchive_readable (w : World) (st : State) (bytes : list Byte.byte) :
  isNEString (get (lambdaCfg st) "archiveName") = true ->
  fs_readFile w (text (get (lambdaCfg st) "archiveName")) = Some bytes ->
  readArchive w st = (Resolved bytes, st).
Proof. unfold readArchive. now intros -> ->. Qed.

Lemma createFunction_readable (w : World) (st : State)
    (bytes : list Byte.byte) :
  readArchive w st = (Resolved bytes, st) ->
  createFunction w st
  = (Resolved VUndefined,
     issue (CreateFunction (createFunction_params st bytes)) st).
Proof. unfold createFunction, and_then. now intros ->. Qed.

Lemma createFunction_unreadable (w : World) (st : State) (reason : value) :
  readArchive w st = (Rejected reason, st) ->
  createFunction w st = (Rejected reason, st).
Proof. unfold createFunction, and_then. now intros ->. Qed.

Section Deploy_paths.

Variable w : World.
Variable options : option DeployOptions.t.
Variables st st1 : State.
Hypothesis service : reaches_getFunction w st st1.

Let name : value := get (lambdaCfg st1) "FunctionName".
Let asked : State := issue (GetFunction name) st1.

Lemma service_log : issued st1 = issued st.
Proof.
  destruct service as [c Hc].
  destruct (quiet_createLambdaService w st) as [I _].
  now rewrite Hc in I.
Qed.

Lemma deploy_not_found_rejected :
  function_not_found w st1 ->
  option_set DeployOptions.create options = false ->
  deploy w options st = (Rejected (VStr ERR_LAMBDA_NOT_FOUND), asked).
Proof.
  intros (err & Hget & Hcode) Hcreate. destruct service as [c Hc].
  unfold deploy, and_then. rewrite Hc. unfold checkLambda.
  rewrite Hget, Hcode, Hcreate. reflexivity.
Qed.

Lemma deploy_not_found_create :
  function_not_found w st1 ->
  option_set DeployOptions.create options = true ->
  deploy w options st = createFunction w asked.
Proof.
  intros (err & Hget & Hcode) Hcreate. destruct service as [c Hc].
  unfold deploy, and_then. rewrite Hc. unfold checkLambda.
  rewrite Hget, Hcode, Hcreate. reflexivity.
Qed.

Lemma deploy_found (data : list (string * value)) :
  function_found w st1 data ->
  let st2 := set_lambdaGetInfo (VObj data) asked in
  deploy w options st =
  if negb (option_set DeployOptions.updateConfig options)
     && negb (checkLambdaConfig st2 (VObj data))
  then (Rejected (VStr ERR_LAMBDA_CONFIG), st2)
  else
    (Promise_all w
       ((if option_set DeployOptions.updateConfig options
         then [updateConfig w] else [])
        ++ [updateFunctionCode w])%list
     >>= fun _ => resolve (VStr INFO_DEPLOY_COMPLETE)) st2.
Proof.
  intros Hget. destruct service as [c Hc]. red in Hget.
  unfold deploy, and_then. rewrite Hc. unfold checkLambda.
  rewrite Hget. reflexivity.
Qed.

End Deploy_paths.

(** A difference in a compared field makes [checkLambdaConfig] fail. *)
Lemma checkLambdaConfig_differs (st : State) (config : value) :
  snapshot_differs (lambdaCfg st) (lambdaSecrets st) config ->
  checkLambdaConfig st config = false.
Proof.
  assert (forall a b, a <> b -> strict_eq a b = false) as Hne.
  { intros a b N. destruct (strict_eq a b) eqn:E; [|reflexivity].
    apply strict_eq_true in E. contradiction. }
  unfold checkLambdaConfig.
  intros [(f & HIn & N)|[N|(T1 & T2 & N)]].
  - apply Hne in N. simpl in HIn.
    repeat (destruct HIn as [<-|HIn]; [rewrite N, ?andb_false_r; reflexivity|]).
    contradiction.
  - apply Hne in N. rewrite N, ?andb_false_r. reflexivity.
  - match goal with |- (if ?b then _ else _) = _ => destruct b end;
      [|reflexivity].
    destruct (compareEnvironment _ _) eqn:C; [|reflexivity].
    apply compareEnvironment_same_variables in C; [contradiction|assumption..].
Qed.

(** A reply of the documented shape, with the fields of the function
    under [Configuration] and none at the top, always differs from a
    configuration that was accepted. *)
Lemma documented_reply_differs (cfg secrets : value)
    (data : list (string * value)) :
  isNEString (get cfg "FunctionName") = true ->
  assoc "FunctionName" data = None ->
  snapshot_differs cfg secrets (VObj data).
Proof.
  intros NE A. left. exists "FunctionName". split; [now left|].
  simpl. rewrite A. destruct (get cfg "FunctionName"); discriminate.
Qed.

(* ================================================================== *)
(** ** Deploying against a function that exists *)

(** C1.  When [getFunction] finds the function, the [updateConfig]
    option is not set and the local configuration and secrets differ
    from the remote snapshot in a compared field (FunctionName,
    Description, Handler, Runtime, MemorySize, Timeout, Role or the
    variables of the environment), the deploy is rejected with
    'Lambda config different'; the only call it has issued is
    [getFunction]: no [updateFunctionCode], dry run or not, and no
    [updateFunctionConfiguration]. *)
Theorem deploy_config_mismatch
    (w : World) (options : option DeployOptions.t) (st st1 : State)
    (data : list (string * value)) :
  reaches_getFunction w st st1 ->
  function_found w st1 data ->
  option_set DeployOptions.updateConfig options = false ->
  snapshot_differs (lambdaCfg st1) (lambdaSecrets st1) (VObj data) ->
  fst (deploy w options st) = Rejected (VStr ERR_LAMBDA_CONFIG)
  /\ calls_during (deploy w options) st
     = [GetFunction (get (lambdaCfg st1) "FunctionName")]
  /\ count is_code_update (calls_during (deploy w options) st) = 0
  /\ count is_config_update (calls_during (deploy w options) st) = 0.
Proof.
  intros S F U D.
  pose proof (deploy_found w options st st1 S data F) as E. simpl in E.
  rewrite U in E. simpl in E.
  rewrite checkLambdaConfig_differs in E by exact D. simpl in E.
  assert (calls_during (deploy w options) st
          = [GetFunction (get (lambdaCfg st1) "FunctionName")]) as C.
  { apply calls_during_app. rewrite E. simpl.
    now rewrite (service_log w st st1 S). }
  rewrite C, E. repeat split.
Qed.

Lemma deploy_config_mismatch_witness :
  let w := existing_function_world (sample_snapshot 10 "c2hh")
             service_error service_error in
  fst (deploy w None fresh) = Rejected (VStr ERR_LAMBDA_CONFIG)
  /\ calls_during (deploy w None) fresh = [GetFunction (VStr "hello")]
  /\ count is_code_update (calls_during (deploy w None) fresh) = 0
  /\ count is_config_update (calls_during (deploy w None) fresh) = 0.
Proof.
  intros w.
  apply (deploy_config_mismatch w None fresh sample_loaded
           (sample_snapshot 10 "c2hh")).
  - eexists. reflexivity.
  - reflexivity.
  - reflexivity.
  - left. exists "Timeout". split; [simpl; tauto|simpl; discriminate].
Defined.

(* ================================================================== *)
(** ** Deploying against a function that does not exist *)

Lemma readArchive_cases (w : World) (st : State) :
  (exists bytes, archive_readable w st bytes
                 /\ readArchive w st = (Resolved bytes, st))
  \/ ((forall bytes, ~ archive_readable w st bytes)
      /\ exists reason, readArchive w st = (Rejected reason, st)).
Proof.
  unfold archive_readable, readArchive.
  destruct (isNEString _) eqn:N.
  - destruct (fs_readFile w _) as [bytes|] eqn:R.
    + left. exists bytes. auto.
    + right. split; [intros bytes [_ X]; discriminate|eauto].
  - right. split; [intros bytes [X _]; discriminate|eauto].
Qed.

(** What [readArchive] rejects with: the file of [archiveName] cannot
    be read, or [archiveName] is not a non-empty string. *)
Lemma readArchive_unreadable (w : World) (st : State) :
  (forall bytes, ~ archive_readable w st bytes) ->
  readArchive w st
  = (Rejected
       (VStr (if isNEString (get (lambdaCfg st) "archiveName")
              then "Archive " ++ text (get (lambdaCfg st) "archiveName")
                   ++ "not found"
              else "Invalid archive name")),
     st).
Proof.
  unfold archive_readable, readArchive. intros U.
  destruct (isNEString _) eqn:N; [|reflexivity].
  destruct (fs_readFile w _) as [bytes|] eqn:R; [|reflexivity].
  exfalso. apply (U bytes). auto.
Qed.

Section Create_path.

Variable w : World.
Variable options : option DeployOptions.t.
Variables st st1 : State.
Hypothesis service : reaches_getFunction w st st1.
Hypothesis missing : function_not_found w st1.
Hypothesis wanted : option_set DeployOptions.create options = true.

Let name : value := get (lambdaCfg st1) "FunctionName".
Let asked : State := issue (GetFunction name) st1.

(** With a readable archive the deploy issues [getFunction] and
    [createFunction] and is fulfilled with [undefined]. *)
Lemma create_path_readable (bytes : list Byte.byte) :
  archive_readable w st1 bytes ->
  fst (deploy w options st) = Resolved VUndefined
  /\ calls_during (deploy w options) st
     = [GetFunction name;
        CreateFunction (createFunction_params asked bytes)].
Proof.
  intros [N R].
  rewrite (deploy_not_found_create w options st st1 service missing wanted).
  fold name. fold asked.
  assert (createFunction w asked
          = (Resolved VUndefined,
             issue (CreateFunction (createFunction_params asked bytes))
               asked)) as E.
  { apply createFunction_readable, readArchive_readable; assumption. }
  split; [now rewrite E|].
  apply calls_during_app.
  rewrite (deploy_not_found_create w options st st1 service missing wanted).
  fold name. fold asked. rewrite E. simpl.
  rewrite (service_log w st st1 service), <- app_assoc. reflexivity.
Qed.

(** Without one it stops after [getFunction], rejected with the
    message of [readArchive]. *)
Lemma create_path_unreadable :
  (forall bytes, ~ archive_readable w st1 bytes) ->
  fst (deploy w options st)
  = Rejected
      (VStr (if isNEString (get (lambdaCfg st1) "archiveName")
             then "Archive " ++ text (get (lambdaCfg st1) "archiveName")
                  ++ "not found"
             else "Invalid archive name"))
  /\ calls_during (deploy w options) st = [GetFunction name].
Proof.
  intros U.
  pose proof (readArchive_unreadable w asked U) as E.
  pose proof (createFunction_unreadable w asked _ E) as C.
  rewrite (deploy_not_found_create w options st st1 service missing wanted).
  fold name. fold asked. split; [now rewrite C|].
  apply calls_during_app.
  rewrite (deploy_not_found_create w options st st1 service missing wanted).
  fold name. fold asked. rewrite C. simpl.
  now rewrite (service_log w st st1 service).
Qed.

End Create_path.

(** C5, as the code has it.  When [getFunction] reports that the
    function does not exist: without the [create] option the deploy is
    rejected with 'Lambda not found' and has issued nothing but
    [getFunction]; with the [create] option and an archive that can be
    read it issues exactly one [createFunction], no
    [updateFunctionConfiguration] and no [updateFunctionCode]; with the
    [create] option and an archive that cannot be read it is rejected
    with the error of the archive, 'Archive <archiveName>not found'
    when [archiveName] is a non-empty string and 'Invalid archive name'
    when it is not, and issues no [createFunction] and no update
    either. *)
Theorem deploy_not_found
    (w : World) (options : option DeployOptions.t) (st st1 : State) :
  reaches_getFunction w st st1 ->
  function_not_found w st1 ->
  let calls := calls_during (deploy w options) st in
  (option_set DeployOptions.create options = false ->
   fst (deploy w options st) = Rejected (VStr ERR_LAMBDA_NOT_FOUND)
   /\ count is_create calls = 0
   /\ count is_config_update calls = 0
   /\ count is_code_update calls = 0)
  /\ (option_set DeployOptions.create options = true ->
      ((exists bytes, archive_readable w st1 bytes) ->
       count is_create calls = 1
       /\ count is_config_update calls = 0
       /\ count is_code_update calls = 0)
      /\ ((forall bytes, ~ archive_readable w st1 bytes) ->
          fst (deploy w options st)
          = Rejected
              (VStr (if isNEString (get (lambdaCfg st1) "archiveName")
                     then "Archive "
                          ++ text (get (lambdaCfg st1) "archiveName")
                          ++ "not found"
                     else "Invalid archive name"))
          /\ count is_create calls = 0
          /\ count is_config_update calls = 0
          /\ count is_code_update calls = 0)).
Proof.
  intros S M calls. split; [intros C|intros C; split].
  - pose proof (deploy_not_found_rejected w options st st1 S M C) as E.
    assert (calls = [GetFunction (get (lambdaCfg st1) "FunctionName")]) as L.
    { apply calls_during_app. rewrite E. simpl.
      now rewrite (service_log w st st1 S). }
    rewrite L, E. repeat split.
  - intros [bytes A].
    destruct (create_path_readable w options st st1 S M C bytes A) as [_ L].
    unfold calls. rewrite L. repeat split.
  - intros U.
    destruct (create_path_unreadable w options st st1 S M C U) as [R L].
    unfold calls. rewrite L, R. repeat split.
Qed.

Lemma deploy_not_found_witness :
  let w := missing_function_world (Some sample_archive) (Succeeded []) in
  let w' := missing_function_world None (Succeeded []) in
  (count is_create (calls_during (deploy w create_option) fresh) = 1
   /\ count is_config_update (calls_during (deploy w create_option) fresh) = 0
   /\ count is_code_update (calls_during (deploy w create_option) fresh) = 0)
  /\ (fst (deploy w' create_option fresh)
      = Rejected (VStr "Archive lambda.zipnot found")
      /\ count is_create (calls_during (deploy w' create_option) fresh) = 0
      /\ count is_config_update (calls_during (deploy w' create_option) fresh)
         = 0
      /\ count is_code_update (calls_during (deploy w' create_option) fresh)
         = 0).
Proof.
  intros w w'. split.
  - assert (reaches_getFunction w fresh sample_loaded)
      as S by (eexists; reflexivity).
    assert (function_not_found w sample_loaded) as M
      by (eexists; split; reflexivity).
    destruct (deploy_not_found w create_option fresh sample_loaded S M)
      as [_ H].
    destruct (H eq_refl) as [H1 _]. apply H1.
    exists sample_archive. split; reflexivity.
  - assert (reaches_getFunction w' fresh sample_loaded)
      as S by (eexists; reflexivity).
    assert (function_not_found w' sample_loaded) as M
      by (eexists; split; reflexivity).
    destruct (deploy_not_found w' create_option fresh sample_loaded S M)
      as [_ H].
    destruct (H eq_refl) as [_ H2]. apply H2.
    intros bytes [_ X]. discriminate X.
Defined.

(** The run that C5 as written gets wrong: the [create] option is set
    and there is no archive to read. *)
Example deploy_create_without_archive :
  let w := missing_function_world None (Succeeded []) in
  reaches_getFunction w fresh sample_loaded
  /\ function_not_found w sample_loaded
  /\ deploy w create_option fresh
     = (Rejected (VStr "Archive lambda.zipnot found"),
        issue (GetFunction (VStr "hello")) sample_loaded).
Proof.
  intros w. split; [eexists; reflexivity|].
  split; [eexists; split; reflexivity|reflexivity].
Qed.

(** C5 as written fails: with the [create] option and no archive to
    read, the deploy issues no [createFunction] at all. *)
Lemma not_found_as_specified_fails : ~ not_found_as_specified.
Proof.
  intros H.
  pose (w := missing_function_world None (Succeeded [])).
  assert (reaches_getFunction w fresh sample_loaded)
    as S by (eexists; reflexivity).
  assert (function_not_found w sample_loaded) as M
    by (eexists; split; reflexivity).
  destruct (H w create_option fresh sample_loaded S M) as [_ H2].
  destruct (H2 eq_refl) as [H3 _].
  vm_compute in H3. discriminate H3.
Qed.

(** C6, as the code has it.  On the path that creates the function
    (not found, [create] set, archive read), the deploy issues
    [getFunction] and then [createFunction], whose [Code.ZipFile] is
    the archive, and stops there: no [updateFunctionCode] follows, dry
    run or not. *)
Theorem create_path_uploads_archive
    (w : World) (options : option DeployOptions.t) (st st1 : State)
    (bytes : list Byte.byte) :
  reaches_getFunction w st st1 ->
  function_not_found w st1 ->
  option_set DeployOptions.create options = true ->
  archive_readable w st1 bytes ->
  exists params,
    calls_during (deploy w options) st
    = [GetFunction (get (lambdaCfg st1) "FunctionName");
       CreateFunction params]
    /\ CreateFunctionRequest.Code_ZipFile params = bytes
    /\ count is_code_update (calls_during (deploy w options) st) = 0
    /\ count is_dry_run (calls_during (deploy w options) st) = 0.
Proof.
  intros S M C A.
  destruct (create_path_readable w options st st1 S M C bytes A) as [_ L].
  eexists. rewrite L. repeat split.
Qed.

Lemma create_path_uploads_archive_witness :
  let w := missing_function_world (Some sample_archive) (Succeeded []) in
  exists params,
    calls_during (deploy w create_option) fresh
    = [GetFunction (VStr "hello"); CreateFunction params]
    /\ CreateFunctionRequest.Code_ZipFile params = sample_archive
    /\ count is_code_update (calls_during (deploy w create_option) fresh) = 0
    /\ count is_dry_run (calls_during (deploy w create_option) fresh) = 0.
Proof.
  intros w.
  apply (create_path_uploads_archive w create_option fresh sample_loaded
           sample_archive).
  - eexists. reflexivity.
  - eexists. split; reflexivity.
  - reflexivity.
  - split; reflexivity.
Defined.

(** The run that C6 as written gets wrong: the function is created and
    nothing follows. *)
Example deploy_create_calls :
  let w := missing_function_world (Some sample_archive) (Succeeded []) in
  deploy w create_option fresh
  = (Resolved VUndefined,
     issue
       (CreateFunction
          (CreateFunctionRequest.make (VStr "hello") (VStr "says hello")
             (VStr "index.handler") (VStr "nodejs6.10") (VNum 128) (VNum 3)
             (VBool false) (VStr "arn:aws:iam::1:role/lambda")
             sample_archive))
       (issue (GetFunction (VStr "hello")) sample_loaded)).
Proof. reflexivity. Qed.

(** C6 as written fails: after [createFunction] no dry run is
    issued. *)
Lemma create_then_code_update_as_specified_fails :
  ~ create_then_code_update_as_specified.
Proof.
  intros H.
  pose (w := missing_function_world (Some sample_archive) (Succeeded [])).
  assert (reaches_getFunction w fresh sample_loaded)
    as S by (eexists; reflexivity).
  assert (function_not_found w sample_loaded) as M
    by (eexists; split; reflexivity).
  destruct (H w create_option fresh sample_loaded S M eq_refl)
    as (before & after & c & E & D & _).
  assert (In c (calls_during (deploy w create_option) fresh)) as I.
  { rewrite E. apply in_or_app. right. now left. }
  vm_compute in I. destruct I as [<-|[<-|[]]]; discriminate D.
Qed.

(** C8, where the code departs from it.  On the path that creates the
    function the deploy is fulfilled, with [undefined], as soon as
    [createFunction] is issued, whatever the remote side answers: when
    the call fails, the rejection 'Error creating Lambda function' that
    its callback builds is returned to the SDK and lost. *)
Theorem deploy_create_failure_not_surfaced
    (w : World) (options : option DeployOptions.t) (st st1 : State)
    (bytes : list Byte.byte) (err : list (string * value)) :
  reaches_getFunction w st st1 ->
  function_not_found w st1 ->
  option_set DeployOptions.create options = true ->
  archive_readable w st1 bytes ->
  (forall params, lambda_createFunction w params = Failed err) ->
  fst (deploy w options st) = Resolved VUndefined
  /\ count is_create (calls_during (deploy w options) st) = 1
  /\ forall params,
       createFunction_callback w (snd (deploy w options st)) params
       = Rejected (VStr "Error creating Lambda function").
Proof.
  intros S M C A F.
  destruct (create_path_readable w options st st1 S M C bytes A) as [R L].
  rewrite L. repeat split; [exact R|].
  intros params. unfold createFunction_callback. now rewrite F.
Qed.

Lemma deploy_create_failure_not_surfaced_witness :
  let w := missing_function_world (Some sample_archive) service_error in
  fst (deploy w create_option fresh) = Resolved VUndefined
  /\ count is_create (calls_during (deploy w create_option) fresh) = 1
  /\ forall params,
       createFunction_callback w (snd (deploy w create_option fresh)) params
       = Rejected (VStr "Error creating Lambda function").
Proof.
  intros w.
  apply (deploy_create_failure_not_surfaced w create_option fresh
           sample_loaded sample_archive [("code", VStr "ServiceException")]).
  - eexists. reflexivity.
  - eexists. split; reflexivity.
  - reflexivity.
  - split; reflexivity.
  - reflexivity.
Defined.

(* ================================================================== *)
(** ** The update of the code *)

Section Code_update.

Variable w : World.
Variable st : State.
Variable bytes : list Byte.byte.
Variable dry : list (string * value).

Hypothesis archive : archive_readable w st bytes.
Hypothesis dry_run :
  lambda_updateFunctionCode w (updateCode_params st (Buffer bytes) true)
  = Succeeded dry.
Hypothesis snapshot :
  truthy (lambdaGetInfo st)
  && truthy (get (lambdaGetInfo st) "Configuration") = true.

Let remote_hash : value :=
  get (get (lambdaGetInfo st) "Configuration") "CodeSha256".

(** The dry run comes first, with the archive. *)
Lemma updateFunctionCode_dry_run :
  updateFunctionCode w st =
  let st1 :=
    issue (UpdateFunctionCode (updateCode_params st (Buffer bytes) true))
      st in
  if negb (strict_eq (get (VObj dry) "CodeSha256") remote_hash)
  then updateCode w (updateCode_params st1 (NotBuffer (VObj dry)) false) st1
  else (Resolved (VStr INFO_FUNCTION_CODE_UO_TO_DATE), st1).
Proof.
  destruct archive as [N R].
  unfold updateFunctionCode, and_then.
  rewrite (readArchive_readable w st bytes N R).
  unfold updateCode at 1. rewrite dry_run. cbv zeta.
  change (lambdaGetInfo (issue _ st)) with (lambdaGetInfo st).
  rewrite snapshot. reflexivity.
Qed.

(** Equal hashes: the dry run is the only call, and the phase reports
    that the code is up to date. *)
Lemma updateFunctionCode_up_to_date :
  strict_eq (get (VObj dry) "CodeSha256") remote_hash = true ->
  fst (updateFunctionCode w st)
  = Resolved (VStr INFO_FUNCTION_CODE_UO_TO_DATE)
  /\ calls_during (updateFunctionCode w) st
     = [UpdateFunctionCode (updateCode_params st (Buffer bytes) true)].
Proof.
  intros E. split.
  - rewrite updateFunctionCode_dry_run. cbv zeta. now rewrite E.
  - apply calls_during_app. rewrite updateFunctionCode_dry_run.
    cbv zeta. now rewrite E.
Qed.

(** Different hashes: one more call, the real update. *)
Lemma updateFunctionCode_outdated :
  strict_eq (get (VObj dry) "CodeSha256") remote_hash = false ->
  calls_during (updateFunctionCode w) st
  = [UpdateFunctionCode (updateCode_params st (Buffer bytes) true);
     UpdateFunctionCode (updateCode_params st (NotBuffer (VObj dry)) false)].
Proof.
  intros E. apply calls_during_app. rewrite updateFunctionCode_dry_run.
  cbv zeta. rewrite E. unfold updateCode. simpl.
  match goal with
  | |- context [match ?reply with Failed _ => _ | Succeeded _ => _ end] =>
      destruct reply
  end; simpl; now rewrite <- app_assoc.
Qed.

End Code_update.

(** C2, where the code departs from it.  In the update of the code,
    with an archive that can be read, a dry run that succeeds and a
    snapshot that has its [Configuration]: the dry run is issued first,
    with the bytes of the archive; when its hash differs from the
    remote one, exactly one real update follows, with [DryRun] false,
    but its [ZipFile] is the reply of the dry run, not the archive. *)
Theorem updateFunctionCode_real_update_payload
    (w : World) (st : State) (bytes : list Byte.byte)
    (dry : list (string * value)) :
  archive_readable w st bytes ->
  lambda_updateFunctionCode w (updateCode_params st (Buffer bytes) true)
  = Succeeded dry ->
  truthy (lambdaGetInfo st)
  && truthy (get (lambdaGetInfo st) "Configuration") = true ->
  strict_eq (get (VObj dry) "CodeSha256")
    (get (get (lambdaGetInfo st) "Configuration") "CodeSha256") = false ->
  exists first second,
    calls_during (updateFunctionCode w) st
    = [UpdateFunctionCode first; UpdateFunctionCode second]
    /\ UpdateFunctionCodeRequest.DryRun first = true
    /\ UpdateFunctionCodeRequest.ZipFile first = Buffer bytes
    /\ UpdateFunctionCodeRequest.DryRun second = false
    /\ UpdateFunctionCodeRequest.ZipFile second = NotBuffer (VObj dry)
    /\ UpdateFunctionCodeRequest.ZipFile second
       <> UpdateFunctionCodeRequest.ZipFile first.
Proof.
  intros A D S E.
  exists (updateCode_params st (Buffer bytes) true),
         (updateCode_params st (NotBuffer (VObj dry)) false).
  split; [now apply updateFunctionCode_outdated|].
  repeat split. simpl. discriminate.
Qed.

Lemma updateFunctionCode_real_update_payload_witness :
  let w := existing_function_world (sample_snapshot 3 "b2xk")
             (Succeeded [("CodeSha256", VStr "bmV3")]) (Succeeded []) in
  let st := set_lambdaGetInfo (VObj (sample_snapshot 3 "b2xk"))
              sample_loaded in
  exists first second,
    calls_during (updateFunctionCode w) st
    = [UpdateFunctionCode first; UpdateFunctionCode second]
    /\ UpdateFunctionCodeRequest.DryRun first = true
    /\ UpdateFunctionCodeRequest.ZipFile first = Buffer sample_archive
    /\ UpdateFunctionCodeRequest.DryRun second = false
    /\ UpdateFunctionCodeRequest.ZipFile second
       = NotBuffer (VObj [("CodeSha256", VStr "bmV3")])
    /\ UpdateFunctionCodeRequest.ZipFile second
       <> UpdateFunctionCodeRequest.ZipFile first.
Proof.
  intros w st.
  apply (updateFunctionCode_real_update_payload w st sample_archive
           [("CodeSha256", VStr "bmV3")]).
  - split; reflexivity.
  - reflexivity.
  - reflexivity.
  - reflexivity.
Defined.

(** The same run seen from [deploy], with the [updateConfig] option:
    [getFunction], the update of the configuration, the dry run with
    the archive and the real update with the reply of the dry run where
    the archive should be. *)
Example deploy_update_calls :
  let w := existing_function_world (sample_snapshot 3 "b2xk")
             (Succeeded [("CodeSha256", VStr "bmV3")]) (Succeeded []) in
  fst (deploy w updateConfig_option fresh)
  = Resolved (VStr INFO_DEPLOY_COMPLETE)
  /\ map is_config_update (calls_during (deploy w updateConfig_option) fresh)
     = [false; true; false; false]
  /\ map is_dry_run (calls_during (deploy w updateConfig_option) fresh)
     = [false; false; true; false]
  /\ nth 3 (calls_during (deploy w updateConfig_option) fresh) (Require "")
     = UpdateFunctionCode
         (UpdateFunctionCodeRequest.make (VStr "hello") (VBool false)
            (NotBuffer (VObj [("CodeSha256", VStr "bmV3")])) false).
Proof. vm_compute. repeat split. Qed.

(** A deploy without options against a reply that carries the fields
    at its top and the hash of the archive: accepted, one dry run, and
    the code is up to date. *)
Example deploy_up_to_date :
  let w := existing_function_world (flat_snapshot 3 "b2xk")
             (Succeeded [("CodeSha256", VStr "b2xk")]) service_error in
  fst (deploy w None fresh) = Resolved (VStr INFO_DEPLOY_COMPLETE)
  /\ map is_dry_run (calls_during (deploy w None) fresh) = [false; true].
Proof. vm_compute. split; reflexivity. Qed.

(** A deploy without options against a reply of the documented shape,
    equal to the local configuration field by field under
    [Configuration]: rejected all the same, since the fields are read
    at the top of the reply. *)
Example deploy_documented_reply_rejected :
  let w := existing_function_world (sample_snapshot 3 "b2xk")
             (Succeeded [("CodeSha256", VStr "b2xk")]) service_error in
  deploy w None fresh
  = (Rejected (VStr ERR_LAMBDA_CONFIG),
     set_lambdaGetInfo (VObj (sample_snapshot 3 "b2xk"))
       (issue (GetFunction (VStr "hello")) sample_loaded)).
Proof. reflexivity. Qed.

(* ================================================================== *)
(** ** Reading and validating documents *)

(** Without an own property [hasOwnProperty], the chain of calls is the
    test of presence of every name. *)
Lemma hasOwnProperties_presence (ps : list (string * value))
    (names : list string) :
  assoc "hasOwnProperty" ps = None ->
  hasOwnProperties (VObj ps) names
  = Normal (forallb (has_own (VObj ps)) names).
Proof.
  intros A. induction names as [|name names IH]; [reflexivity|].
  simpl. rewrite A. destruct (existsb (String.eqb name) (map fst ps));
    [exact IH|reflexivity].
Qed.

(** The chain only looks at the names of the properties. *)
Lemma hasOwnProperties_names (ps ps' : list (string * value))
    (names : list string) :
  map fst ps' = map fst ps ->
  hasOwnProperties (VObj ps') names = hasOwnProperties (VObj ps) names.
Proof.
  intros E.
  assert (forall k, assoc k ps' = None <-> assoc k ps = None) as N
    by (intros k; now rewrite !assoc_None, E).
  induction names as [|name names IH]; [reflexivity|].
  simpl. rewrite E, IH.
  destruct (assoc "hasOwnProperty" ps) as [v|] eqn:A,
           (assoc "hasOwnProperty" ps') as [v'|] eqn:A'; try reflexivity.
  - apply N in A'. congruence.
  - apply N in A. congruence.
Qed.

Lemma allLambdaTest_presence (items : list value) :
  Forall (fun t => exists ps, t = VObj ps
                              /\ assoc "hasOwnProperty" ps = None
                              /\ forallb (has_own t) LambdaTest_keys = true)
    items ->
  allLambdaTest items = Normal true.
Proof.
  induction 1 as [|t items (ps & -> & A & P) _ IH]; [reflexivity|].
  change (allLambdaTest (VObj ps :: items)) with
    (match hasOwnProperties (VObj ps) LambdaTest_keys with
     | Throw exn => Throw exn
     | Normal false => Normal false
     | Normal true => allLambdaTest items
     end).
  rewrite (hasOwnProperties_presence ps _ A), P. exact IH.
Qed.

Lemma checkObject_config (object : value) :
  checkObject object FILE_LAMBDA_CONFIG =
  match isLambdaConfig object with
  | Throw exn => Throw exn
  | Normal true => Normal ""
  | Normal false => Normal "Invalid lambda config"
  end.
Proof. reflexivity. Qed.

Lemma checkObject_secrets (object : value) :
  checkObject object FILE_LAMBDA_SECRETS =
  match isLambdaSecrets object with
  | Throw exn => Throw exn
  | Normal true => Normal ""
  | Normal false => Normal "Invalid lambda secrets"
  end.
Proof. reflexivity. Qed.

Lemma checkObject_tests (items : list value) :
  checkObject (VArr items) FILE_LAMBDA_TESTS =
  match allLambdaTest items with
  | Throw exn => Throw exn
  | Normal true => Normal ""
  | Normal false => Normal "Invalid lambda tests"
  end.
Proof. reflexivity. Qed.

(** What the validators do with an object that has no own property
    called [hasOwnProperty]: it passes the check of a kind as soon as
    it has the required own properties of that kind, whatever their
    values; a list whose members are such objects with [context] and
    [events] passes the check of the tests.  The verdict on any object
    depends on the names of its properties only.  A Runtime outside the
    two supported ones, a MemorySize and a Timeout that are not numbers
    and a Publish that is not a boolean pass the check of the
    configuration. *)
Lemma validation_checks_presence_only
    (ps ps' : list (string * value)) (items : list value) :
  (assoc "hasOwnProperty" ps = None ->
   forallb (has_own (VObj ps)) LambdaConfig_keys = true ->
   checkObject (VObj ps) FILE_LAMBDA_CONFIG = Normal "")
  /\ (assoc "hasOwnProperty" ps = None ->
      forallb (has_own (VObj ps)) LambdaSecrets_keys = true ->
      checkObject (VObj ps) FILE_LAMBDA_SECRETS = Normal "")
  /\ (Forall (fun t => exists qs, t = VObj qs
                                  /\ assoc "hasOwnProperty" qs = None
                                  /\ forallb (has_own t) LambdaTest_keys = true)
        items ->
      checkObject (VArr items) FILE_LAMBDA_TESTS = Normal "")
  /\ (map fst ps' = map fst ps ->
      checkObject (VObj ps') FILE_LAMBDA_CONFIG
      = checkObject (VObj ps) FILE_LAMBDA_CONFIG
      /\ checkObject (VObj ps') FILE_LAMBDA_SECRETS
         = checkObject (VObj ps) FILE_LAMBDA_SECRETS)
  /\ checkObject
       (VObj [("archiveName", VNum 7); ("FunctionName", VNull);
              ("Description", VArr []); ("Handler", VBool true);
              ("Publish", VStr "yes"); ("Runtime", VStr "python3.9");
              ("MemorySize", VStr "plenty"); ("Timeout", VObj [])])
       FILE_LAMBDA_CONFIG = Normal "".
Proof.
  rewrite !checkObject_config, !checkObject_secrets, checkObject_tests.
  unfold isLambdaConfig, isLambdaSecrets, isObject.
  split; [|split; [|split; [|split]]].
  - intros A P. now rewrite (hasOwnProperties_presence ps _ A), P.
  - intros A P. now rewrite (hasOwnProperties_presence ps _ A), P.
  - intros P. now rewrite (allLambdaTest_presence items P).
  - intros E. now rewrite !(hasOwnProperties_names ps ps' _ E).
  - reflexivity.
Qed.

(** An own property [hasOwnProperty] makes the first call of a chain
    throw. *)
Lemma hasOwnProperties_shadowed (ps : list (string * value)) (v : value)
    (name : string) (names : list string) :
  assoc "hasOwnProperty" ps = Some v ->
  hasOwnProperties (VObj ps) (name :: names)
  = Throw (TypeError "obj.hasOwnProperty is not a function").
Proof. intros A. simpl. now rewrite A. Qed.

(** C10, where the code departs from it.  The validators test the
    presence of the required names by calling [hasOwnProperty] through
    the document itself.  An object with an own property of that name
    is therefore not accepted, whatever else it has, the required
    names of its kind included: the check of the configuration, of the
    secrets and of a list of tests that starts with it throws a
    TypeError, and [readObject], which calls the check inside the
    callback of the read, lets the exception escape and settles
    nothing. *)
Theorem validation_shadowed_hasOwnProperty
    (w : World) (file : string) (st : State)
    (ps : list (string * value)) (v : value) (items : list value) :
  assoc "hasOwnProperty" ps = Some v ->
  fs_readFile_utf8 w file = Parses (VObj ps) ->
  let exn := TypeError "obj.hasOwnProperty is not a function" in
  checkObject (VObj ps) FILE_LAMBDA_CONFIG = Throw exn
  /\ checkObject (VObj ps) FILE_LAMBDA_SECRETS = Throw exn
  /\ checkObject (VArr (VObj ps :: items)) FILE_LAMBDA_TESTS = Throw exn
  /\ readObject w file (Some FILE_LAMBDA_CONFIG) st = (Uncaught exn, st)
  /\ readObject w file (Some FILE_LAMBDA_SECRETS) st = (Uncaught exn, st).
Proof.
  intros A R exn.
  assert (checkObject (VObj ps) FILE_LAMBDA_CONFIG = Throw exn) as C.
  { rewrite checkObject_config. unfold isLambdaConfig, isObject.
    unfold LambdaConfig_keys.
    now rewrite (hasOwnProperties_shadowed ps v _ _ A). }
  assert (checkObject (VObj ps) FILE_LAMBDA_SECRETS = Throw exn) as S.
  { rewrite checkObject_secrets. unfold isLambdaSecrets, isObject.
    unfold LambdaSecrets_keys.
    now rewrite (hasOwnProperties_shadowed ps v _ _ A). }
  repeat split; try assumption.
  - rewrite checkObject_tests.
    change (allLambdaTest (VObj ps :: items)) with
      (match hasOwnProperties (VObj ps) LambdaTest_keys with
       | Throw e => Throw e
       | Normal false => Normal false
       | Normal true => allLambdaTest items
       end).
    unfold LambdaTest_keys.
    now rewrite (hasOwnProperties_shadowed ps v _ _ A).
  - unfold readObject. rewrite R. simpl truthy. cbv iota. now rewrite C.
  - unfold readObject. rewrite R. simpl truthy. cbv iota. now rewrite S.
Qed.

Lemma validation_shadowed_hasOwnProperty_witness :
  let cfg := [("archiveName", VStr "lambda.zip");
              ("FunctionName", VStr "hello");
              ("Description", VStr "");
              ("Handler", VStr "index.handler");
              ("Publish", VBool false);
              ("Runtime", VStr "nodejs6.10");
              ("MemorySize", VNum 128);
              ("Timeout", VNum 3);
              ("hasOwnProperty", VNum 1)] in
  let w := sample_world (Parses (VObj cfg)) None not_found_error
             service_error service_error service_error service_error in
  forallb (has_own (VObj cfg)) LambdaConfig_keys = true
  /\ checkObject (VObj cfg) FILE_LAMBDA_CONFIG
     = Throw (TypeError "obj.hasOwnProperty is not a function")
  /\ readObject w FILE_LAMBDA_CONFIG (Some FILE_LAMBDA_CONFIG) fresh
     = (Uncaught (TypeError "obj.hasOwnProperty is not a function"), fresh).
Proof.
  intros cfg w. split; [reflexivity|].
  destruct (validation_shadowed_hasOwnProperty w FILE_LAMBDA_CONFIG fresh
              cfg (VNum 1) [] eq_refl eq_refl) as (C & _ & _ & R & _).
  split; [exact C|exact R].
Defined.

(** A configuration with one property too many: the check throws, and
    the exception leaves the callback of the read. *)
Example readObject_shadowed_hasOwnProperty :
  let cfg := VObj [("archiveName", VStr "lambda.zip");
                   ("FunctionName", VStr "hello");
                   ("Description", VStr "");
                   ("Handler", VStr "index.handler");
                   ("Publish", VBool false);
                   ("Runtime", VStr "nodejs6.10");
                   ("MemorySize", VNum 128);
                   ("Timeout", VNum 3);
                   ("hasOwnProperty", VNum 1)] in
  let w := sample_world (Parses cfg) None not_found_error service_error
             service_error service_error service_error in
  forallb (has_own cfg) LambdaConfig_keys = true
  /\ checkObject cfg FILE_LAMBDA_CONFIG
     = Throw (TypeError "obj.hasOwnProperty is not a function")
  /\ fst (readObject w FILE_LAMBDA_CONFIG (Some FILE_LAMBDA_CONFIG) fresh)
     = Uncaught (TypeError "obj.hasOwnProperty is not a function").
Proof. repeat split. Qed.

(** Presence of the required names alone is not enough: an object
    with the eight names of a configuration and an own property
    [hasOwnProperty] does not pass; the check throws. *)
Lemma presence_suffices_as_specified_fails : ~ presence_suffices_as_specified.
Proof.
  intros H.
  specialize (H [("archiveName", VStr "lambda.zip");
                 ("FunctionName", VStr "hello");
                 ("Description", VStr "");
                 ("Handler", VStr "index.handler");
                 ("Publish", VBool false);
                 ("Runtime", VStr "nodejs6.10");
                 ("MemorySize", VNum 128);
                 ("Timeout", VNum 3);
                 ("hasOwnProperty", VNum 1)] eq_refl).
  vm_compute in H. discriminate H.
Qed.

(** C9, where the code departs from it.  A file whose text parses to
    null, false, 0 or the empty string leaves the promise of
    [readObject] unsettled: neither [resolve] nor [reject] is called. *)
Theorem readObject_falsy_pending
    (w : World) (file : string) (checkType : option string) (st : State)
    (v : value) :
  fs_readFile_utf8 w file = Parses v ->
  In v [VNull; VBool false; VNum 0; VStr ""] ->
  readObject w file checkType st = (Pending, st).
Proof.
  intros R F. unfold readObject. rewrite R.
  simpl in F. destruct F as [<-|[<-|[<-|[<-|[]]]]]; reflexivity.
Qed.

Lemma readObject_falsy_pending_witness :
  readObject
    (sample_world (Parses VNull) None not_found_error service_error
       service_error service_error service_error)
    FILE_LAMBDA_CONFIG (Some FILE_LAMBDA_CONFIG) fresh
  = (Pending, fresh).
Proof.
  apply (readObject_falsy_pending _ _ _ _ VNull).
  - reflexivity.
  - simpl. tauto.
Defined.

(** Every other content settles the promise, unless the check throws
    inside the callback of the read. *)
Lemma readObject_settles
    (w : World) (file : string) (checkType : option string) (st : State) :
  (forall v, fs_readFile_utf8 w file = Parses v -> truthy v = true) ->
  (exists v, fst (readObject w file checkType st) = Resolved v)
  \/ (exists reason, fst (readObject w file checkType st) = Rejected reason)
  \/ (exists exn, fst (readObject w file checkType st) = Uncaught exn).
Proof.
  intros T. unfold readObject.
  destruct (fs_readFile_utf8 w file) as [| |object];
    [right; left; eexists; reflexivity..|].
  rewrite (T object eq_refl).
  destruct checkType as [type|]; [|left; eexists; reflexivity].
  destruct (truthy (VStr type)); [|left; eexists; reflexivity].
  destruct (checkObject object type) as [result|exn];
    [|right; right; eexists; reflexivity].
  destruct (truthy (VStr result));
    [right; left; eexists; reflexivity|left; eexists; reflexivity].
Qed.

(* ================================================================== *)
(** ** The local test run *)

Lemma readObject_checked
    (w : World) (file type : string) (st : State) (v : value) :
  fs_readFile_utf8 w file = Parses v ->
  truthy v = true -> truthy (VStr type) = true ->
  checkObject v type = Normal "" ->
  readObject w file (Some type) st = (Resolved v, st).
Proof. unfold readObject. now intros -> -> -> ->. Qed.

Lemma isLambdaConfig_truthy (cfg : value) :
  isLambdaConfig cfg = Normal true -> truthy cfg = true.
Proof. unfold isLambdaConfig. destruct cfg; simpl; congruence. Qed.

Lemma isLambdaTests_array (tests : value) :
  isLambdaTests tests = Normal true ->
  exists items, tests = VArr items /\ allLambdaTest items = Normal true.
Proof. destruct tests; simpl; try discriminate. eauto. Qed.

(** When both files load, [test] hands over to [runTests] with the
    configuration and the tests stored. *)
Lemma test_loaded
    (w : World) (testFileName : option string) (st : State)
    (cfg tests : value) :
  fs_readFile_utf8 w FILE_LAMBDA_CONFIG = Parses cfg ->
  isLambdaConfig cfg = Normal true ->
  isNEString (get cfg "FunctionName") = true ->
  isNEString (get cfg "Handler") = true ->
  fs_readFile_utf8 w (testFile testFileName) = Parses tests ->
  isLambdaTests tests = Normal true ->
  test w testFileName st
  = runTests w (set_lambdaTests tests (set_lambdaCfg cfg st)).
Proof.
  intros Rc Vc Nf Nh Rt Vt.
  destruct (isLambdaTests_array tests Vt) as (items & -> & Vi).
  unfold test, Promise_all, and_then. simpl start_all. unfold and_then.
  rewrite (readObject_checked w FILE_LAMBDA_CONFIG FILE_LAMBDA_CONFIG st cfg
             Rc (isLambdaConfig_truthy cfg Vc) eq_refl);
    [|now rewrite checkObject_config, Vc].
  unfold onLambdaConfig at 1. rewrite Vc, Nf, Nh. cbv iota beta.
  simpl andb. cbv iota.
  rewrite (readObject_checked w _ FILE_LAMBDA_TESTS (set_lambdaCfg cfg st)
             (VArr items) Rt eq_refl eq_refl);
    [|now rewrite checkObject_tests, Vi].
  unfold onLambdaTests. rewrite Vt. reflexivity.
Qed.

(** C7.  When the configuration and the tests load, and the Handler
    does not split at its dots into exactly two tokens, [test] is
    rejected with 'Invalid handler' and has issued no call: no module
    was required and no handler invoked.  'indexonlyexport' is such a
    Handler. *)
Theorem test_invalid_handler
    (w : World) (testFileName : option string) (st : State)
    (cfg tests : value) (handlerName : string) :
  fs_readFile_utf8 w FILE_LAMBDA_CONFIG = Parses cfg ->
  isLambdaConfig cfg = Normal true ->
  isNEString (get cfg "FunctionName") = true ->
  get cfg "Handler" = VStr handlerName ->
  isNEString (VStr handlerName) = true ->
  fs_readFile_utf8 w (testFile testFileName) = Parses tests ->
  isLambdaTests tests = Normal true ->
  length (split_dot handlerName) <> 2 ->
  fst (test w testFileName st) = Rejected (VStr "Invalid handler")
  /\ calls_during (test w testFileName) st = []
  /\ count is_require (calls_during (test w testFileName) st) = 0
  /\ count is_invoke (calls_during (test w testFileName) st) = 0
  /\ length (split_dot "indexonlyexport") <> 2.
Proof.
  intros Rc Vc Nf H Nh Rt Vt L.
  assert (test w testFileName st
          = (Rejected (VStr "Invalid handler"),
             set_lambdaTests tests (set_lambdaCfg cfg st))) as E.
  { rewrite (test_loaded w testFileName st cfg tests) by
      (try assumption; now rewrite H).
    unfold runTests. simpl lambdaCfg. rewrite H.
    apply Nat.eqb_neq in L. now rewrite L. }
  assert (calls_during (test w testFileName) st = []) as C.
  { apply calls_during_app. rewrite E. simpl. now rewrite app_nil_r. }
  rewrite C, E. repeat split. simpl. discriminate.
Qed.

Lemma test_invalid_handler_witness :
  let cfg :=
    VObj [("archiveName", VStr "lambda.zip"); ("FunctionName", VStr "hello");
          ("Description", VStr ""); ("Handler", VStr "indexonlyexport");
          ("Publish", VBool false); ("Runtime", VStr "nodejs6.10");
          ("MemorySize", VNum 128); ("Timeout", VNum 3)] in
  let w := sample_world (Parses cfg) None service_error service_error
             service_error service_error service_error in
  fst (test w None fresh) = Rejected (VStr "Invalid handler")
  /\ calls_during (test w None) fresh = []
  /\ count is_require (calls_during (test w None) fresh) = 0
  /\ count is_invoke (calls_during (test w None) fresh) = 0
  /\ length (split_dot "indexonlyexport") <> 2.
Proof.
  intros cfg w.
  apply (test_invalid_handler w None fresh cfg sample_tests "indexonlyexport");
    try reflexivity.
  simpl. discriminate.
Defined.

(** With a Handler of two tokens the module is required and the handler
    invoked once per event. *)
Example test_sample_run :
  let w := sample_world (Parses sample_config) None service_error
             service_error service_error service_error service_error in
  test w None fresh
  = (Resolved (VArr [VArr [VObj []]]),
     issue (Invoke (VObj []) (VObj []))
       (issue (Require "index.js")
          (set_lambdaTests sample_tests (set_lambdaCfg sample_config fresh)))).
Proof. reflexivity. Qed.

(* ################################################################## *)
(** * Part III: further properties of the code *)

(* ================================================================== *)
(** ** The helpers and the environment rule *)

Lemma map_fst_combine {A B : Type} (l1 : list A) (l2 : list B) :
  length l1 = length l2 -> map fst (combine l1 l2) = l1.
Proof.
  revert l2. induction l1 as [|a l1 IH]; intros [|b l2]; simpl;
    try discriminate; [reflexivity|].
  intros E. injection E as E. now rewrite IH.
Qed.

Lemma indexed_names (items : list value) :
  map fst (indexed items) = map index_name (seq 0 (length items)).
Proof.
  unfold indexed. apply map_fst_combine. now rewrite length_map, length_seq.
Qed.

(** X1.  [isEmpty] holds of exactly four values: undefined, null, the
    object without properties and the array without elements; 0, false
    and the empty string are not empty. *)
Theorem isEmpty_values (v : value) :
  isEmpty v = true
  <-> v = VUndefined \/ v = VNull \/ v = VObj [] \/ v = VArr [].
Proof.
  split.
  - destruct v as [| | | | |items|ps]; simpl; try discriminate; auto.
    + rewrite indexed_names, length_map, length_seq.
      destruct items; simpl; [auto|discriminate].
    + destruct ps; simpl; [auto|discriminate].
  - intros [-> | [-> | [-> | ->]]]; reflexivity.
Qed.

(** X2.  On the environments the signature admits the check is
    transitive; with its symmetry and reflexivity it is an equivalence. *)
Theorem compareEnvironment_transitive (env1 env2 env3 : value) :
  is_environment env1 = true -> is_environment env2 = true ->
  is_environment env3 = true ->
  compareEnvironment env1 env2 = true ->
  compareEnvironment env2 env3 = true ->
  compareEnvironment env1 env3 = true.
Proof.
  intros T1 T2 T3 H12 H23.
  apply compareEnvironment_same_variables in H12; [|assumption..].
  apply compareEnvironment_same_variables in H23; [|assumption..].
  apply compareEnvironment_same_variables; [assumption..|].
  eapply same_variables_trans; eassumption.
Qed.

Lemma compareEnvironment_transitive_witness :
  compareEnvironment (env_of [("X", "1"); ("Y", "2")])
    (VObj [("Variables", VObj [("Y", VStr "2"); ("X", VStr "1")]);
           ("Error", VObj [])]) = true.
Proof.
  apply (compareEnvironment_transitive _ (env_of [("Y", "2"); ("X", "1")]));
    reflexivity.
Defined.

(** X3.  The check looks at the variables only: two admitted
    environments with the same list of variables (an absent, null or
    empty [Variables] counting as none, whatever else the object
    carries) compare alike with every admitted environment, on either
    side. *)
Theorem compareEnvironment_variables_only (env1 env1' env2 : value) :
  is_environment env1 = true -> is_environment env1' = true ->
  is_environment env2 = true ->
  variables_of env1 = variables_of env1' ->
  compareEnvironment env1 env2 = compareEnvironment env1' env2
  /\ compareEnvironment env2 env1 = compareEnvironment env2 env1'.
Proof.
  intros T1 T1' T2 E. split; apply bool_eq_iff;
    rewrite !compareEnvironment_same_variables by assumption;
    now rewrite E.
Qed.

Lemma compareEnvironment_variables_only_witness :
  compareEnvironment VNull (env_of [("X", "1")])
  = compareEnvironment (VObj [("Error", VObj [("Message", VStr "denied")])])
      (env_of [("X", "1")])
  /\ compareEnvironment (env_of [("X", "1")]) VNull
     = compareEnvironment (env_of [("X", "1")])
         (VObj [("Error", VObj [("Message", VStr "denied")])]).
Proof.
  apply (compareEnvironment_variables_only VNull
           (VObj [("Error", VObj [("Message", VStr "denied")])])
           (env_of [("X", "1")])); reflexivity.
Defined.

(* ================================================================== *)
(** ** The validators, exactly *)

Lemma index_name_digit (i : nat) :
  index_name i = "" \/ starts_with_digit (index_name i) = true.
Proof.
  unfold index_name. destruct (Nat.to_uint i); simpl; auto.
Qed.

(** A name that does not start with a digit is the index of no
    element. *)
Lemma not_an_index (name : string) (items : list value) :
  name <> "" -> starts_with_digit name = false ->
  existsb (String.eqb name) (map fst (indexed items)) = false.
Proof.
  intros N D. rewrite indexed_names.
  destruct (existsb _ _) eqn:E; [|reflexivity].
  apply existsb_exists in E. destruct E as (k & HIn & Hk).
  apply String.eqb_eq in Hk. subst k.
  apply in_map_iff in HIn. destruct HIn as (i & Hi & _).
  destruct (index_name_digit i) as [Z|Z]; rewrite Hi in Z; congruence.
Qed.

Lemma hasOwnProperties_array (items : list value) (name : string)
    (names : list string) :
  name <> "" -> name <> "length" -> starts_with_digit name = false ->
  hasOwnProperties (VArr items) (name :: names) = Normal false.
Proof.
  intros N L D. simpl. rewrite (not_an_index name items N D).
  apply String.eqb_neq in L. now rewrite L.
Qed.

Lemma forallb_has_own (ps : list (string * value)) (names : list string) :
  forallb (has_own (VObj ps)) names = true <-> incl names (map fst ps).
Proof.
  rewrite forallb_forall. unfold incl, has_own. split; intros H k HIn.
  - specialize (H k HIn). apply existsb_exists in H.
    destruct H as (k' & HIn' & E). apply String.eqb_eq in E. now subst.
  - apply existsb_exists. exists k. split; [now apply H|apply String.eqb_refl].
Qed.

(** X4.  For an object without an own property [hasOwnProperty], the
    check of a configuration accepts exactly the objects that have the
    eight required names and rejects every other with
    'Invalid lambda config'; likewise the check of the secrets with its
    six names and 'Invalid lambda secrets'.  One missing name is
    enough to be rejected. *)
Theorem checkObject_required_names (ps : list (string * value)) :
  assoc "hasOwnProperty" ps = None ->
  (checkObject (VObj ps) FILE_LAMBDA_CONFIG = Normal ""
   <-> incl LambdaConfig_keys (map fst ps))
  /\ (~ incl LambdaConfig_keys (map fst ps) ->
      checkObject (VObj ps) FILE_LAMBDA_CONFIG = Normal "Invalid lambda config")
  /\ (checkObject (VObj ps) FILE_LAMBDA_SECRETS = Normal ""
      <-> incl LambdaSecrets_keys (map fst ps))
  /\ (~ incl LambdaSecrets_keys (map fst ps) ->
      checkObject (VObj ps) FILE_LAMBDA_SECRETS
      = Normal "Invalid lambda secrets").
Proof.
  intros A.
  rewrite checkObject_config, checkObject_secrets.
  unfold isLambdaConfig, isLambdaSecrets, isObject.
  rewrite !(hasOwnProperties_presence ps _ A), <- !forallb_has_own.
  destruct (forallb (has_own (VObj ps)) LambdaConfig_keys),
           (forallb (has_own (VObj ps)) LambdaSecrets_keys);
    repeat split; intros; try reflexivity; try discriminate; congruence.
Qed.

Lemma checkObject_required_names_witness :
  checkObject
    (VObj [("archiveName", VStr "lambda.zip"); ("FunctionName", VStr "hello");
           ("Description", VStr ""); ("Handler", VStr "index.handler");
           ("Publish", VBool false); ("Runtime", VStr "nodejs6.10");
           ("MemorySize", VNum 128)])
    FILE_LAMBDA_CONFIG = Normal "Invalid lambda config".
Proof.
  refine (proj1 (proj2 (checkObject_required_names
                          [("archiveName", VStr "lambda.zip");
                           ("FunctionName", VStr "hello");
                           ("Description", VStr "");
                           ("Handler", VStr "index.handler");
                           ("Publish", VBool false);
                           ("Runtime", VStr "nodejs6.10");
                           ("MemorySize", VNum 128)] eq_refl)) _).
  intros H. assert (In "Timeout" LambdaConfig_keys) as K by (simpl; tauto).
  apply H in K. simpl in K. intuition discriminate.
Defined.

(** X5.  A document that is not a plain object (null, a boolean, a
    number, a string or an array) is rejected by the check of the
    configuration and by the check of the secrets with their messages,
    and is no test case; no exception is thrown.  Arrays are objects for
    [typeof], but own none of the required names. *)
Theorem checkObject_not_an_object (v : value) :
  (forall ps, v <> VObj ps) ->
  checkObject v FILE_LAMBDA_CONFIG = Normal "Invalid lambda config"
  /\ checkObject v FILE_LAMBDA_SECRETS = Normal "Invalid lambda secrets"
  /\ isLambdaTest v = Normal false.
Proof.
  intros N. rewrite checkObject_config, checkObject_secrets.
  unfold isLambdaConfig, isLambdaSecrets, isLambdaTest,
    LambdaConfig_keys, LambdaSecrets_keys, LambdaTest_keys.
  destruct v as [| | | | |items|ps]; try (repeat split; reflexivity).
  - simpl isObject. cbv iota.
    rewrite !hasOwnProperties_array by (reflexivity || discriminate).
    repeat split.
  - exfalso. now apply (N ps).
Qed.

Lemma checkObject_not_an_object_witness :
  checkObject (VArr [VStr "archiveName"; VStr "FunctionName"])
    FILE_LAMBDA_CONFIG = Normal "Invalid lambda config"
  /\ checkObject (VArr [VStr "archiveName"; VStr "FunctionName"])
       FILE_LAMBDA_SECRETS = Normal "Invalid lambda secrets"
  /\ isLambdaTest (VArr [VStr "archiveName"; VStr "FunctionName"])
     = Normal false.
Proof.
  apply checkObject_not_an_object. intros ps. discriminate.
Defined.

Lemma allLambdaTest_Forall (items : list value) :
  allLambdaTest items = Normal true
  <-> Forall (fun t => isLambdaTest t = Normal true) items.
Proof.
  induction items as [|t items IH]; simpl.
  - split; [constructor|reflexivity].
  - destruct (isLambdaTest t) as [[|]|exn] eqn:E.
    + rewrite IH. split; [now constructor|]. intros H. now inversion H.
    + split; [discriminate|]. intros H. inversion H. congruence.
    + split; [discriminate|]. intros H. inversion H. congruence.
Qed.

(** X6.  The check of the tests accepts exactly the arrays whose
    members all are test cases (objects with [context] and [events]);
    the empty array is accepted, and whatever is not an array is
    rejected with 'Invalid lambda tests'.  [isLambdaTests], the guard
    of [test], accepts the same documents. *)
Theorem checkObject_tests_members (obj : value) :
  (checkObject obj FILE_LAMBDA_TESTS = Normal ""
   <-> exists items, obj = VArr items
                     /\ Forall (fun t => isLambdaTest t = Normal true) items)
  /\ (checkObject obj FILE_LAMBDA_TESTS = Normal ""
      <-> isLambdaTests obj = Normal true)
  /\ checkObject (VArr []) FILE_LAMBDA_TESTS = Normal ""
  /\ ((forall items, obj <> VArr items) ->
      checkObject obj FILE_LAMBDA_TESTS = Normal "Invalid lambda tests").
Proof.
  assert (forall items,
             checkObject (VArr items) FILE_LAMBDA_TESTS = Normal ""
             <-> allLambdaTest items = Normal true) as A.
  { intros items. rewrite checkObject_tests.
    destruct (allLambdaTest items) as [[|]|exn];
      split; intros; try reflexivity; discriminate. }
  split; [|split; [|split]].
  - split.
    + destruct obj as [| | | | |items|ps]; try discriminate.
      intros H. exists items. split; [reflexivity|].
      now apply allLambdaTest_Forall, A.
    + intros (items & -> & F). now apply A, allLambdaTest_Forall.
  - destruct obj as [| | | | |items|ps];
      try (split; discriminate). apply A.
  - reflexivity.
  - intros N. destruct obj as [| | | | |items|ps]; try reflexivity.
    exfalso. now apply (N items).
Qed.

(* ================================================================== *)
(** ** What [readObject] hands over *)

Lemma checkObject_messages (v : value) (type result : string) :
  checkObject v type = Normal result ->
  result = ""
  \/ In (VStr result)
       [VStr "Invalid lambda config"; VStr "Invalid lambda secrets";
        VStr "Invalid lambda tests"; VStr ("Invalid check type " ++ type)].
Proof.
  unfold checkObject.
  destruct (String.eqb type FILE_LAMBDA_CONFIG).
  { destruct (isLambdaConfig v) as [[|]|]; intros E; inversion E; simpl; auto. }
  destruct (String.eqb type FILE_LAMBDA_SECRETS).
  { destruct (isLambdaSecrets v) as [[|]|]; intros E; inversion E; simpl; auto. }
  destruct (String.eqb type FILE_LAMBDA_TESTS).
  { destruct v as [| | | | |items|ps]; try (intros E; inversion E; simpl; now auto).
    destruct (allLambdaTest items) as [[|]|]; intros E; inversion E; simpl; auto. }
  intros E. inversion E. simpl. auto 6.
Qed.

Lemma readObject_resolved_inv
    (w : World) (file type : string) (st st' : State) (v : value) :
  type <> "" ->
  readObject w file (Some type) st = (Resolved v, st') ->
  st' = st
  /\ fs_readFile_utf8 w file = Parses v
  /\ truthy v = true
  /\ checkObject v type = Normal "".
Proof.
  intros N. unfold readObject.
  destruct (fs_readFile_utf8 w file) as [| |object]; try discriminate.
  destruct (truthy object) eqn:T; [|discriminate].
  assert (truthy (VStr type) = true) as TT.
  { simpl. apply negb_true_iff, String.eqb_neq. exact N. }
  rewrite TT.
  destruct (checkObject object type) as [[|c result]|exn] eqn:C;
    simpl; try discriminate.
  intros E. inversion E. subst. repeat split; assumption.
Qed.

(** X7.  A document that [readObject] resolves with, given a check
    type, is the parsed content of the file, is truthy and passes the
    check of that type; the state is left as it was. *)
Theorem readObject_resolved_checked
    (w : World) (file type : string) (st st' : State) (v : value) :
  type <> "" ->
  readObject w file (Some type) st = (Resolved v, st') ->
  st' = st
  /\ fs_readFile_utf8 w file = Parses v
  /\ truthy v = true
  /\ checkObject v type = Normal "".
Proof. apply readObject_resolved_inv. Qed.

Lemma readObject_resolved_checked_witness :
  let w := sample_world (Parses sample_config) None not_found_error
             service_error service_error service_error service_error in
  fresh = fresh
  /\ fs_readFile_utf8 w FILE_LAMBDA_SECRETS = Parses sample_secrets
  /\ truthy sample_secrets = true
  /\ checkObject sample_secrets FILE_LAMBDA_SECRETS = Normal "".
Proof.
  intros w.
  apply (readObject_resolved_checked w FILE_LAMBDA_SECRETS
           FILE_LAMBDA_SECRETS fresh fresh sample_secrets).
  - discriminate.
  - reflexivity.
Defined.

(** X8.  [readObject] rejects with one of six strings only: the file
    cannot be read, its text is not JSON, the three messages of the
    checks, or the check type is unknown; the state is left as it
    was. *)
Theorem readObject_rejections
    (w : World) (file type : string) (st st' : State) (reason : value) :
  readObject w file (Some type) st = (Rejected reason, st') ->
  In reason (readObject_messages file type) /\ st' = st.
Proof.
  unfold readObject, readObject_messages.
  destruct (fs_readFile_utf8 w file) as [| |object].
  - intros E. inversion E. simpl. auto.
  - intros E. inversion E. simpl. auto.
  - destruct (truthy object); [|discriminate].
    destruct (truthy (VStr type)); [|discriminate].
    destruct (checkObject object type) as [result|exn] eqn:C; [|discriminate].
    destruct (truthy (VStr result)) eqn:T; [|discriminate].
    intros E. inversion E. subst. split; [|reflexivity].
    destruct (checkObject_messages _ _ _ C) as [->|H]; [discriminate T|].
    simpl in *. tauto.
Qed.

Lemma readObject_rejections_witness :
  let w := sample_world (Parses (VObj [("FunctionName", VStr "hello")])) None
             not_found_error service_error service_error service_error
             service_error in
  In (VStr "Invalid lambda config")
    (readObject_messages FILE_LAMBDA_CONFIG FILE_LAMBDA_CONFIG)
  /\ fresh = fresh.
Proof.
  intros w.
  apply (readObject_rejections w FILE_LAMBDA_CONFIG FILE_LAMBDA_CONFIG
           fresh fresh).
  reflexivity.
Defined.

(* ================================================================== *)
(** ** [Promise.all] and [then] *)

Lemma and_then_resolved {A B : Type} (p : Task A) (f : A -> Task B)
    (st st2 : State) (b : B) :
  (p >>= f) st = (Resolved b, st2) ->
  exists a st1, p st = (Resolved a, st1) /\ f a st1 = (Resolved b, st2).
Proof.
  unfold and_then. destruct (p st) as [[a|r| |e|] st1]; try discriminate.
  eauto.
Qed.

(** A task that is not fulfilled stops the chain where it is. *)
Lemma and_then_stops {A B : Type} (p : Task A) (f : A -> Task B) (st : State) :
  (forall a, fst (p st) <> Resolved a) ->
  snd ((p >>= f) st) = snd (p st)
  /\ forall b, fst ((p >>= f) st) <> Resolved b.
Proof.
  unfold and_then. intros N.
  destruct (p st) as [[a|r| |e|] st1]; simpl in *;
    try (split; [reflexivity|discriminate]).
  exfalso. now apply (N a).
Qed.

Lemma first_abnormal_Some (os : list (outcome value)) (o : outcome value) :
  first_abnormal os = Some o -> (exists e, o = Uncaught e) \/ o = Unmodelled.
Proof.
  induction os as [|[a|r| |e|] os IH]; simpl; intros H;
    try discriminate; try (now apply IH); inversion H; eauto.
Qed.

Lemma all_resolved (os : list (outcome value)) :
  first_abnormal os = None -> rejections os = [] ->
  existsb is_pending os = false ->
  Forall (fun o => exists a, o = Resolved a) os.
Proof.
  induction os as [|[a|r| |e|] os IH]; simpl; intros F R P;
    try discriminate.
  - constructor.
  - constructor; [eauto|apply IH; assumption].
Qed.

(** [Promise.all] is fulfilled only when every member is, with the
    array of their results. *)
Lemma settle_all_resolved (first : nat) (os : list (outcome value)) (v : value) :
  settle_all first os = Resolved v ->
  Forall (fun o => exists a, o = Resolved a) os /\ v = VArr (fulfilments os).
Proof.
  unfold settle_all.
  destruct (first_abnormal os) as [o|] eqn:F.
  { intros ->. apply first_abnormal_Some in F.
    destruct F as [[e F]|F]; discriminate F. }
  destruct (rejections os) as [|r rs] eqn:R; [|discriminate].
  destruct (existsb is_pending os) eqn:P; [discriminate|].
  intros E. inversion E. split; [|reflexivity].
  now apply all_resolved.
Qed.

(** The reason [Promise.all] is rejected with is the reason of a
    member. *)
Lemma settle_all_rejected (first : nat) (os : list (outcome value)) (r : value) :
  settle_all first os = Rejected r -> In (Rejected r) os.
Proof.
  unfold settle_all.
  destruct (first_abnormal os) as [o|] eqn:F.
  { intros ->. apply first_abnormal_Some in F.
    destruct F as [[e F]|F]; discriminate F. }
  destruct (rejections os) as [|r0 rs] eqn:R.
  { destruct (existsb is_pending os); discriminate. }
  intros E.
  assert (r = nth (first mod length (r0 :: rs)) (r0 :: rs) r0) as ->
    by congruence.
  assert (In (nth (first mod length (r0 :: rs)) (r0 :: rs) r0)
            (rejections os)) as HIn.
  { rewrite R. apply nth_In. apply Nat.mod_upper_bound. discriminate. }
  unfold rejections in HIn. apply in_flat_map in HIn.
  destruct HIn as ([a|r'| |e|] & HIn & Hr); simpl in Hr; try tauto.
  destruct Hr as [->|[]]. exact HIn.
Qed.

(* ================================================================== *)
(** ** What a loaded configuration looks like *)

Lemma onLambdaConfig_resolved (cfg v : value) (st st' : State) :
  onLambdaConfig cfg st = (Resolved v, st') ->
  v = cfg /\ st' = set_lambdaCfg cfg st
  /\ isLambdaConfig cfg = Normal true
  /\ isNEString (get cfg "FunctionName") = true
  /\ isNEString (get cfg "Handler") = true.
Proof.
  unfold onLambdaConfig.
  destruct (isLambdaConfig cfg) as [[|]|exn]; simpl; try discriminate.
  destruct (isNEString (get cfg "FunctionName")); simpl; [|discriminate].
  destruct (isNEString (get cfg "Handler")); simpl; [|discriminate].
  intros E. inversion E. auto.
Qed.

Lemma onLambdaSecrets_resolved (cfg v : value) (st st' : State) :
  onLambdaSecrets cfg st = (Resolved v, st') ->
  v = cfg /\ st' = set_lambdaSecrets cfg st
  /\ isLambdaSecrets cfg = Normal true
  /\ isNEString (get cfg "region") = true
  /\ isNEString (get cfg "Role") = true.
Proof.
  unfold onLambdaSecrets.
  destruct (isLambdaSecrets cfg) as [[|]|exn]; simpl; try discriminate.
  destruct (isNEString (get cfg "region")); simpl; [|discriminate].
  destruct (isNEString (get cfg "Role")); simpl; [|discriminate].
  intros E. inversion E. auto.
Qed.

(** When [readConfig] is fulfilled, both documents were read, checked
    and stored. *)
Lemma readConfig_resolved (w : World) (st st1 : State) (v : value) :
  readConfig w st = (Resolved v, st1) ->
  exists cfg secrets,
    st1 = set_lambdaSecrets secrets (set_lambdaCfg cfg st)
    /\ fs_readFile_utf8 w FILE_LAMBDA_CONFIG = Parses cfg
    /\ isLambdaConfig cfg = Normal true
    /\ isNEString (get cfg "FunctionName") = true
    /\ isNEString (get cfg "Handler") = true
    /\ fs_readFile_utf8 w FILE_LAMBDA_SECRETS = Parses secrets
    /\ isLambdaSecrets secrets = Normal true
    /\ isNEString (get secrets "region") = true
    /\ isNEString (get secrets "Role") = true.
Proof.
  unfold readConfig, Promise_all. simpl start_all.
  destruct ((readObject w FILE_LAMBDA_CONFIG (Some FILE_LAMBDA_CONFIG)
             >>= onLambdaConfig) st) as [o1 s1] eqn:E1.
  destruct ((readObject w FILE_LAMBDA_SECRETS (Some FILE_LAMBDA_SECRETS)
             >>= onLambdaSecrets) s1) as [o2 s2] eqn:E2.
  intros E. inversion E as [[S Est]]. subst s2.
  apply settle_all_resolved in S. destruct S as [F _].
  inversion F as [|? ? [a1 ->] F']; subst.
  inversion F' as [|? ? [a2 ->] _]; subst.
  apply and_then_resolved in E1. destruct E1 as (c1 & t1 & R1 & C1).
  apply and_then_resolved in E2. destruct E2 as (c2 & t2 & R2 & C2).
  apply readObject_resolved_inv in R1; [|discriminate].
  apply readObject_resolved_inv in R2; [|discriminate].
  destruct R1 as (-> & P1 & _ & _). destruct R2 as (-> & P2 & _ & _).
  apply onLambdaConfig_resolved in C1. destruct C1 as (-> & -> & V1 & N1 & N1').
  apply onLambdaSecrets_resolved in C2. destruct C2 as (-> & -> & V2 & N2 & N2').
  exists c1, c2. repeat split; assumption.
Qed.

(** X9.  When [createLambdaService] is fulfilled, the stored
    configuration is the content of lambda-config.json, has the eight
    required names and a FunctionName and a Handler that are non-empty
    strings; the stored secrets are the content of lambda-secrets.json,
    have the six required names and a region and a Role that are
    non-empty strings; no call was issued. *)
Theorem createLambdaService_loaded
    (w : World) (st st1 : State) (c : ClientConfiguration) :
  createLambdaService w st = (Resolved c, st1) ->
  fs_readFile_utf8 w FILE_LAMBDA_CONFIG = Parses (lambdaCfg st1)
  /\ isLambdaConfig (lambdaCfg st1) = Normal true
  /\ isNEString (get (lambdaCfg st1) "FunctionName") = true
  /\ isNEString (get (lambdaCfg st1) "Handler") = true
  /\ fs_readFile_utf8 w FILE_LAMBDA_SECRETS = Parses (lambdaSecrets st1)
  /\ isLambdaSecrets (lambdaSecrets st1) = Normal true
  /\ isNEString (get (lambdaSecrets st1) "region") = true
  /\ isNEString (get (lambdaSecrets st1) "Role") = true
  /\ lambda st1 = Some c
  /\ issued st1 = issued st.
Proof.
  unfold createLambdaService. intros E.
  apply and_then_resolved in E. destruct E as (v & s & R & E).
  apply readConfig_resolved in R.
  destruct R as (cfg & secrets & -> & R).
  inversion E. subst. simpl. tauto.
Qed.

Lemma createLambdaService_loaded_witness :
  let w := missing_function_world None (Succeeded []) in
  fs_readFile_utf8 w FILE_LAMBDA_CONFIG = Parses (lambdaCfg sample_loaded)
  /\ isLambdaConfig (lambdaCfg sample_loaded) = Normal true
  /\ isNEString (get (lambdaCfg sample_loaded) "FunctionName") = true
  /\ isNEString (get (lambdaCfg sample_loaded) "Handler") = true
  /\ fs_readFile_utf8 w FILE_LAMBDA_SECRETS = Parses (lambdaSecrets sample_loaded)
  /\ isLambdaSecrets (lambdaSecrets sample_loaded) = Normal true
  /\ isNEString (get (lambdaSecrets sample_loaded) "region") = true
  /\ isNEString (get (lambdaSecrets sample_loaded) "Role") = true
  /\ lambda sample_loaded = Some sample_client
  /\ issued sample_loaded = issued fresh.
Proof.
  intros w.
  apply (createLambdaService_loaded w fresh sample_loaded sample_client).
  reflexivity.
Defined.

(** X10.  The client that [createLambdaService] builds targets API
    version 2015-03-31 and the region of the secrets; a non-empty
    profile wins over the key pair; the key pair is used only when both
    keys are non-empty strings, and never by halves. *)
Theorem createLambdaService_credentials
    (w : World) (st st1 : State) (c : ClientConfiguration) :
  createLambdaService w st = (Resolved c, st1) ->
  let secrets := lambdaSecrets st1 in
  apiVersion c = "2015-03-31"
  /\ region c = get secrets "region"
  /\ (isNEString (get secrets "profile") = true ->
      credentials_profile c = Some (get secrets "profile")
      /\ accessKeyId c = None /\ secretAccessKey c = None)
  /\ (isNEString (get secrets "profile") = false ->
      credentials_profile c = None
      /\ (isNEString (get secrets "accessKeyId") = true ->
          isNEString (get secrets "secretAccessKey") = true ->
          accessKeyId c = Some (get secrets "accessKeyId")
          /\ secretAccessKey c = Some (get secrets "secretAccessKey"))
      /\ (isNEString (get secrets "accessKeyId")
          && isNEString (get secrets "secretAccessKey") = false ->
          accessKeyId c = None /\ secretAccessKey c = None))
  /\ (accessKeyId c = None <-> secretAccessKey c = None).
Proof.
  unfold createLambdaService. intros E.
  apply and_then_resolved in E. destruct E as (v & s & _ & E).
  inversion E as [[Ec Est]]. clear E. simpl.
  destruct (isNEString (get (lambdaSecrets s) "profile")) eqn:P;
    [|destruct (isNEString (get (lambdaSecrets s) "accessKeyId")) eqn:K1,
               (isNEString (get (lambdaSecrets s) "secretAccessKey")) eqn:K2];
    simpl; repeat split; intros; try reflexivity; try discriminate;
    try congruence.
Qed.

Lemma createLambdaService_credentials_witness :
  credentials_profile sample_client = Some (VStr "default")
  /\ accessKeyId sample_client = None
  /\ secretAccessKey sample_client = None.
Proof.
  destruct (createLambdaService_credentials
              (missing_function_world None (Succeeded []))
              fresh sample_loaded sample_client eq_refl)
    as (_ & _ & H & _).
  apply H. reflexivity.
Defined.

(* ================================================================== *)
(** ** The update of the code, case by case *)

Lemma updateFunctionCode_unreadable (w : World) (st : State) (reason : value) :
  readArchive w st = (Rejected reason, st) ->
  updateFunctionCode w st = (Rejected reason, st).
Proof. unfold updateFunctionCode, and_then. now intros ->. Qed.

Lemma updateFunctionCode_readable (w : World) (st : State)
    (bytes : list Byte.byte) :
  readArchive w st = (Resolved bytes, st) ->
  updateFunctionCode w st =
  let dry_run := updateCode_params st (Buffer bytes) true in
  let st1 := issue (UpdateFunctionCode dry_run) st in
  match lambda_updateFunctionCode w dry_run with
  | Failed err => (Rejected (VObj err), st1)
  | Succeeded dry =>
      if truthy (lambdaGetInfo st)
         && truthy (get (lambdaGetInfo st) "Configuration")
      then
        if negb (strict_eq (get (VObj dry) "CodeSha256")
                   (get (get (lambdaGetInfo st) "Configuration")
                      "CodeSha256"))
        then updateCode w (updateCode_params st (NotBuffer (VObj dry)) false)
               st1
        else (Resolved (VStr INFO_FUNCTION_CODE_UO_TO_DATE), st1)
      else (Rejected (VStr "Invalid Lambda function information"), st1)
  end.
Proof.
  intros R. unfold updateFunctionCode, and_then. rewrite R.
  unfold updateCode at 1. cbv zeta.
  destruct (lambda_updateFunctionCode w _); reflexivity.
Qed.

Lemma updateCode_log (w : World) (p : UpdateFunctionCodeRequest.t) (st : State) :
  issued (snd (updateCode w p st)) = (issued st ++ [UpdateFunctionCode p])%list.
Proof.
  unfold updateCode. destruct (lambda_updateFunctionCode w p); reflexivity.
Qed.

(** The calls of [updateFunctionCode], whatever happens. *)
Lemma updateFunctionCode_log (w : World) (st : State) :
  exists cs,
    issued (snd (updateFunctionCode w st)) = (issued st ++ cs)%list
    /\ code_update_calls cs = true
    /\ (count is_real_update cs <> 0 ->
        exists bytes dry,
          archive_readable w st bytes
          /\ lambda_updateFunctionCode w
               (updateCode_params st (Buffer bytes) true) = Succeeded dry
          /\ truthy (lambdaGetInfo st)
             && truthy (get (lambdaGetInfo st) "Configuration") = true
          /\ strict_eq (get (VObj dry) "CodeSha256")
               (get (get (lambdaGetInfo st) "Configuration") "CodeSha256")
             = false).
Proof.
  destruct (readArchive_cases w st) as [(bytes & A & R)|(_ & reason & R)].
  - rewrite (updateFunctionCode_readable w st bytes R). cbv zeta.
    destruct (lambda_updateFunctionCode w _) as [err|dry] eqn:D.
    { eexists [_]. simpl. repeat split. intros N. now elim N. }
    destruct (truthy (lambdaGetInfo st)
              && truthy (get (lambdaGetInfo st) "Configuration")) eqn:S.
    2:{ eexists [_]. simpl. repeat split. intros N. now elim N. }
    destruct (strict_eq _ _) eqn:H; simpl negb; cbv iota.
    + eexists [_]. simpl. repeat split. intros N. now elim N.
    + eexists [_; _]. rewrite updateCode_log. simpl.
      rewrite <- app_assoc. simpl. repeat split.
      intros _. exists bytes, dry. auto.
  - rewrite (updateFunctionCode_unreadable w st reason R).
    exists []. simpl. rewrite app_nil_r. repeat split. intros N. now elim N.
Qed.

(** X11.  Whatever the world does, [updateFunctionCode] issues no
    call, or the dry run alone, or the dry run followed by one real
    update; and a real update is issued only after the archive was
    read, the dry run succeeded, the stored reply of [getFunction] has
    a [Configuration], and the two hashes differ. *)
Theorem updateFunctionCode_calls (w : World) (st : State) :
  code_update_calls (calls_during (updateFunctionCode w) st) = true
  /\ (count is_real_update (calls_during (updateFunctionCode w) st) <> 0 ->
      exists bytes dry,
        archive_readable w st bytes
        /\ lambda_updateFunctionCode w
             (updateCode_params st (Buffer bytes) true) = Succeeded dry
        /\ truthy (lambdaGetInfo st)
           && truthy (get (lambdaGetInfo st) "Configuration") = true
        /\ strict_eq (get (VObj dry) "CodeSha256")
             (get (get (lambdaGetInfo st) "Configuration") "CodeSha256")
           = false).
Proof.
  destruct (updateFunctionCode_log w st) as (cs & L & S & R).
  rewrite (calls_during_app _ _ cs L). auto.
Qed.

(** X12.  With an archive that can be read, a dry run that succeeds and
    a stored [Configuration] whose hash equals the hash of the dry run,
    [updateFunctionCode] is fulfilled with 'Function code up-to-date'
    and the dry run is its only call. *)
Theorem updateFunctionCode_equal_hashes
    (w : World) (st : State) (bytes : list Byte.byte)
    (dry : list (string * value)) :
  archive_readable w st bytes ->
  lambda_updateFunctionCode w (updateCode_params st (Buffer bytes) true)
  = Succeeded dry ->
  truthy (lambdaGetInfo st)
  && truthy (get (lambdaGetInfo st) "Configuration") = true ->
  strict_eq (get (VObj dry) "CodeSha256")
    (get (get (lambdaGetInfo st) "Configuration") "CodeSha256") = true ->
  fst (updateFunctionCode w st)
  = Resolved (VStr INFO_FUNCTION_CODE_UO_TO_DATE)
  /\ calls_during (updateFunctionCode w) st
     = [UpdateFunctionCode (updateCode_params st (Buffer bytes) true)].
Proof.
  intros [N R] D S H.
  pose proof (updateFunctionCode_readable w st bytes
                (readArchive_readable w st bytes N R)) as E.
  cbv zeta in E. rewrite D, S, H in E. simpl in E.
  split; [now rewrite E|]. apply calls_during_app. now rewrite E.
Qed.

Lemma updateFunctionCode_equal_hashes_witness :
  let w := existing_function_world (sample_snapshot 3 "b2xk")
             (Succeeded [("CodeSha256", VStr "b2xk")]) service_error in
  let st := set_lambdaGetInfo (VObj (sample_snapshot 3 "b2xk"))
              sample_loaded in
  fst (updateFunctionCode w st)
  = Resolved (VStr INFO_FUNCTION_CODE_UO_TO_DATE)
  /\ calls_during (updateFunctionCode w) st
     = [UpdateFunctionCode (updateCode_params st (Buffer sample_archive) true)].
Proof.
  intros w st.
  apply (updateFunctionCode_equal_hashes w st sample_archive
           [("CodeSha256", VStr "b2xk")]).
  - split; reflexivity.
  - reflexivity.
  - reflexivity.
  - reflexivity.
Defined.

(** X13.  The ways [updateFunctionCode] fails.  Without a readable
    archive it is rejected before any call.  When the dry run fails it
    is rejected with the error object of the SDK, the dry run being its
    only call.  When the dry run succeeds but the stored reply of
    [getFunction] has no [Configuration], it is rejected with
    'Invalid Lambda function information', again after the dry run
    alone. *)
Theorem updateFunctionCode_failures (w : World) (st : State) :
  ((forall bytes, ~ archive_readable w st bytes) ->
   (exists reason, fst (updateFunctionCode w st) = Rejected reason)
   /\ calls_during (updateFunctionCode w) st = [])
  /\ (forall bytes err,
        archive_readable w st bytes ->
        lambda_updateFunctionCode w (updateCode_params st (Buffer bytes) true)
        = Failed err ->
        fst (updateFunctionCode w st) = Rejected (VObj err)
        /\ calls_during (updateFunctionCode w) st
           = [UpdateFunctionCode (updateCode_params st (Buffer bytes) true)])
  /\ (forall bytes dry,
        archive_readable w st bytes ->
        lambda_updateFunctionCode w (updateCode_params st (Buffer bytes) true)
        = Succeeded dry ->
        truthy (lambdaGetInfo st)
        && truthy (get (lambdaGetInfo st) "Configuration") = false ->
        fst (updateFunctionCode w st)
        = Rejected (VStr "Invalid Lambda function information")
        /\ calls_during (updateFunctionCode w) st
           = [UpdateFunctionCode (updateCode_params st (Buffer bytes) true)]).
Proof.
  split; [|split].
  - intros U.
    destruct (readArchive_cases w st) as [(b & A & _)|(_ & reason & R)];
      [exfalso; exact (U b A)|].
    pose proof (updateFunctionCode_unreadable w st reason R) as E.
    split; [exists reason; now rewrite E|].
    apply calls_during_app. rewrite E. simpl. now rewrite app_nil_r.
  - intros bytes err [N R] D.
    pose proof (updateFunctionCode_readable w st bytes
                  (readArchive_readable w st bytes N R)) as E.
    cbv zeta in E. rewrite D in E.
    split; [now rewrite E|]. apply calls_during_app. now rewrite E.
  - intros bytes dry [N R] D S.
    pose proof (updateFunctionCode_readable w st bytes
                  (readArchive_readable w st bytes N R)) as E.
    cbv zeta in E. rewrite D, S in E.
    split; [now rewrite E|]. apply calls_during_app. now rewrite E.
Qed.

(* ================================================================== *)
(** ** The calls of [deploy], path by path *)

Lemma Promise_all_then_state (w : World) (tasks : list (Task value))
    (v : value) (st : State) :
  snd ((Promise_all w tasks >>= fun _ => resolve v) st)
  = snd (start_all tasks st).
Proof.
  unfold and_then, Promise_all, resolve.
  destruct (start_all tasks st) as [os st'].
  destruct (settle_all _ os); reflexivity.
Qed.

Lemma Promise_all_then_resolved (w : World) (tasks : list (Task value))
    (v x : value) (st : State) :
  fst ((Promise_all w tasks >>= fun _ => resolve v) st) = Resolved x ->
  x = v
  /\ Forall (fun o => exists a, o = Resolved a) (fst (start_all tasks st)).
Proof.
  unfold and_then, Promise_all, resolve.
  destruct (start_all tasks st) as [os st']. simpl.
  destruct (settle_all _ os) eqn:S; simpl; try discriminate.
  intros E. inversion E. split; [reflexivity|].
  now apply settle_all_resolved in S.
Qed.

Lemma updateConfig_run (w : World) (st : State) :
  snd (updateConfig w st)
  = issue (UpdateFunctionConfiguration (updateConfig_params st)) st
  /\ (forall v, fst (updateConfig w st) = Resolved v ->
      succeeded w (UpdateFunctionConfiguration (updateConfig_params st))).
Proof.
  unfold updateConfig. cbv zeta. fold (updateConfig_params st).
  destruct (lambda_updateFunctionConfiguration w (updateConfig_params st))
    as [err|data] eqn:R; simpl; split; try reflexivity.
  - discriminate.
  - intros _ _. rewrite R. eauto.
Qed.

(** A fulfilled [updateFunctionCode] means that every call it issued
    succeeded. *)
Lemma updateFunctionCode_resolved (w : World) (st : State) (v : value) :
  fst (updateFunctionCode w st) = Resolved v ->
  Forall (succeeded w) (calls_during (updateFunctionCode w) st).
Proof.
  destruct (readArchive_cases w st) as [(bytes & A & R)|(_ & reason & R)].
  - pose proof (updateFunctionCode_readable w st bytes R) as E. cbv zeta in E.
    set (first := updateCode_params st (Buffer bytes) true) in *.
    destruct (lambda_updateFunctionCode w first) as [err|dry] eqn:D.
    { rewrite E. discriminate. }
    destruct (truthy (lambdaGetInfo st)
              && truthy (get (lambdaGetInfo st) "Configuration")).
    2:{ rewrite E. discriminate. }
    destruct (strict_eq _ _); simpl negb in E; cbv iota in E.
    + intros _. rewrite (calls_during_app _ st [UpdateFunctionCode first])
        by now rewrite E.
      repeat constructor. simpl. rewrite D. eauto.
    + unfold updateCode in E.
      set (second := updateCode_params st (NotBuffer (VObj dry)) false) in *.
      destruct (lambda_updateFunctionCode w second) as [err|data] eqn:D2.
      { rewrite E. discriminate. }
      intros _.
      rewrite (calls_during_app _ st
                 [UpdateFunctionCode first; UpdateFunctionCode second]).
      * repeat constructor; simpl; [rewrite D|rewrite D2]; eauto.
      * rewrite E. simpl. now rewrite <- app_assoc.
  - rewrite (updateFunctionCode_unreadable w st reason R). discriminate.
Qed.

Lemma checkLambdaConfig_true (st : State) (config : value) :
  checkLambdaConfig st config = true ->
  (forall f, In f compared_fields -> get config f = get (lambdaCfg st) f)
  /\ get config "Role" = get (lambdaSecrets st) "Role"
  /\ compareEnvironment (get config "Environment")
       (get (lambdaSecrets st) "Environment") = true.
Proof.
  unfold checkLambdaConfig.
  match goal with |- (if ?b then _ else _) = true -> _ =>
    destruct b eqn:E; [|discriminate] end.
  intros C.
  repeat (apply andb_true_iff in E; destruct E as [E ?]).
  repeat match goal with H : strict_eq _ _ = true |- _ =>
    apply strict_eq_true in H end.
  split; [|auto].
  intros f HIn. simpl in HIn.
  repeat (destruct HIn as [<-|HIn]; [assumption|]). contradiction.
Qed.

Section Deploy_log.

Variable w : World.
Variable options : option DeployOptions.t.
Variables st st1 : State.
Hypothesis service : reaches_getFunction w st st1.

Let name : value := get (lambdaCfg st1) "FunctionName".
Let asked : State := issue (GetFunction name) st1.

Lemma deploy_other_error (err : list (string * value)) :
  lambda_getFunction w name = Failed err ->
  get (VObj err) "code" <> VStr "ResourceNotFoundException" ->
  deploy w options st = (Rejected (VStr "Lambda getFunction Error"), asked).
Proof.
  intros G N. destruct service as [c Hc].
  unfold deploy, and_then. rewrite Hc. unfold checkLambda.
  fold name. rewrite G.
  destruct (strict_eq (get (VObj err) "code")
              (VStr "ResourceNotFoundException")) eqn:E; [|reflexivity].
  apply strict_eq_true in E. contradiction.
Qed.

(** With the [updateConfig] option the configuration is pushed, then
    the code is updated. *)
Lemma deploy_found_pushing (data : list (string * value)) :
  function_found w st1 data ->
  option_set DeployOptions.updateConfig options = true ->
  let st2 := set_lambdaGetInfo (VObj data) asked in
  let st3 := issue (UpdateFunctionConfiguration (updateConfig_params st1))
               st2 in
  snd (deploy w options st) = snd (updateFunctionCode w st3)
  /\ (forall v, fst (deploy w options st) = Resolved v ->
      v = VStr INFO_DEPLOY_COMPLETE
      /\ succeeded w (UpdateFunctionConfiguration (updateConfig_params st1))
      /\ exists x, fst (updateFunctionCode w st3) = Resolved x).
Proof.
  intros F U st2 st3.
  pose proof (deploy_found w options st st1 service data F) as E.
  cbv zeta in E. fold name in E. fold asked in E. fold st2 in E.
  rewrite U in E. simpl in E. rewrite E.
  destruct (updateConfig_run w st2) as [S1 R1].
  change (updateConfig_params st2) with (updateConfig_params st1) in S1, R1.
  fold st3 in S1.
  split.
  - rewrite Promise_all_then_state. simpl.
    destruct (updateConfig w st2) as [o1 s1]. simpl in S1. subst s1.
    destruct (updateFunctionCode w st3); reflexivity.
  - intros v H. apply Promise_all_then_resolved in H.
    destruct H as [-> A]. split; [reflexivity|].
    simpl in A. destruct (updateConfig w st2) as [o1 s1] eqn:U1.
    simpl in S1. subst s1.
    destruct (updateFunctionCode w st3) as [o2 s2]. simpl in *.
    inversion A as [|? ? [a1 ->] A']; subst.
    inversion A' as [|? ? [a2 ->] _]; subst.
    split; [now apply (R1 a1)|eauto].
Qed.

(** Without it the code is updated only when the check passes. *)
Lemma deploy_found_checking (data : list (string * value)) :
  function_found w st1 data ->
  option_set DeployOptions.updateConfig options = false ->
  let st2 := set_lambdaGetInfo (VObj data) asked in
  (checkLambdaConfig st2 (VObj data) = false ->
   deploy w options st = (Rejected (VStr ERR_LAMBDA_CONFIG), st2))
  /\ (checkLambdaConfig st2 (VObj data) = true ->
      snd (deploy w options st) = snd (updateFunctionCode w st2)
      /\ (forall v, fst (deploy w options st) = Resolved v ->
          v = VStr INFO_DEPLOY_COMPLETE
          /\ exists x, fst (updateFunctionCode w st2) = Resolved x)).
Proof.
  intros F U st2.
  pose proof (deploy_found w options st st1 service data F) as E.
  cbv zeta in E. fold name in E. fold asked in E. fold st2 in E.
  rewrite U in E. simpl in E. split; intros C; rewrite C in E; simpl in E.
  - exact E.
  - rewrite E. split.
    + rewrite Promise_all_then_state. simpl.
      destruct (updateFunctionCode w st2); reflexivity.
    + intros v H. apply Promise_all_then_resolved in H.
      destruct H as [-> A]. split; [reflexivity|].
      simpl in A. destruct (updateFunctionCode w st2) as [o2 s2]. simpl in *.
      inversion A as [|? ? [a2 ->] _]; subst. eauto.
Qed.

End Deploy_log.

(** While the documents are not loaded, [deploy] stops where
    [createLambdaService] stopped. *)
Lemma deploy_not_reached (w : World) (options : option DeployOptions.t)
    (st : State) :
  (forall c, fst (createLambdaService w st) <> Resolved c) ->
  issued (snd (deploy w options st)) = issued st
  /\ forall v, fst (deploy w options st) <> Resolved v.
Proof.
  intros N. unfold deploy.
  destruct (and_then_stops (createLambdaService w)
              (fun _ => checkLambda w options) st N) as [S1 N1].
  match goal with |- context [(?p >>= ?f) st] =>
    destruct (and_then_stops p f st N1) as [S2 N2] end.
  split; [|exact N2].
  rewrite S2, S1. apply (quiet_createLambdaService w st).
Qed.

(* ================================================================== *)
(** ** What [deploy] does and never does *)

Lemma createLambdaService_documents (w : World) (st st1 : State)
    (c : ClientConfiguration) :
  createLambdaService w st = (Resolved c, st1) -> documents_load w.
Proof.
  unfold createLambdaService. intros E.
  apply and_then_resolved in E. destruct E as (v & s & R & _).
  apply readConfig_resolved in R. destruct R as (cfg & secrets & _ & R).
  exists cfg, secrets. exact R.
Qed.

(** X14.  Unless lambda-config.json and lambda-secrets.json both parse,
    have the required names and the non-empty FunctionName, Handler,
    region and Role, a deploy issues no call at all and is not
    fulfilled. *)
Theorem deploy_without_documents
    (w : World) (options : option DeployOptions.t) (st : State) :
  ~ documents_load w ->
  calls_during (deploy w options) st = []
  /\ forall v, fst (deploy w options st) <> Resolved v.
Proof.
  intros N.
  assert (forall c, fst (createLambdaService w st) <> Resolved c) as NR.
  { intros c E. apply N.
    destruct (createLambdaService w st) as [o st1] eqn:S. simpl in E. subst o.
    exact (createLambdaService_documents w st st1 c S). }
  destruct (deploy_not_reached w options st NR) as [L F].
  split; [|exact F].
  apply calls_during_app. now rewrite L, app_nil_r.
Qed.

Lemma deploy_without_documents_witness :
  let w := sample_world Malformed (Some sample_archive)
             (Succeeded (sample_snapshot 3 "b2xk")) service_error
             service_error service_error service_error in
  calls_during (deploy w create_option) fresh = []
  /\ forall v, fst (deploy w create_option fresh) <> Resolved v.
Proof.
  intros w. apply deploy_without_documents.
  intros (cfg & secrets & H & _). discriminate H.
Defined.

(** X15.  When [getFunction] fails with anything but
    ResourceNotFoundException, the deploy is rejected with
    'Lambda getFunction Error' whatever the options, [getFunction]
    being its only call: the [create] option does not apply. *)
Theorem deploy_getFunction_error
    (w : World) (options : option DeployOptions.t) (st st1 : State)
    (err : list (string * value)) :
  reaches_getFunction w st st1 ->
  lambda_getFunction w (get (lambdaCfg st1) "FunctionName") = Failed err ->
  get (VObj err) "code" <> VStr "ResourceNotFoundException" ->
  fst (deploy w options st) = Rejected (VStr "Lambda getFunction Error")
  /\ calls_during (deploy w options) st
     = [GetFunction (get (lambdaCfg st1) "FunctionName")].
Proof.
  intros S G N.
  pose proof (deploy_other_error w options st st1 S err G N) as E.
  split; [now rewrite E|].
  apply calls_during_app. rewrite E. simpl.
  now rewrite (service_log w st st1 S).
Qed.

Lemma deploy_getFunction_error_witness :
  let w := sample_world (Parses sample_config) (Some sample_archive)
             service_error (Succeeded []) service_error service_error
             service_error in
  fst (deploy w create_option fresh)
  = Rejected (VStr "Lambda getFunction Error")
  /\ calls_during (deploy w create_option) fresh
     = [GetFunction (VStr "hello")].
Proof.
  intros w.
  apply (deploy_getFunction_error w create_option fresh sample_loaded
           [("code", VStr "ServiceException")]).
  - eexists. reflexivity.
  - reflexivity.
  - simpl. discriminate.
Defined.

Lemma deploy_pushes_configuration_shape
    (w : World) (options : option DeployOptions.t) (st st1 : State)
    (data : list (string * value)) :
  reaches_getFunction w st st1 ->
  function_found w st1 data ->
  option_set DeployOptions.updateConfig options = true ->
  exists code,
    calls_during (deploy w options) st
    = GetFunction (get (lambdaCfg st1) "FunctionName")
      :: UpdateFunctionConfiguration (updateConfig_params st1)
      :: code
    /\ code_update_calls code = true.
Proof.
  intros S F U.
  destruct (deploy_found_pushing w options st st1 S data F U) as [E _].
  cbv zeta in E.
  match type of E with _ = snd (updateFunctionCode w ?s) =>
    destruct (updateFunctionCode_log w s) as (code & L & C & _) end.
  exists code. split; [|exact C].
  apply calls_during_app. rewrite E, L. simpl.
  rewrite (service_log w st st1 S), <- !app_assoc. reflexivity.
Qed.

(** X16.  With the [updateConfig] option and a function that exists,
    the remote configuration is not compared: whatever [getFunction]
    replied, the deploy issues one [updateFunctionConfiguration] with
    the local configuration, the Role and the Environment of the
    secrets, and after it the calls of the update of the code. *)
Theorem deploy_pushes_configuration
    (w : World) (options : option DeployOptions.t) (st st1 : State)
    (data : list (string * value)) :
  reaches_getFunction w st st1 ->
  function_found w st1 data ->
  option_set DeployOptions.updateConfig options = true ->
  exists code,
    calls_during (deploy w options) st
    = GetFunction (get (lambdaCfg st1) "FunctionName")
      :: UpdateFunctionConfiguration (updateConfig_params st1)
      :: code
    /\ code_update_calls code = true.
Proof. apply deploy_pushes_configuration_shape. Qed.

Lemma deploy_pushes_configuration_witness :
  let w := existing_function_world (sample_snapshot 10 "b2xk")
             (Succeeded [("CodeSha256", VStr "b2xk")]) service_error in
  exists code,
    calls_during (deploy w updateConfig_option) fresh
    = GetFunction (VStr "hello")
      :: UpdateFunctionConfiguration (updateConfig_params sample_loaded)
      :: code
    /\ code_update_calls code = true.
Proof.
  intros w.
  apply (deploy_pushes_configuration w updateConfig_option fresh
           sample_loaded (sample_snapshot 10 "b2xk")).
  - eexists. reflexivity.
  - reflexivity.
  - reflexivity.
Defined.

(** X17.  Without the [updateConfig] option, a deploy that issues an
    [updateFunctionCode], dry run or not, has found the reply of
    [getFunction] equal to the local documents in FunctionName,
    Description, Handler, Runtime, MemorySize, Timeout and Role, and
    its environment accepted by [compareEnvironment]. *)
Theorem deploy_code_update_requires_equal
    (w : World) (options : option DeployOptions.t) (st st1 : State)
    (data : list (string * value)) :
  reaches_getFunction w st st1 ->
  function_found w st1 data ->
  option_set DeployOptions.updateConfig options = false ->
  count is_code_update (calls_during (deploy w options) st) <> 0 ->
  (forall f, In f compared_fields -> get (VObj data) f = get (lambdaCfg st1) f)
  /\ get (VObj data) "Role" = get (lambdaSecrets st1) "Role"
  /\ compareEnvironment (get (VObj data) "Environment")
       (get (lambdaSecrets st1) "Environment") = true.
Proof.
  intros S F U N.
  destruct (deploy_found_checking w options st st1 S data F U) as [Hf _].
  cbv zeta in Hf.
  match type of Hf with checkLambdaConfig ?s ?c = false -> _ =>
    destruct (checkLambdaConfig s c) eqn:C end.
  - apply checkLambdaConfig_true in C. exact C.
  - exfalso. apply N. specialize (Hf eq_refl).
    rewrite (calls_during_app _ st
               [GetFunction (get (lambdaCfg st1) "FunctionName")]);
      [reflexivity|].
    rewrite Hf. simpl. now rewrite (service_log w st st1 S).
Qed.

Lemma deploy_code_update_requires_equal_witness :
  get (VObj (flat_snapshot 3 "b2xk")) "Timeout" = VNum 3
  /\ get (VObj (flat_snapshot 3 "b2xk")) "Role"
     = VStr "arn:aws:iam::1:role/lambda".
Proof.
  pose (w := existing_function_world (flat_snapshot 3 "b2xk")
               (Succeeded [("CodeSha256", VStr "b2xk")]) service_error).
  destruct (deploy_code_update_requires_equal w None fresh sample_loaded
              (flat_snapshot 3 "b2xk")) as (H1 & H2 & _).
  - eexists. reflexivity.
  - reflexivity.
  - reflexivity.
  - vm_compute. discriminate.
  - split; [apply (H1 "Timeout"); simpl; tauto|exact H2].
Defined.

Lemma code_update_calls_after_get (name : value) (code : list call) :
  code_update_calls code = true ->
  deploy_calls (GetFunction name :: code) = true.
Proof.
  destruct code as [|c [|d [|e code]]]; simpl; try discriminate; auto.
  - destruct c; simpl; try discriminate; auto.
  - destruct c; simpl; try discriminate; auto.
Qed.

(** X18.  Whatever the files hold, the remote side answers and the
    options are, the calls of one deploy are: none; or [getFunction]
    first and once, followed by nothing, by one [createFunction] alone,
    or by at most one [updateFunctionConfiguration] and then at most a
    dry run and a real update of the code.  A deploy requires no module
    and invokes no handler. *)
Theorem deploy_calls_shape
    (w : World) (options : option DeployOptions.t) (st : State) :
  deploy_calls (calls_during (deploy w options) st) = true.
Proof.
  destruct (createLambdaService w st) as [o st1] eqn:S.
  assert (forall cs, issued (snd (deploy w options st)) = (issued st ++ cs)%list ->
                     deploy_calls cs = true ->
                     deploy_calls (calls_during (deploy w options) st) = true)
    as done by (intros cs L C; now rewrite (calls_during_app _ _ cs L)).
  destruct o as [c|r| |e|].
  2-5: (destruct (deploy_not_reached w options st) as [L _];
        [rewrite S; discriminate|];
        apply (done []); [now rewrite L, app_nil_r|reflexivity]).
  assert (reaches_getFunction w st st1) as R by (exists c; exact S).
  pose proof (service_log w st st1 R) as SL.
  destruct (lambda_getFunction w (get (lambdaCfg st1) "FunctionName"))
    as [err|data] eqn:G.
  - destruct (strict_eq (get (VObj err) "code")
                (VStr "ResourceNotFoundException")) eqn:E.
    + apply strict_eq_true in E.
      assert (function_not_found w st1) as M by (exists err; auto).
      destruct (option_set DeployOptions.create options) eqn:C.
      * destruct (readArchive_cases w
                    (issue (GetFunction (get (lambdaCfg st1) "FunctionName")) st1))
          as [(bytes & A & _)|(U & _)].
        -- destruct (create_path_readable w options st st1 R M C bytes A)
             as [_ L]. now rewrite L.
        -- destruct (create_path_unreadable w options st st1 R M C U)
             as [_ L]. now rewrite L.
      * apply (done [GetFunction (get (lambdaCfg st1) "FunctionName")]);
          [|reflexivity].
        rewrite (deploy_not_found_rejected w options st st1 R M C).
        simpl. now rewrite SL.
    + apply (done [GetFunction (get (lambdaCfg st1) "FunctionName")]);
        [|reflexivity].
      rewrite (deploy_other_error w options st st1 R err G).
      * simpl. now rewrite SL.
      * intros X. rewrite X in E. discriminate E.
  - destruct (option_set DeployOptions.updateConfig options) eqn:U.
    + destruct (deploy_pushes_configuration_shape w options st st1 data R G U)
        as (code & L & C).
      rewrite L. simpl. exact C.
    + destruct (deploy_found_checking w options st st1 R data G U) as [Hf Ht].
      cbv zeta in Hf, Ht.
      match type of Hf with checkLambdaConfig ?s ?c = false -> _ =>
        destruct (checkLambdaConfig s c) eqn:C end.
      * destruct (Ht eq_refl) as [E _].
        match type of E with _ = snd (updateFunctionCode w ?s) =>
          destruct (updateFunctionCode_log w s) as (code & L & K & _) end.
        apply (done (GetFunction (get (lambdaCfg st1) "FunctionName") :: code)).
        -- rewrite E, L. simpl. now rewrite SL, <- app_assoc.
        -- now apply code_update_calls_after_get.
      * apply (done [GetFunction (get (lambdaCfg st1) "FunctionName")]);
          [|reflexivity].
        rewrite (Hf eq_refl). simpl. now rewrite SL.
Qed.

Lemma updateFunctionCode_issued (w : World) (st : State) :
  issued (snd (updateFunctionCode w st))
  = (issued st ++ calls_during (updateFunctionCode w) st)%list.
Proof.
  destruct (updateFunctionCode_log w st) as (cs & L & _).
  now rewrite (calls_during_app _ _ cs L).
Qed.

(** X19.  Against a function that exists, a deploy is fulfilled with
    'Lambda function deploy finished' and nothing else, and a fulfilled
    deploy means that every [updateFunctionConfiguration] and
    [updateFunctionCode] it issued was answered with success. *)
Theorem deploy_fulfilled_updates_succeeded
    (w : World) (options : option DeployOptions.t) (st st1 : State)
    (data : list (string * value)) (v : value) :
  reaches_getFunction w st st1 ->
  function_found w st1 data ->
  fst (deploy w options st) = Resolved v ->
  v = VStr INFO_DEPLOY_COMPLETE
  /\ Forall (succeeded w) (calls_during (deploy w options) st).
Proof.
  intros S F R.
  pose proof (service_log w st st1 S) as SL.
  destruct (option_set DeployOptions.updateConfig options) eqn:U.
  - destruct (deploy_found_pushing w options st st1 S data F U) as [E H].
    cbv zeta in E, H. destruct (H v R) as (-> & C & x & X).
    split; [reflexivity|].
    apply updateFunctionCode_resolved in X.
    match type of E with _ = snd (updateFunctionCode w ?s) =>
      set (st3 := s) in * end.
    rewrite (calls_during_app _ st
               (GetFunction (get (lambdaCfg st1) "FunctionName")
                :: UpdateFunctionConfiguration (updateConfig_params st1)
                :: calls_during (updateFunctionCode w) st3)).
    + constructor; [exact I|]. constructor; assumption.
    + rewrite E, updateFunctionCode_issued. subst st3. simpl.
      rewrite SL, <- !app_assoc. reflexivity.
  - destruct (deploy_found_checking w options st st1 S data F U) as [Hf Ht].
    cbv zeta in Hf, Ht.
    match type of Hf with checkLambdaConfig ?s ?c = false -> _ =>
      set (st2 := s) in *; destruct (checkLambdaConfig st2 c) eqn:C end.
    + destruct (Ht eq_refl) as [E H]. destruct (H v R) as (-> & x & X).
      split; [reflexivity|].
      apply updateFunctionCode_resolved in X.
      rewrite (calls_during_app _ st
                 (GetFunction (get (lambdaCfg st1) "FunctionName")
                  :: calls_during (updateFunctionCode w) st2)).
      * constructor; [exact I|assumption].
      * rewrite E, updateFunctionCode_issued. subst st2. simpl.
        rewrite SL, <- !app_assoc. reflexivity.
    + rewrite (Hf eq_refl) in R. discriminate R.
Qed.

Lemma deploy_fulfilled_updates_succeeded_witness :
  let w := existing_function_world (sample_snapshot 3 "b2xk")
             (Succeeded [("CodeSha256", VStr "b2xk")]) service_error in
  VStr INFO_DEPLOY_COMPLETE = VStr INFO_DEPLOY_COMPLETE
  /\ Forall (succeeded w) (calls_during (deploy w updateConfig_option) fresh).
Proof.
  intros w.
  apply (deploy_fulfilled_updates_succeeded w updateConfig_option fresh
           sample_loaded (sample_snapshot 3 "b2xk")).
  - eexists. reflexivity.
  - reflexivity.
  - reflexivity.
Defined.

(* ================================================================== *)
(** ** The calls of a test run *)

Lemma quiet_onLambdaTests (obj : value) : quiet (onLambdaTests obj).
Proof.
  intros st. unfold onLambdaTests.
  destruct (isLambdaTests obj) as [[|]|exn]; auto.
Qed.

Lemma executeEventTest_log (handler : export) (context event : value)
    (st : State) :
  issued (snd (executeEventTest handler context event st))
  = (issued st ++ invocations handler context [event])%list.
Proof.
  destruct handler as [v|run]; simpl.
  - now rewrite app_nil_r.
  - destruct (run event context) as [err data| |exn]; try reflexivity.
    destruct (truthy err); reflexivity.
Qed.

Lemma start_all_events (handler : export) (context : value)
    (events : list value) (st : State) :
  issued (snd (start_all (map (executeEventTest handler context) events) st))
  = (issued st ++ invocations handler context events)%list.
Proof.
  revert st. induction events as [|e events IH]; intros st; simpl.
  - destruct handler; simpl; now rewrite app_nil_r.
  - pose proof (executeEventTest_log handler context e st) as L.
    destruct (executeEventTest handler context e st) as [o st1].
    specialize (IH st1).
    destruct (start_all (map (executeEventTest handler context) events) st1)
      as [os st2].
    simpl in *. rewrite IH, L, <- app_assoc.
    destruct handler; reflexivity.
Qed.

Lemma invocations_invoke (handler : export) (context : value)
    (events : list value) :
  forallb is_invoke (invocations handler context events) = true.
Proof.
  destruct handler; simpl; [reflexivity|].
  induction events; simpl; auto.
Qed.

Lemma executeContextTest_log (w : World) (handler : export) (test : value)
    (st : State) :
  exists cs,
    issued (snd (executeContextTest w handler test st))
    = (issued st ++ cs)%list
    /\ forallb is_invoke cs = true.
Proof.
  unfold executeContextTest.
  destruct (array_like (get test "events")) as [[events|exn]|].
  - pose proof (start_all_events handler (get test "context") events st) as L.
    destruct (start_all _ st) as [os st1]. simpl in *.
    eexists. split; [exact L|apply invocations_invoke].
  - exists []. simpl. now rewrite app_nil_r.
  - exists []. simpl. now rewrite app_nil_r.
Qed.

Lemma pushContextTests_log (w : World) (handler : export)
    (tests : list value) (st : State) :
  exists cs,
    issued (snd (pushContextTests w handler tests st))
    = (issued st ++ cs)%list
    /\ forallb is_invoke cs = true.
Proof.
  revert st. induction tests as [|t tests IH]; intros st; simpl.
  - exists []. simpl. now rewrite app_nil_r.
  - unfold and_then.
    destruct (executeContextTest_log w handler t st) as (cs1 & L1 & I1).
    destruct (executeContextTest w handler t st) as [[p|r| |e|] st1];
      simpl in L1; try (exists cs1; simpl; now split).
    destruct (IH st1) as (cs2 & L2 & I2).
    destruct (pushContextTests w handler tests st1) as [[ps|r| |e|] st2];
      simpl in L2; simpl;
      (exists (cs1 ++ cs2)%list; split;
       [now rewrite L2, L1, <- app_assoc
       |rewrite forallb_app; now rewrite I1, I2]).
Qed.

Lemma runTests_log (w : World) (st : State) :
  exists cs,
    issued (snd (runTests w st)) = (issued st ++ cs)%list
    /\ test_calls cs = true.
Proof.
  assert (exists cs, issued st = (issued st ++ cs)%list /\ test_calls cs = true)
    as nothing by (exists []; now rewrite app_nil_r).
  unfold runTests.
  destruct (get (lambdaCfg st) "Handler"); try exact nothing.
  destruct (negb _); [exact nothing|].
  set (file := (nth 0 (split_dot s) "" ++ ".js")).
  assert (exists cs, issued (issue (Require file) st) = (issued st ++ cs)%list
                     /\ test_calls cs = true)
    as required by (exists [Require file]; now split).
  destruct (node_require w file) as [exports|exn]; [|exact required].
  destruct (negb _); [exact required|].
  destruct (array_like _) as [[tests|exn]|]; try exact required.
  unfold and_then.
  destruct (pushContextTests_log w (exports (nth 1 (split_dot s) "")) tests
              (issue (Require file) st)) as (cs & L & I).
  destruct (pushContextTests w _ tests _) as [[ps|r| |e|] st2];
    simpl in L; simpl;
    (exists (Require file :: cs); split;
     [rewrite L; simpl; now rewrite <- app_assoc|exact I]).
Qed.

(** X20.  Whatever the files, the module and the handler do, the calls
    of one test run are: none; or one [require], followed by
    invocations of the handler only.  A test run never calls the remote
    side, requires at most one module, and invokes nothing before the
    module is required. *)
Theorem test_calls_shape
    (w : World) (testFileName : option string) (st : State) :
  test_calls (calls_during (test w testFileName) st) = true.
Proof.
  unfold test.
  set (load := Promise_all w _).
  assert (quiet load) as Q.
  { apply quiet_Promise_all. repeat constructor; apply quiet_and_then;
      auto using quiet_readObject, quiet_onLambdaConfig, quiet_onLambdaTests. }
  destruct (Q st) as [QL _].
  unfold calls_during, and_then.
  destruct (load st) as [[v|r| |e|] st1]; simpl in QL;
    try (simpl; rewrite QL, skipn_all; reflexivity).
  destruct (runTests_log w st1) as (cs & L & C).
  rewrite L, QL, skipn_app, skipn_all, Nat.sub_diag. exact C.
Qed.

(* ================================================================== *)
(** ** A test run that reaches the handler *)

Lemma fulfilments_resolved (vs : list value) :
  fulfilments (map Resolved vs) = vs.
Proof.
  unfold fulfilments. induction vs as [|v vs IH]; simpl;
    [|rewrite IH]; reflexivity.
Qed.

Lemma settle_all_fulfilled (first : nat) (vs : list value) :
  settle_all first (map Resolved vs) = Resolved (VArr vs).
Proof.
  unfold settle_all.
  assert (first_abnormal (map (@Resolved value) vs) = None) as F
    by (induction vs; simpl; auto).
  assert (rejections (map (@Resolved value) vs) = []) as R
    by (induction vs; simpl; auto).
  assert (existsb is_pending (map (@Resolved value) vs) = false) as P
    by (induction vs; simpl; auto).
  now rewrite F, R, P, fulfilments_resolved.
Qed.

Lemma event_outcome_resolved (run : value -> value -> completion_callback)
    (context event v : value) :
  event_outcome run context event = Resolved v
  <-> calls_back (run event context) = true
      /\ v = callback_data (run event context).
Proof.
  unfold event_outcome, calls_back, callback_data.
  destruct (run event context) as [err data| |exn].
  - destruct (truthy err); simpl; split;
      try discriminate; try (intros [X _]; discriminate X).
    + intros E. inversion E. auto.
    + intros [_ ->]. reflexivity.
  - split; [discriminate|intros [X _]; discriminate X].
  - split; [discriminate|intros [X _]; discriminate X].
Qed.

Lemma start_all_event_outcomes (run : value -> value -> completion_callback)
    (context : value) (events : list value) (st : State) :
  fst (start_all (map (executeEventTest (Function run) context) events) st)
  = map (event_outcome run context) events.
Proof.
  revert st. induction events as [|e events IH]; intros st; simpl;
    [reflexivity|].
  unfold event_outcome at 1.
  set (st1 := issue (Invoke e context) st).
  assert (forall o, (let (os, st2) :=
                       start_all (map (executeEventTest (Function run) context)
                                    events) st1 in
                     (o :: os, st2))
                    = (o :: fst (start_all
                                   (map (executeEventTest (Function run) context)
                                      events) st1),
                       snd (start_all
                              (map (executeEventTest (Function run) context)
                                 events) st1))) as U
    by (intros o; destruct (start_all _ st1); reflexivity).
  destruct (run e context) as [err data| |exn];
    [destruct (truthy err)|..]; rewrite U; simpl; now rewrite IH.
Qed.

Lemma executeContextTest_array (w : World)
    (run : value -> value -> completion_callback) (t : value)
    (events : list value) (st : State) :
  get t "events" = VArr events ->
  fst (executeContextTest w (Function run) t st)
  = Resolved (test_outcome (first_rejection w) run t)
  /\ issued (snd (executeContextTest w (Function run) t st))
     = (issued st
        ++ map (fun event => Invoke event (get t "context")) events)%list.
Proof.
  intros E. unfold executeContextTest, test_outcome, events_of.
  rewrite E. simpl array_like. cbv iota.
  pose proof (start_all_event_outcomes run (get t "context") events st) as O.
  pose proof (start_all_events (Function run) (get t "context") events st) as L.
  destruct (start_all _ st) as [os st1]. simpl in *. now subst os.
Qed.

Lemma pushContextTests_arrays (w : World)
    (run : value -> value -> completion_callback) (items : list value)
    (st : State) :
  Forall (fun t => exists events, get t "events" = VArr events) items ->
  fst (pushContextTests w (Function run) items st)
  = Resolved (map (test_outcome (first_rejection w) run) items)
  /\ issued (snd (pushContextTests w (Function run) items st))
     = (issued st
        ++ flat_map (fun t => map (fun event => Invoke event (get t "context"))
                                (events_of t)) items)%list.
Proof.
  intros F. revert st.
  induction F as [|t items [events E] _ IH]; intros st; simpl.
  - now rewrite app_nil_r.
  - unfold and_then.
    destruct (executeContextTest_array w run t events st E) as [O L].
    destruct (executeContextTest w (Function run) t st) as [o st1].
    simpl in O, L. subst o.
    destruct (IH st1) as [O2 L2].
    destruct (pushContextTests w (Function run) items st1) as [o2 st2].
    simpl in O2, L2. subst o2. simpl. split; [reflexivity|].
    rewrite L2, L, <- app_assoc. unfold events_of at 2. now rewrite E.
Qed.

Lemma split_dot_nonempty (s t1 t2 : string) :
  split_dot s = [t1; t2] -> isNEString (VStr s) = true.
Proof. destruct s; simpl; [discriminate|reflexivity]. Qed.

Section Test_run.

Variable w : World.
Variable testFileName : option string.
Variable st : State.
Variables cfg : value.
Variables handlerName module name : string.
Variable exports : string -> export.
Variable run : value -> value -> completion_callback.
Variable items : list value.

Hypothesis config_read : fs_readFile_utf8 w FILE_LAMBDA_CONFIG = Parses cfg.
Hypothesis config_valid : isLambdaConfig cfg = Normal true.
Hypothesis function_named : isNEString (get cfg "FunctionName") = true.
Hypothesis handler_named : get cfg "Handler" = VStr handlerName.
Hypothesis tests_read :
  fs_readFile_utf8 w (testFile testFileName) = Parses (VArr items).
Hypothesis tests_valid : isLambdaTests (VArr items) = Normal true.
Hypothesis handler_tokens : split_dot handlerName = [module; name].
Hypothesis module_loaded : node_require w (module ++ ".js") = Normal exports.
Hypothesis handler_exported : exports name = Function run.
Hypothesis events_arrays :
  Forall (fun t => exists events, get t "events" = VArr events) items.

Let loaded : State := set_lambdaTests (VArr items) (set_lambdaCfg cfg st).

Lemma test_reaches_handler :
  fst (test w testFileName st)
  = settle_all (first_rejection w)
      (map (test_outcome (first_rejection w) run) items)
  /\ issued (snd (test w testFileName st))
     = (issued st
        ++ Require (module ++ ".js")
           :: flat_map (fun t => map (fun event => Invoke event (get t "context"))
                                   (events_of t)) items)%list.
Proof.
  rewrite (test_loaded w testFileName st cfg (VArr items))
    by (try assumption; rewrite handler_named;
        exact (split_dot_nonempty _ _ _ handler_tokens)).
  fold loaded. unfold runTests.
  change (lambdaCfg loaded) with cfg. rewrite handler_named, handler_tokens.
  simpl negb. cbv iota. simpl nth. cbv zeta.
  rewrite module_loaded, handler_exported. simpl negb. cbv iota.
  simpl array_like. cbv iota. unfold and_then.
  destruct (pushContextTests_arrays w run items
              (issue (Require (module ++ ".js")) loaded) events_arrays)
    as [O L].
  destruct (pushContextTests w (Function run) items _) as [o st2].
  simpl in O, L. subst o. simpl. split; [reflexivity|].
  rewrite L. simpl. now rewrite <- app_assoc.
Qed.

End Test_run.

(** X21.  When both documents load, the Handler has two tokens, the
    module loads and exports a function under the handler's name, and
    the [events] of every test case is an array, a test run requires
    [<module>.js] once and then invokes the handler once per event, in
    the order of the tests and, within a test, of its events, each time
    with the event and the context of its test case. *)
Theorem test_invocation_order
    (w : World) (testFileName : option string) (st : State) (cfg : value)
    (handlerName module name : string) (exports : string -> export)
    (run : value -> value -> completion_callback) (items : list value) :
  fs_readFile_utf8 w FILE_LAMBDA_CONFIG = Parses cfg ->
  isLambdaConfig cfg = Normal true ->
  isNEString (get cfg "FunctionName") = true ->
  get cfg "Handler" = VStr handlerName ->
  fs_readFile_utf8 w (testFile testFileName) = Parses (VArr items) ->
  isLambdaTests (VArr items) = Normal true ->
  split_dot handlerName = [module; name] ->
  node_require w (module ++ ".js") = Normal exports ->
  exports name = Function run ->
  Forall (fun t => exists events, get t "events" = VArr events) items ->
  calls_during (test w testFileName) st
  = Require (module ++ ".js")
    :: flat_map (fun t => map (fun event => Invoke event (get t "context"))
                            (events_of t)) items.
Proof.
  intros Rc Vc Nf Hn Rt Vt Tk Ml Ex Ev.
  apply calls_during_app.
  exact (proj2 (test_reaches_handler w testFileName st cfg handlerName module
                  name exports run items Rc Vc Nf Hn Rt Vt Tk Ml Ex Ev)).
Qed.

Lemma test_invocation_order_witness :
  calls_during (test (test_world (Parses (VArr two_tests)) echo) None) fresh
  = [Require "index.js";
     Invoke (VNum 1) (VObj [("id", VNum 1)]);
     Invoke (VNum 2) (VObj [("id", VNum 1)]);
     Invoke (VNum 3) VNull].
Proof.
  apply (test_invocation_order (test_world (Parses (VArr two_tests)) echo)
           None fresh sample_config "index.handler" "index" "handler"
           (fun name => if String.eqb name "handler" then Function echo
                        else Data VUndefined) echo two_tests);
    try reflexivity.
  repeat constructor; eexists; reflexivity.
Defined.

Lemma settle_all_map_resolved {X : Type} (first : nat)
    (f : X -> outcome value) (P : X -> Prop) (g : X -> value)
    (xs : list X) (v : value) :
  (forall x a, In x xs -> f x = Resolved a <-> P x /\ a = g x) ->
  settle_all first (map f xs) = Resolved v
  <-> Forall P xs /\ v = VArr (map g xs).
Proof.
  intros S.
  assert (Forall P xs -> map f xs = map Resolved (map g xs)) as M.
  { intros A. rewrite map_map.
    apply map_ext_in. intros x I. apply S; [exact I|].
    split; [|reflexivity]. rewrite Forall_forall in A. now apply A. }
  split.
  - intros E. apply settle_all_resolved in E. destruct E as [F ->].
    assert (Forall P xs) as A.
    { rewrite Forall_forall in *. intros x I.
      destruct (F (f x) (in_map f xs x I)) as [a Fa].
      now apply (S x a I). }
    split; [exact A|]. now rewrite (M A), fulfilments_resolved.
  - intros [A ->]. rewrite (M A). apply settle_all_fulfilled.
Qed.

Lemma test_outcome_resolved (first : nat)
    (run : value -> value -> completion_callback) (t v : value) :
  test_outcome first run t = Resolved v
  <-> Forall (fun event => calls_back (run event (get t "context")) = true)
        (events_of t)
      /\ v = VArr (map (fun event => callback_data (run event (get t "context")))
                     (events_of t)).
Proof.
  unfold test_outcome. apply settle_all_map_resolved.
  intros event a _. apply event_outcome_resolved.
Qed.

(** X22.  In the same situation the promise of [test] is fulfilled
    exactly when every invocation calls back without an error, and then
    with one array per test case, holding the data of the callbacks of
    its events in their order. *)
Theorem test_fulfilled_iff
    (w : World) (testFileName : option string) (st : State) (cfg : value)
    (handlerName module name : string) (exports : string -> export)
    (run : value -> value -> completion_callback) (items : list value)
    (v : value) :
  fs_readFile_utf8 w FILE_LAMBDA_CONFIG = Parses cfg ->
  isLambdaConfig cfg = Normal true ->
  isNEString (get cfg "FunctionName") = true ->
  get cfg "Handler" = VStr handlerName ->
  fs_readFile_utf8 w (testFile testFileName) = Parses (VArr items) ->
  isLambdaTests (VArr items) = Normal true ->
  split_dot handlerName = [module; name] ->
  node_require w (module ++ ".js") = Normal exports ->
  exports name = Function run ->
  Forall (fun t => exists events, get t "events" = VArr events) items ->
  fst (test w testFileName st) = Resolved v
  <-> Forall (fun t =>
                Forall (fun event =>
                          calls_back (run event (get t "context")) = true)
                  (events_of t)) items
      /\ v = VArr (map (fun t =>
                          VArr (map (fun event =>
                                       callback_data
                                         (run event (get t "context")))
                                  (events_of t))) items).
Proof.
  intros Rc Vc Nf Hn Rt Vt Tk Ml Ex Ev.
  rewrite (proj1 (test_reaches_handler w testFileName st cfg handlerName module
                    name exports run items Rc Vc Nf Hn Rt Vt Tk Ml Ex Ev)).
  apply settle_all_map_resolved.
  intros t a _. apply test_outcome_resolved.
Qed.

Lemma test_fulfilled_iff_witness :
  fst (test (test_world (Parses (VArr two_tests)) echo) None fresh)
  = Resolved (VArr [VArr [VNum 1; VNum 2]; VArr [VNum 3]]).
Proof.
  apply (test_fulfilled_iff (test_world (Parses (VArr two_tests)) echo)
           None fresh sample_config "index.handler" "index" "handler"
           (fun name => if String.eqb name "handler" then Function echo
                        else Data VUndefined) echo two_tests);
    try reflexivity.
  - repeat constructor; eexists; reflexivity.
  - split; [repeat constructor|reflexivity].
Defined.

(** X23.  When both documents load and the Handler has two tokens but
    the module cannot be required, or exports nothing truthy under the
    handler's name, the promise of [test] is rejected, with the
    exception of [require] or with 'invalid handler object', and the
    run has required the module and invoked nothing. *)
Theorem test_handler_unavailable
    (w : World) (testFileName : option string) (st : State)
    (cfg tests : value) (handlerName module name : string) :
  fs_readFile_utf8 w FILE_LAMBDA_CONFIG = Parses cfg ->
  isLambdaConfig cfg = Normal true ->
  isNEString (get cfg "FunctionName") = true ->
  get cfg "Handler" = VStr handlerName ->
  fs_readFile_utf8 w (testFile testFileName) = Parses tests ->
  isLambdaTests tests = Normal true ->
  split_dot handlerName = [module; name] ->
  (forall exports, node_require w (module ++ ".js") = Normal exports ->
                   export_truthy (exports name) = false) ->
  fst (test w testFileName st)
  = Rejected (match node_require w (module ++ ".js") with
              | Throw exn => exn
              | Normal _ => VStr "invalid handler object"
              end)
  /\ calls_during (test w testFileName) st = [Require (module ++ ".js")].
Proof.
  intros Rc Vc Nf Hn Rt Vt Tk Un.
  assert (test w testFileName st
          = (Rejected (match node_require w (module ++ ".js") with
                       | Throw exn => exn
                       | Normal _ => VStr "invalid handler object"
                       end),
             issue (Require (module ++ ".js"))
               (set_lambdaTests tests (set_lambdaCfg cfg st)))) as E.
  { rewrite (test_loaded w testFileName st cfg tests)
      by (try assumption; rewrite Hn; exact (split_dot_nonempty _ _ _ Tk)).
    unfold runTests.
    change (lambdaCfg (set_lambdaTests tests (set_lambdaCfg cfg st))) with cfg.
    rewrite Hn, Tk. simpl negb. cbv iota. simpl nth. cbv zeta.
    destruct (node_require w (module ++ ".js")) as [exports|exn];
      [|reflexivity].
    now rewrite (Un exports eq_refl). }
  split; [now rewrite E|].
  apply calls_during_app. now rewrite E.
Qed.

Lemma test_handler_unavailable_witness :
  let cfg :=
    VObj [("archiveName", VStr "lambda.zip"); ("FunctionName", VStr "hello");
          ("Description", VStr ""); ("Handler", VStr "index.main");
          ("Publish", VBool false); ("Runtime", VStr "nodejs6.10");
          ("MemorySize", VNum 128); ("Timeout", VNum 3)] in
  let w := sample_world (Parses cfg) None service_error service_error
             service_error service_error service_error in
  fst (test w None fresh) = Rejected (VStr "invalid handler object")
  /\ calls_during (test w None) fresh = [Require "index.js"].
Proof.
  intros cfg w.
  apply (test_handler_unavailable w None fresh cfg sample_tests "index.main"
           "index" "main"); try reflexivity.
  intros exports E. inversion E. reflexivity.
Defined.

(* ================================================================== *)
(** ** The tokens of a Handler *)

Lemma split_dot_cons (s : string) : exists t ts, split_dot s = t :: ts.
Proof.
  induction s as [|c s (t & ts & E)]; simpl; [eauto|].
  destruct (Ascii.eqb c "."); [eauto|]. rewrite E. eauto.
Qed.

Lemma split_dot_length (s : string) :
  length (split_dot s) = S (count_dots s).
Proof.
  induction s as [|c s IH]; simpl; [reflexivity|].
  destruct (Ascii.eqb c "."); simpl; [now rewrite IH|].
  destruct (split_dot s); simpl in *; [discriminate IH|exact IH].
Qed.

Lemma split_dot_join (s : string) : join_dot (split_dot s) = s.
Proof.
  induction s as [|c s IH]; simpl; [reflexivity|].
  destruct (Ascii.eqb c ".") eqn:D.
  - apply Ascii.eqb_eq in D. subst c.
    destruct (split_dot_cons s) as (t & ts & E). rewrite E in *.
    simpl. simpl in IH. now rewrite IH.
  - destruct (split_dot_cons s) as (t & ts & E). rewrite E in *.
    destruct ts; simpl in *; now rewrite IH.
Qed.

Lemma split_dot_tokens (s : string) :
  Forall (fun token => count_dots token = 0) (split_dot s).
Proof.
  induction s as [|c s IH]; simpl; [repeat constructor|].
  destruct (Ascii.eqb c ".") eqn:D; [constructor; [reflexivity|exact IH]|].
  destruct (split_dot s) as [|t ts]; [repeat constructor; simpl; now rewrite D|].
  inversion IH. subst. constructor; [simpl; now rewrite D|assumption].
Qed.

Lemma runTests_requires (w : World) (st : State)
    (handlerName module name : string) :
  get (lambdaCfg st) "Handler" = VStr handlerName ->
  split_dot handlerName = [module; name] ->
  exists cs,
    issued (snd (runTests w st))
    = (issued st ++ Require (module ++ ".js") :: cs)%list.
Proof.
  intros Hn Tk. unfold runTests. rewrite Hn, Tk.
  simpl negb. cbv iota. simpl nth. cbv zeta.
  set (file := (module ++ ".js")).
  assert (exists cs, issued (issue (Require file) st)
                     = (issued st ++ Require file :: cs)%list)
    as required by (exists []; reflexivity).
  destruct (node_require w file) as [exports|exn]; [|exact required].
  destruct (negb _); [exact required|].
  destruct (array_like _) as [[tests|exn]|]; try exact required.
  unfold and_then.
  destruct (pushContextTests_log w (exports name) tests
              (issue (Require file) st)) as (cs & L & _).
  destruct (pushContextTests w _ tests _) as [[ps|r| |e|] st2];
    simpl in L; simpl;
    (exists cs; rewrite L; simpl; now rewrite <- app_assoc).
Qed.

(** X24.  When both documents load, what a test run does with the
    Handler depends on its dots alone.  With exactly one dot the
    Handler is [<module>.<name>], neither part holding a dot, and the
    first call of the run is the [require] of [<module>.js]; with no
    dot or more than one the promise is rejected with 'Invalid
    handler' and nothing is required or invoked. *)
Theorem test_handler_dots
    (w : World) (testFileName : option string) (st : State)
    (cfg tests : value) (handlerName : string) :
  fs_readFile_utf8 w FILE_LAMBDA_CONFIG = Parses cfg ->
  isLambdaConfig cfg = Normal true ->
  isNEString (get cfg "FunctionName") = true ->
  get cfg "Handler" = VStr handlerName ->
  isNEString (VStr handlerName) = true ->
  fs_readFile_utf8 w (testFile testFileName) = Parses tests ->
  isLambdaTests tests = Normal true ->
  (count_dots handlerName = 1 ->
   exists module name rest,
     handlerName = module ++ "." ++ name
     /\ count_dots module = 0 /\ count_dots name = 0
     /\ calls_during (test w testFileName) st
        = Require (module ++ ".js") :: rest)
  /\ (count_dots handlerName <> 1 ->
      fst (test w testFileName st) = Rejected (VStr "Invalid handler")
      /\ calls_during (test w testFileName) st = []).
Proof.
  intros Rc Vc Nf Hn Ne Rt Vt.
  rewrite (test_loaded w testFileName st cfg tests)
    by (try assumption; now rewrite Hn).
  set (loaded := set_lambdaTests tests (set_lambdaCfg cfg st)).
  assert (calls_during (test w testFileName) st = calls_during (runTests w) loaded)
    as C.
  { unfold calls_during.
    rewrite (test_loaded w testFileName st cfg tests)
      by (try assumption; now rewrite Hn). reflexivity. }
  rewrite C.
  pose proof (split_dot_length handlerName) as Len.
  pose proof (split_dot_join handlerName) as Join.
  pose proof (split_dot_tokens handlerName) as Tok.
  split.
  - intros One. rewrite One in Len.
    destruct (split_dot handlerName) as [|module [|name [|x xs]]] eqn:Tk;
      try discriminate Len.
    pose proof (Forall_inv Tok) as Dm.
    pose proof (Forall_inv (Forall_inv_tail Tok)) as Dn.
    simpl in Dm, Dn, Join.
    destruct (runTests_requires w loaded handlerName module name Hn Tk)
      as [rest L].
    exists module, name, rest. repeat split; auto.
    now apply calls_during_app.
  - intros Other.
    assert (runTests w loaded = (Rejected (VStr "Invalid handler"), loaded)) as E.
    { unfold runTests. change (lambdaCfg loaded) with cfg. rewrite Hn.
      cbv zeta. rewrite Len.
      destruct (S (count_dots handlerName) =? 2)%nat eqn:Q; [|reflexivity].
      apply Nat.eqb_eq in Q. lia. }
    split; [now rewrite E|].
    apply calls_during_app. rewrite E. simpl. now rewrite app_nil_r.
Qed.

Lemma test_handler_dots_witness :
  let w := test_world (Parses (VArr two_tests)) echo in
  (count_dots "index.handler" = 1 ->
   exists module name rest,
     "index.handler" = module ++ "." ++ name
     /\ count_dots module = 0 /\ count_dots name = 0
     /\ calls_during (test w None) fresh = Require (module ++ ".js") :: rest)
  /\ (count_dots "index.handler" <> 1 ->
      fst (test w None fresh) = Rejected (VStr "Invalid handler")
      /\ calls_during (test w None) fresh = []).
Proof.
  intros w.
  apply (test_handler_dots w None fresh sample_config (VArr two_tests)
           "index.handler"); reflexivity.
Defined.

(* ================================================================== *)
(** ** [init] *)

Lemma readObject_run (w : World) (file : string) (checkType : option string)
    (st : State) :
  readObject w file checkType st
  = (fst (readObject w file checkType fresh), st).
Proof.
  unfold readObject.
  destruct (fs_readFile_utf8 w file) as [| |object]; try reflexivity.
  destruct (truthy object); [|reflexivity].
  destruct checkType as [type|]; [|reflexivity].
  destruct (truthy (VStr type)); [|reflexivity].
  destruct (checkObject object type) as [result|exn]; [|reflexivity].
  destruct (truthy (VStr result)); reflexivity.
Qed.

Ltac read_cases w file :=
  let F := fresh "F" in
  let o := fresh "o" in
  pose proof (readObject_run w file (Some file) fresh) as F;
  set (o := fst (readObject w file (Some file) fresh)) in *;
  clearbody o; rewrite ?F; clear F;
  destruct o as [?a|?r| |?e|].

Lemma createObject_truthy (file : string) :
  In file init_files -> truthy (createObject file) = true.
Proof. intros [<- | [<- | [<- | []]]]; reflexivity. Qed.

Lemma checkAndInit_run (w : World) (fs_writeFile : string -> value -> bool)
    (file : string) (st : State) (files : list written) :
  In file init_files ->
  checkAndInit w fs_writeFile file file (st, files)
  = (init_answer w fs_writeFile file,
     (st, (files ++ if read_rejected w file then [(file, createObject file)]
                    else [])%list)).
Proof.
  intros I. unfold init_answer, checkAndInit, read_rejected. simpl fst.
  simpl snd. rewrite (readObject_run w file (Some file) st).
  read_cases w file; simpl; try (now rewrite app_nil_r).
  unfold initFile. rewrite (createObject_truthy file I).
  unfold writeObject. simpl.
  destruct (fs_writeFile file (createObject file)); reflexivity.
Qed.

Lemma init_run (w : World) (fs_writeFile : string -> value -> bool)
    (st : State) (files : list written) :
  init w fs_writeFile (st, files)
  = (settle_all (first_rejection w)
       (map (init_answer w fs_writeFile) init_files),
     (st, (files
           ++ flat_map (fun file => if read_rejected w file
                                    then [(file, createObject file)] else [])
                init_files)%list)).
Proof.
  unfold init, start_jobs.
  rewrite !checkAndInit_run by (simpl; tauto).
  simpl. now rewrite app_nil_r, <- !app_assoc.
Qed.




Lemma read_rejected_document (w : World) (file : string) :
  In file init_files ->
  read_rejected w file
  = match fs_readFile_utf8 w file with
    | Unreadable | Malformed => true
    | Parses object =>
        truthy object
        && match checkObject object file with
           | Normal result => negb (String.eqb result "")
           | Throw _ => false
           end
    end.
Proof.
  intros I. unfold read_rejected, readObject.
  assert (truthy (VStr file) = true) as ->
    by (destruct I as [<- | [<- | [<- | []]]]; reflexivity).
  destruct (fs_readFile_utf8 w file) as [| |object]; try reflexivity.
  destruct (truthy object); [|reflexivity].
  destruct (checkObject object file) as [result|exn]; [|reflexivity].
  simpl. destruct (String.eqb result ""); reflexivity.
Qed.


Lemma init_answer_resolved (w : World)
    (fs_writeFile : string -> value -> bool) (file : string) (v : value) :
  In file init_files ->
  init_answer w fs_writeFile file = Resolved v
  <-> ((exists object,
          fst (readObject w file (Some file) fresh) = Resolved object)
       \/ (read_rejected w file = true
           /\ fs_writeFile file (createObject file) = true))
      /\ v = init_result w file.
Proof.
  intros I. unfold init_answer, checkAndInit, init_result, read_rejected.
  simpl fst. simpl snd.
  read_cases w file; simpl.
  - split.
    + intros E. inversion E. split; [left; eauto|reflexivity].
    + intros [_ ->]. reflexivity.
  - unfold initFile. rewrite (createObject_truthy file I).
    unfold writeObject. simpl.
    destruct (fs_writeFile file (createObject file)); simpl; split.
    + intros E. inversion E. split; [right; auto|reflexivity].
    + intros [_ ->]. reflexivity.
    + discriminate.
    + intros [[[o E]|[_ E]] _]; discriminate E.
  - split; [discriminate|]. intros [[[o E]|[E _]] _]; discriminate E.
  - split; [discriminate|]. intros [[[o E]|[E _]] _]; discriminate E.
  - split; [discriminate|]. intros [[[o E]|[E _]] _]; discriminate E.
Qed.

(** X27.  The promise of [init] is fulfilled exactly when each of the
    three files is read and accepted, or has its reading rejected and
    its default object written with success; it is then fulfilled with
    the array, in the order configuration, secrets, tests, of the
    document read or of the message 'File <file> has been written'. *)
Theorem init_fulfilled_iff
    (w : World) (fs_writeFile : string -> value -> bool) (st : State)
    (files : list written) (v : value) :
  fst (init w fs_writeFile (st, files)) = Resolved v
  <-> Forall (fun file =>
                (exists object,
                   fst (readObject w file (Some file) fresh) = Resolved object)
                \/ (read_rejected w file = true
                    /\ fs_writeFile file (createObject file) = true))
        init_files
      /\ v = VArr (map (init_result w) init_files).
Proof.
  rewrite init_run. cbn [fst].
  apply settle_all_map_resolved.
  intros file a I. now apply init_answer_resolved.
Qed.

(** X28.  The promise of [init] is rejected only by a write that
    fails: the reason is 'Failed to write file <file>' for one of the
    three files, whose reading was rejected and whose write failed.  A
    file that is missing, is not JSON or is refused by [checkObject]
    never makes [init] fail by itself. *)
Theorem init_rejected_by_write
    (w : World) (fs_writeFile : string -> value -> bool) (st : State)
    (files : list written) (reason : value) :
  fst (init w fs_writeFile (st, files)) = Rejected reason ->
  exists file,
    In file init_files
    /\ reason = VStr ("Failed to write file " ++ file)
    /\ read_rejected w file = true
    /\ fs_writeFile file (createObject file) = false.
Proof.
  rewrite init_run. cbn [fst]. intros E.
  apply settle_all_rejected in E. apply in_map_iff in E.
  destruct E as (file & A & I). exists file. split; [exact I|].
  revert A. unfold init_answer, checkAndInit, read_rejected.
  simpl fst. simpl snd.
  read_cases w file; simpl; try discriminate.
  unfold initFile. rewrite (createObject_truthy file I).
  unfold writeObject. simpl.
  destruct (fs_writeFile file (createObject file)); [discriminate|].
  intros A. inversion A. auto.
Qed.

Lemma init_rejected_by_write_witness :
  let w := sample_world Malformed None service_error service_error
             service_error service_error service_error in
  exists file,
    In file init_files
    /\ VStr "Failed to write file lambda-config.json"
       = VStr ("Failed to write file " ++ file)
    /\ read_rejected w file = true
    /\ read_only file (createObject file) = false.
Proof.
  intros w.
  apply (init_rejected_by_write w read_only fresh []). reflexivity.
Defined.


Lemma read_rejected_default (w : World) (file : string) :
  In file init_files ->
  fs_readFile_utf8 w file = Parses (createObject file) ->
  read_rejected w file = false.
Proof.
  intros I E. rewrite (read_rejected_document w file I), E.
  destruct I as [<- | [<- | [<- | []]]]; reflexivity.
Qed.



(* ================================================================== *)
(** ** The files of [init] under [deploy] and [test] *)

Lemma default_documents_do_not_load (w : World) (file : string) :
  In file [FILE_LAMBDA_CONFIG; FILE_LAMBDA_SECRETS] ->
  fs_readFile_utf8 w file = Parses (createObject file) ->
  ~ documents_load w.
Proof.
  intros I E (cfg & secrets & Rc & _ & Nf & _ & Rs & _ & Nr & _).
  destruct I as [<- | [<- | []]].
  - rewrite E in Rc. inversion Rc. subst cfg. discriminate Nf.
  - rewrite E in Rs. inversion Rs. subst secrets. discriminate Nr.
Qed.

Lemma test_default_config (w : World) (testFileName : option string)
    (st : State) :
  fs_readFile_utf8 w FILE_LAMBDA_CONFIG
  = Parses (createObject FILE_LAMBDA_CONFIG) ->
  issued (snd (test w testFileName st)) = issued st
  /\ forall v, fst (test w testFileName st) <> Resolved v.
Proof.
  intros E. unfold test.
  set (load := Promise_all w _).
  assert (quiet load) as Q.
  { apply quiet_Promise_all. repeat constructor; apply quiet_and_then;
      auto using quiet_readObject, quiet_onLambdaConfig, quiet_onLambdaTests. }
  assert (forall a, fst (load st) <> Resolved a) as N.
  { intros a. unfold load, Promise_all. simpl start_all.
    assert ((readObject w FILE_LAMBDA_CONFIG (Some FILE_LAMBDA_CONFIG)
             >>= onLambdaConfig) st
            = (Rejected (VStr "Invalid Lambda config"), st)) as ->
      by (unfold and_then, readObject; rewrite E; reflexivity).
    destruct ((readObject w (testFile testFileName) (Some FILE_LAMBDA_TESTS)
               >>= onLambdaTests) st) as [o2 st2].
    simpl. intros R. apply settle_all_resolved in R. destruct R as [F _].
    inversion F as [|? ? [x X] _]. discriminate X. }
  destruct (and_then_stops load (fun _ => runTests w) st N) as [S NR].
  split; [|exact NR]. rewrite S. apply (Q st).
Qed.

(** X30.  The configuration and the secrets that [init] writes pass the
    check of [init], which therefore does not write them again, but not
    the checks of a deploy: while lambda-config.json or
    lambda-secrets.json holds the default object, a deploy is not
    fulfilled and issues no call; while lambda-config.json does, a
    test run is not fulfilled, requires no module and invokes
    nothing. *)
Theorem init_defaults_refused (w : World) (file : string) :
  In file [FILE_LAMBDA_CONFIG; FILE_LAMBDA_SECRETS] ->
  fs_readFile_utf8 w file = Parses (createObject file) ->
  read_rejected w file = false
  /\ (forall options st,
        calls_during (deploy w options) st = []
        /\ forall v, fst (deploy w options st) <> Resolved v)
  /\ (file = FILE_LAMBDA_CONFIG ->
      forall testFileName st,
        calls_during (test w testFileName) st = []
        /\ forall v, fst (test w testFileName st) <> Resolved v).
Proof.
  intros I E. split; [|split].
  - apply read_rejected_default; [|exact E].
    unfold init_files. simpl in *. tauto.
  - intros options st.
    assert (forall c, fst (createLambdaService w st) <> Resolved c) as NR.
    { intros c R. apply (default_documents_do_not_load w file I E).
      destruct (createLambdaService w st) as [o st1] eqn:S. simpl in R. subst o.
      exact (createLambdaService_documents w st st1 c S). }
    destruct (deploy_not_reached w options st NR) as [L F].
    split; [|exact F].
    apply calls_during_app. now rewrite L, app_nil_r.
  - intros -> testFileName st.
    destruct (test_default_config w testFileName st E) as [L F].
    split; [|exact F].
    apply calls_during_app. now rewrite L, app_nil_r.
Qed.

Lemma init_defaults_refused_witness :
  let w := sample_world (Parses (createObject FILE_LAMBDA_CONFIG))
             (Some sample_archive) (Succeeded (sample_snapshot 3 "b2xk"))
             service_error service_error service_error service_error in
  read_rejected w FILE_LAMBDA_CONFIG = false
  /\ (forall options st,
        calls_during (deploy w options) st = []
        /\ forall v, fst (deploy w options st) <> Resolved v)
  /\ (FILE_LAMBDA_CONFIG = FILE_LAMBDA_CONFIG ->
      forall testFileName st,
        calls_during (test w testFileName) st = []
        /\ forall v, fst (test w testFileName st) <> Resolved v).
Proof.
  intros w. apply (init_defaults_refused w FILE_LAMBDA_CONFIG).
  - simpl. tauto.
  - reflexivity.
Defined.
